(** * Walmart AutoShop Bot: price matcher and cart orchestrator

    A shallow embedding of the decision logic of
    - [walmart_scraper.py]  (MyFastScraper.process_product),
    - [walmart_bot_test.py] (WalmartBot: login check, add-to-cart retry loop,
      per-item orchestration, outcome stores),
    - [utils/helpers.py]    (HtmlPageScraper.request_html, load_input_data),
    followed by the properties the specification states about them. *)

From Stdlib Require Import QArith Qabs Lqa ZArith String Ascii List Permutation Sorted Lia.
From stdpp Require Import gmap strings list.

Local Open Scope Z_scope.

(* ===================================================================== *)
(** * Python floats                                                       *)
(* ===================================================================== *)

(** A Python float (IEEE 754 binary64) with its special values.  A finite
    float is given by the rational it stands for; the comparisons and [abs]
    are exact on floats, and the subtraction rounds its exact result to the
    nearest double, ties to even ([round64] below), as the hardware does. *)
Inductive pyfloat : Type :=
| Fin (q : Q)
| PInf
| NInf
| NaN.

(** [a <= b] on floats: false as soon as one side is NaN. *)
Definition fle (a b : pyfloat) : bool :=
  match a, b with
  | NaN, _ | _, NaN => false
  | NInf, _ => true
  | _, PInf => true
  | Fin x, Fin y => Qle_bool x y
  | _, _ => false
  end.

(** [a < b] on floats. *)
Definition flt (a b : pyfloat) : bool :=
  match a, b with
  | NaN, _ | _, NaN => false
  | PInf, _ => false
  | _, NInf => false
  | Fin x, Fin y => negb (Qle_bool y x)
  | _, _ => true
  end.

(** [a > b] is [b < a]. *)
Definition fgt (a b : pyfloat) : bool := flt b a.

(** [a == b] on floats (NaN differs from everything, itself included). *)
Definition feq (a b : pyfloat) : bool :=
  match a, b with
  | Fin x, Fin y => Qeq_bool x y
  | PInf, PInf | NInf, NInf => true
  | _, _ => false
  end.

(** ** Rounding to binary64

    Every finite double is an integer number of units of [2^-1074], the
    smallest subnormal.  Up to [2^53] units (the subnormals and the first
    binade of the normal numbers) the doubles are one unit apart; above,
    in the binade from [2^k] to [2^(k+1)] units, they are [2^(k-52)] units
    apart.  From [2^2098] units ([2^1024]) on, the result is infinite. *)

(** The integer nearest to [n / d], the even one of two equally near. *)
Definition rne_div (n d : Z) : Z :=
  let f := n / d in
  let r := n mod d in
  match 2 * r ?= d with
  | Lt => f
  | Gt => f + 1
  | Eq => if Z.even f then f else f + 1
  end.

(** The distance between neighbouring doubles around [x] units. *)
Definition ulp_units (x : Z) : Z := 2 ^ Z.max 0 (Z.log2 x - 52).

Definition unit_scale : Z := 2 ^ 1074.

Definition overflow_units : Z := 2 ^ 2098.

(** The double nearest to [x / d] units, for [0 <= x] and [0 < d]. *)
Definition round_scaled (x d : Z) : Z :=
  rne_div x (d * ulp_units (x / d)) * ulp_units (x / d).

(** The double nearest to [n / d], for [0 <= n] and [0 < d], in units. *)
Definition round_units (n d : Z) : Z := round_scaled (n * unit_scale) d.

Definition of_units (m : Z) : Q := Qred (m # Z.to_pos unit_scale).

(** The float that an exact result [q] is rounded to. *)
Definition round64 (q : Q) : pyfloat :=
  match Qnum q with
  | 0 => Fin 0
  | Zpos n =>
      let m := round_units (Zpos n) (Zpos (Qden q)) in
      if overflow_units <=? m then PInf else Fin (of_units m)
  | Zneg n =>
      let m := round_units (Zpos n) (Zpos (Qden q)) in
      if overflow_units <=? m then NInf else Fin (of_units (- m))
  end.

(** [a - b]. *)
Definition fsub (a b : pyfloat) : pyfloat :=
  match a, b with
  | NaN, _ | _, NaN => NaN
  | Fin x, Fin y => round64 (x - y)
  | PInf, PInf | NInf, NInf => NaN
  | PInf, _ => PInf
  | NInf, _ => NInf
  | Fin _, PInf => NInf
  | Fin _, NInf => PInf
  end.

(** The difference of two numbers as the real numbers have it. *)
Definition exact_sub (a b : pyfloat) : pyfloat :=
  match a, b with
  | NaN, _ | _, NaN => NaN
  | Fin x, Fin y => Fin (x - y)
  | PInf, PInf | NInf, NInf => NaN
  | PInf, _ => PInf
  | NInf, _ => NInf
  | Fin _, PInf => NInf
  | Fin _, NInf => PInf
  end.

(** [abs(a)]. *)
Definition fabs (a : pyfloat) : pyfloat :=
  match a with
  | Fin x => Fin (Qabs x)
  | PInf | NInf => PInf
  | NaN => NaN
  end.

Definition fzero : pyfloat := Fin 0.

(** Exceptions the modelled code can meet. *)
Inductive exn : Type :=
| ValueError
| TypeError
| AttributeError
| FileNotFoundError
| UnicodeDecodeError
| OSError.

(** What [float(v)] does with a value read from a record: it returns the
    float a number or a numeric string denotes, raises [ValueError] on a
    string that is no float literal, and [TypeError] on [None], a list or a
    dict.  The numbers are floats, as [_extract_products_by_json] and
    [load_input_data] store them, or ints inside the float range. *)
Inductive pyprice : Type :=
| Numeric (f : pyfloat)
| Unparsable
| WrongType.

Definition py_float (v : pyprice) : pyfloat + exn :=
  match v with
  | Numeric f => inl f
  | Unparsable => inr ValueError
  | WrongType => inr TypeError
  end.

(* ===================================================================== *)
(** * Candidates and the shortlist                                        *)
(* ===================================================================== *)

(** A scraped product record.  [price = None] is a dict without the
    ["price"] key.  [added_to_cart] and [added_time] are the two keys the
    cart phase stamps on a winning candidate; a freshly scraped record has
    neither. *)
Record candidate : Type := {
  name : string;
  price : option pyprice;
  url : string;
  added_to_cart : bool;
  added_time : option string
}.

(** [sorted(l, key=key)]: Python's sort is stable and compares with [<]
    only.  Insertion from the right with a strict test keeps an element in
    front of every later element it does not exceed. *)
Section Sorted.
Context {A : Type} (key : A -> pyfloat).

Fixpoint insert_by (x : A) (l : list A) : list A :=
  match l with
  | [] => [x]
  | y :: ys => if flt (key y) (key x) then y :: insert_by x ys else x :: y :: ys
  end.

Fixpoint sorted_by (l : list A) : list A :=
  match l with
  | [] => []
  | x :: xs => insert_by x (sorted_by xs)
  end.

End Sorted.

(** [item_info["eligible_products"]] as the scrape phase leaves it.
    [Tuple1 l] is the one-element tuple [(l,)] that the trailing comma of
    lines 107 and 111 builds (a one-element JSON array once written to
    [scraped_products.json]); [Bare l] is the list [l] itself. *)
Inductive ep_field : Type :=
| Tuple1 (shortlist : list candidate)
| Bare (l : list candidate).

(** The dict of one input item, read through the keys the scrape and cart
    phases use.  A missing key is [None]. *)
Record item_info : Type := {
  product_name : option string;
  min_price : option pyprice;
  max_price : option pyprice;
  extra : list (string * string);
  eligible_products : option ep_field;
  error : option exn
}.

Definition set_eligible (item : item_info) (ep : ep_field) (err : option exn) : item_info :=
  {| product_name := product_name item;
     min_price := min_price item;
     max_price := max_price item;
     extra := extra item;
     eligible_products := Some ep;
     error := match err with Some e => Some e | None => error item end |}.

(** Results of code that can raise.  [OutOfFuel] is the model's own: a
    loop that was cut before the source's loop condition turned false. *)
Inductive result (A : Type) : Type :=
| Ok (a : A)
| Raise (e : exn)
| OutOfFuel.
Arguments Ok {A} a.
Arguments Raise {A} e.
Arguments OutOfFuel {A}.

#[global] Instance result_bind : MBind result := fun A B f m =>
  match m with
  | Ok a => f a
  | Raise e => Raise e
  | OutOfFuel => OutOfFuel
  end.

Module Scraper.

(** [float(product.get("price", 0))]: a missing key reads as 0. *)
Definition product_price (c : candidate) : pyfloat + exn :=
  match price c with
  | None => inl fzero
  | Some v => py_float v
  end.

(** The filter loop of [process_product] (lines 88-96): a product whose
    price does not convert is logged and skipped. *)
Fixpoint filter_loop (min_price max_price : pyfloat) (parsed_products acc : list candidate)
  : list candidate :=
  match parsed_products with
  | [] => acc
  | product :: rest =>
      match product_price product with
      | inl p =>
          if fle min_price p && fle p max_price
          then filter_loop min_price max_price rest (acc ++ [product])
          else filter_loop min_price max_price rest acc
      | inr _ => filter_loop min_price max_price rest acc
      end
  end.

(** The sort key (line 102).  It is only evaluated on products that passed
    the filter, whose price converts; the [inr] branch is never taken. *)
Definition sort_key (min_price : pyfloat) (c : candidate) : pyfloat :=
  match product_price c with
  | inl p => fabs (fsub p min_price)
  | inr _ => NaN
  end.

(** Lines 88-111 as a function of the candidates and the band: the
    shortlist that ends up inside [eligible_products]. *)
Definition select (candidates : list candidate) (min_price max_price : pyfloat)
  : list candidate :=
  let filtered_products := filter_loop min_price max_price candidates [] in
  match filtered_products with
  | [] => []
  | _ => firstn 2 (sorted_by (sort_key min_price) filtered_products)
  end.

(** [float(item_info.get("min_price", 0))] and
    [float(item_info.get("max_price", float('inf')))] (lines 84-85). *)
Definition band (item : item_info) : (pyfloat * pyfloat) + exn :=
  match match min_price item with None => inl fzero | Some v => py_float v end with
  | inr e => inr e
  | inl lo =>
      match match max_price item with None => inl PInf | Some v => py_float v end with
      | inr e => inr e
      | inl hi => inl (lo, hi)
      end
  end.

(** [MyFastScraper.process_product].  The [try] body attaches the
    shortlist wrapped in a one-element tuple; the [except] branch attaches
    the bare empty list and the error. *)
Definition process_product (item : item_info) (parsed_products : list candidate) : item_info :=
  match band item with
  | inl (lo, hi) => set_eligible item (Tuple1 (select parsed_products lo hi)) None
  | inr e => set_eligible item (Bare []) (Some e)
  end.

End Scraper.

(* ===================================================================== *)
(** * The cart orchestrator (WalmartBot)                                  *)
(* ===================================================================== *)

(** A JSON outcome file on disk. *)
Inductive store_file : Type :=
| Missing                                   (* [os.path.exists] is false *)
| Undecodable                               (* bytes that are no UTF-8 text *)
| Garbage                                   (* text on which [json.load] raises JSONDecodeError *)
| JsonObject (data : gmap string item_info) (* a JSON object: a dict *)
| JsonOther.                                (* valid JSON that is no object *)

Record stores : Type := {
  success_file : store_file;   (* added_to_carts_successful_products.json *)
  failure_file : store_file    (* failed_to_add_products.json *)
}.

(** What one page answers to the probes of the login check.  A probe is
    [None] when the driver call raises. *)
Record page : Type := {
  hi_account : option bool;       (* 'Hi, ' under a[@link-identifier="Account"] *)
  hi_header : option bool;        (* 'Hi, ' under div[@data-automation-id="headerSignIn"] *)
  signin_account : option bool;   (* 'Sign In, ' under the account link *)
  signin_header : option bool;    (* 'Sign In, ' under the header div *)
  body_text : option string;      (* [browser.get_text('body')] *)
  robot_h1 : option bool;         (* h1 "Robot or human?" visible *)
  robot_h2 : option bool          (* h2 "Robot or human?" visible *)
}.

(** What one browser session shows to [attempt_add_to_cart]. *)
Record session_obs : Type := {
  setup_ok : bool;        (* SB(...) entered, window placed, url opened, cookies added, refresh *)
  body_visible : bool;    (* [wait_for_element_visible('.//body', timeout)] returns *)
  pg : page;
  add_button : option bool;   (* the add-to-cart button is visible *)
  click_ok : bool;            (* waiting for the button and clicking it raise nothing *)
  added_banner : option bool; (* h1 "Added to cart!" visible *)
  view_cart : option bool     (* button "View cart" visible *)
}.

(** How one session ends. *)
Inductive attempt_outcome : Type :=
| SessionError
| LoadTimeout
| Blocked
| NotLoggedIn
| ClickError
| NotConfirmed
| ButtonMissing
| Added
| AlreadyInCart.

(** One opened browser session: the candidate, whether it ran on the
    proxied profile, and how it ended. *)
Record log_entry : Type := {
  le_candidate : candidate;
  le_proxy : bool;
  le_outcome : attempt_outcome
}.

(** The environment: what the [n]-th session opened shows for a candidate
    and a proxy choice, and what [datetime.now()] prints after [n]
    sessions. *)
Record world : Type := {
  browse : nat -> candidate -> bool -> session_obs;
  clock : nat -> string
}.

Record cart_state : Type := {
  sessions : list log_entry;
  files : stores
}.

(** The local state of the retry loop. *)
Record loop_state : Type := {
  retries : Z;
  proxy_needed : bool
}.

Inductive flow : Type :=
| Return (b : bool)
| Continue (st : loop_state).

(** What the caller of the login check makes of the pair it returns. *)
Inductive login_status : Type :=
| LoggedIn
| NotSignedIn
| BlockedPage.

Module Bot.

(** [a or b] over probes that may raise: [b] is not evaluated when [a] is true. *)
Definition por (a b : option bool) : option bool :=
  match a with
  | None => None
  | Some true => Some true
  | Some false => b
  end.

Definition contains (needle hay : string) : bool :=
  match String.index 0 needle hay with
  | Some _ => true
  | None => false
  end.

(** [is_request_blocked] (lines 151-168). *)
Definition is_request_blocked (p : page) : bool :=
  match body_text p with
  | None => false
  | Some body =>
      match por (robot_h1 p) (robot_h2 p) with
      | None => false
      | Some true => true
      | Some false =>
          negb (String.eqb body "") && (Z.of_nat (String.length body) <? 500)
          && contains "Forbidden" body
      end
  end.

(** [is_account_logged_in] (lines 182-207): the pair
    [(is_logged_in, is_captcha_detected)], each possibly [None]. *)
Definition is_account_logged_in (p : page) : option bool * option bool :=
  match por (hi_account p) (hi_header p) with
  | None => (None, None)
  | Some true => (Some true, Some false)
  | Some false =>
      match por (signin_account p) (signin_header p) with
      | None => (None, None)
      | Some true => (Some false, Some false)
      | Some false =>
          if is_request_blocked p then (Some false, Some true) else (Some true, None)
      end
  end.

(** Truthiness of an [Optional[bool]]. *)
Definition truthy (o : option bool) : bool :=
  match o with
  | Some true => true
  | _ => false
  end.

(** The branches of lines 321-352 on the pair: [if captcha_detected] first,
    then [if is_logged_in]. *)
Definition login_check (p : page) : login_status :=
  let '(is_logged_in, captcha_detected) := is_account_logged_in p in
  if truthy captcha_detected then BlockedPage
  else if truthy is_logged_in then LoggedIn
  else NotSignedIn.

(** [is_add_to_cart_button_visible] (lines 219-226). *)
Definition is_add_to_cart_button_visible (o : session_obs) : bool :=
  truthy (add_button o).

(** [is_item_added_to_cart] (lines 238-253). *)
Definition is_item_added_to_cart (o : session_obs) : bool :=
  truthy (por (added_banner o) (view_cart o)).

(** One pass through the body of the [with SB(...)] block (lines 283-356). *)
Definition run_session (o : session_obs) : attempt_outcome :=
  if negb (setup_ok o) then SessionError
  else if negb (body_visible o) then LoadTimeout
  else
    match login_check (pg o) with
    | BlockedPage => Blocked
    | LoggedIn =>
        if is_add_to_cart_button_visible o then
          if click_ok o then
            if is_item_added_to_cart o then Added else NotConfirmed
          else ClickError
        else
          if is_item_added_to_cart o then AlreadyInCart else ButtonMissing
    | NotSignedIn => NotLoggedIn
    end.

(** What one iteration of the [while] does to the loop state. *)
Definition loop_body (out : attempt_outcome) (st : loop_state) : flow :=
  match out with
  | Added | AlreadyInCart => Return true                       (* lines 339, 348 *)
  | LoadTimeout =>                                             (* lines 314-316 *)
      Continue {| retries := retries st + 1; proxy_needed := proxy_needed st |}
  | Blocked =>                                                 (* lines 323-326 *)
      Continue {| retries := retries st + 1; proxy_needed := true |}
  | SessionError | NotLoggedIn | ClickError | NotConfirmed | ButtonMissing =>
      Continue {| retries := retries st + 1; proxy_needed := proxy_needed st |}  (* line 358 *)
  end.

(** [while retries < self.retry_attempts] (lines 275-362).  Every session
    opened is appended to the log. *)
Fixpoint attempt_loop (fuel : nat) (w : world) (retry_attempts : Z) (c : candidate)
    (st : loop_state) (log : list log_entry) : result (bool * loop_state * list log_entry) :=
  if retries st <? retry_attempts then
    match fuel with
    | O => OutOfFuel
    | S fuel' =>
        let out := run_session (browse w (length log) c (proxy_needed st)) in
        let log' := log ++ [{| le_candidate := c; le_proxy := proxy_needed st; le_outcome := out |}] in
        match loop_body out st with
        | Return b => Ok (b, st, log')
        | Continue st' => attempt_loop fuel' w retry_attempts c st' log'
        end
    end
  else Ok (false, st, log).

Definition initial_state : loop_state := {| retries := 0; proxy_needed := false |}.

(** [attempt_add_to_cart]: [retries = 0], [proxy_needed = False], then the loop. *)
Definition attempt_add_to_cart (w : world) (retry_attempts : Z) (c : candidate)
    (log : list log_entry) : result (bool * loop_state * list log_entry) :=
  attempt_loop (Z.to_nat retry_attempts) w retry_attempts c initial_state log.

(** The guard of lines 377-381 and the list it hands to the loop.  A bare
    non-empty list makes [eligible_products[0]] a product dict: the loop then
    walks over its keys and [.get] on a string raises. *)
Definition products_list (item : item_info) : result (option (list candidate)) :=
  match eligible_products item with
  | None => Ok None
  | Some (Tuple1 []) => Ok None
  | Some (Tuple1 l) => Ok (Some l)
  | Some (Bare []) => Ok None
  | Some (Bare (_ :: _)) => Raise AttributeError
  end.

(** The [for] loop of lines 384-401 from index [i] on: the index of the
    product that went into the cart, if any. *)
Fixpoint try_products (w : world) (retry_attempts : Z) (i : nat) (products : list candidate)
    (log : list log_entry) : result (option nat * list log_entry) :=
  match products with
  | [] => Ok (None, log)
  | eligible_product :: rest =>
      if added_to_cart eligible_product then
        try_products w retry_attempts (S i) rest log
      else
        '(ok, _, log') ← attempt_add_to_cart w retry_attempts eligible_product log;
        if (ok : bool) then Ok (Some i, log')
        else if (1 <=? Z.of_nat i) && (2 <=? retry_attempts) then Ok (None, log')
        else try_products w retry_attempts (S i) rest log'
  end.

(** Lines 393-394 on the product object, which the item's list shares. *)
Definition stamp (c : candidate) (now : string) : candidate :=
  {| name := name c; price := price c; url := url c;
     added_to_cart := true; added_time := Some now |}.

Definition stamp_item (item : item_info) (l : list candidate) (i : nat) (now : string)
  : item_info :=
  match l !! i with
  | Some c => set_eligible item (Tuple1 (<[i := stamp c now]> l)) None
  | None => item
  end.

(** [WalmartBot.process_product]: [Some {item_key: item_info}] or [None]. *)
Definition process_product (w : world) (retry_attempts : Z) (item_key : string)
    (item : item_info) (log : list log_entry)
  : result (option (gmap string item_info) * list log_entry) :=
  pl ← products_list item;
  match pl with
  | None => Ok (None, log)
  | Some l =>
      '(winner, log') ← try_products w retry_attempts 0 l log;
      match (winner : option nat) with
      | Some i => Ok (Some {[ item_key := stamp_item item l i (clock w (length log')) ]}, log')
      | None => Ok (None, log')
      end
  end.

(** [save_product_data]: load, [data.update(product)], dump.  The file is
    opened with [encoding='utf-8'], and only JSONDecodeError is caught
    around [json.load]: on bytes that do not decode the read raises
    UnicodeDecodeError, and on JSON that is no object [data.update] raises
    AttributeError.  Either leaves the function before the file is
    written. *)
Definition load_store (f : store_file) : result (gmap string item_info) :=
  match f with
  | Missing => Ok (∅ : gmap string item_info)
  | Undecodable => Raise UnicodeDecodeError
  | Garbage => Ok (∅ : gmap string item_info)
  | JsonObject data => Ok data
  | JsonOther => Raise AttributeError
  end.

Definition save_product_data (product : gmap string item_info) (is_success : bool)
    (fs : stores) : result stores :=
  if is_success then
    data ← load_store (success_file fs);
    Ok {| success_file := JsonObject (product ∪ data); failure_file := failure_file fs |}
  else
    data ← load_store (failure_file fs);
    Ok {| success_file := success_file fs; failure_file := JsonObject (product ∪ data) |}.

(** Reading a store back, as the next [save_product_data] does. *)
Definition read_store (f : store_file) : result (gmap string item_info) := load_store f.

(** [add_to_cart_single_product] (lines 417-424). *)
Definition add_to_cart_single_product (w : world) (retry_attempts : Z) (item_key : string)
    (item : item_info) (st : cart_state) : result cart_state :=
  '(added_to_cart_product, log') ← process_product w retry_attempts item_key item (sessions st);
  match (added_to_cart_product : option (gmap string item_info)) with
  | Some product =>
      fs ← save_product_data product true (files st);
      Ok {| sessions := log'; files := fs |}
  | None =>
      fs ← save_product_data {[ item_key := item ]} false (files st);
      Ok {| sessions := log'; files := fs |}
  end.


End Bot.

(* ===================================================================== *)
(** * Helpers: the fetcher and the input loader                           *)
(* ===================================================================== *)

(** What one [session.get] followed by [response.text()] comes to. *)
Inductive http_reply : Type :=
| ClientError                                   (* aiohttp.ClientError *)
| OtherError                                    (* any other Exception *)
| Response (status : Z) (html_content : string).

(** A value of the loader's product dict. *)
Inductive field_value : Type :=
| FStr (s : string)
| FNum (f : pyfloat).

(** The text of a price cell, through what [float(text.strip())] does with
    it: the float it denotes, or [ValueError]. *)
Inductive price_cell : Type :=
| Parses (f : pyfloat)
| Malformed.

(** One row of [csv.DictReader].  A cell is [None] when the row is shorter
    than the header (DictReader's [restval]).  [other_cells] are the
    remaining columns in header order; the key [None] is DictReader's
    [restkey], which holds the surplus values of a row longer than the
    header as a list. *)
Record csv_row : Type := {
  item_name_cell : option string;
  min_cost_cell : option price_cell;
  max_cost_cell : option price_cell;
  other_cells : list (option string * option string)
}.

Record csv_file : Type := {
  fieldnames : list string;
  rows : list csv_row
}.

Inductive row_result : Type :=
| Loaded (product_info : gmap string field_value)
| SkippedNoName
| Dropped (e : exn).

Module Helpers.

(** [HtmlPageScraper.request_html] (lines 51-84): [retries = 1],
    [while retries < 3].  [net n] is the reply to the [n]-th request sent;
    the result carries the number of requests sent.  Falling off the end of
    the loop returns [None]. *)
Fixpoint request_loop (fuel : nat) (net : nat -> http_reply) (retries : Z) (sent : nat)
  : result (option string * nat) :=
  if retries <? 3 then
    match fuel with
    | O => OutOfFuel
    | S fuel' =>
        match net sent with
        | Response status html_content =>
            if (status =? 200) && (2000 <? Z.of_nat (String.length html_content))
            then Ok (Some html_content, S sent)
            else request_loop fuel' net (retries + 1) (S sent)
        | ClientError | OtherError => request_loop fuel' net (retries + 1) (S sent)
        end
    end
  else Ok (None, sent).

Definition request_html (net : nat -> http_reply) : result (option string * nat) :=
  request_loop 2 net 1 0.

(** [str.strip], [str.lower] and [str.replace(' ', '_')].  A character of
    a text is a code point below 256.  There, [str.strip] removes the code
    points 9 to 13, 28 to 32, 133 and 160, and [str.lower] moves the
    letters 65 to 90 and 192 to 222, the sign 215 apart, up by 32. *)
Definition is_space (a : ascii) : bool :=
  let n := nat_of_ascii a in
  (((9 <=? n) && (n <=? 13)) || ((28 <=? n) && (n <=? 32))
   || (n =? 133) || (n =? 160))%nat.

Fixpoint lstrip (s : string) : string :=
  match s with
  | EmptyString => EmptyString
  | String a rest => if is_space a then lstrip rest else s
  end.

Fixpoint rstrip (s : string) : string :=
  match s with
  | EmptyString => EmptyString
  | String a rest =>
      match rstrip rest with
      | EmptyString => if is_space a then EmptyString else String a EmptyString
      | rest' => String a rest'
      end
  end.

Definition strip (s : string) : string := rstrip (lstrip s).

Definition lower_char (a : ascii) : ascii :=
  let n := nat_of_ascii a in
  if (((65 <=? n) && (n <=? 90))
      || ((192 <=? n) && (n <=? 222) && negb (n =? 215)))%nat
  then ascii_of_nat (n + 32) else a.

Fixpoint map_string (f : ascii -> ascii) (s : string) : string :=
  match s with
  | EmptyString => EmptyString
  | String a rest => String (f a) (map_string f rest)
  end.

(** [key.lower().replace(' ', '_')] (line 345). *)
Definition normalize_key (key : string) : string :=
  map_string (fun a => if Ascii.eqb a " "%char then "_"%char else a)
             (map_string lower_char key).

(** Lines 343-345: the columns other than the three required ones. *)
Fixpoint extras_loop (cells : list (option string * option string))
    (product_info : gmap string field_value) : row_result :=
  match cells with
  | [] => Loaded product_info
  | (_, None) :: _ => Dropped AttributeError        (* None.strip() *)
  | (None, Some _) :: _ => Dropped AttributeError   (* a list has no strip *)
  | (Some key, Some value) :: rest =>
      if negb (String.eqb (strip value) "")
      then extras_loop rest (<[ normalize_key key := FStr (strip value) ]> product_info)
      else extras_loop rest product_info
  end.

Definition cell_price (c : price_cell) : pyfloat :=
  match c with
  | Parses f => f
  | Malformed => fzero      (* except ValueError: ... = 0 *)
  end.

(** The body of the row loop (lines 302-351). *)
Definition load_row (row : csv_row) : row_result :=
  match item_name_cell row with
  | None => Dropped AttributeError
  | Some cell =>
      let item_name := strip cell in
      if String.eqb item_name "" then SkippedNoName
      else
        match min_cost_cell row with
        | None => Dropped AttributeError
        | Some min_cell =>
            let min_price := cell_price min_cell in
            match max_cost_cell row with
            | None => Dropped AttributeError
            | Some max_cell =>
                let max_price := cell_price max_cell in
                let '(min_price, max_price) :=
                  if fgt min_price max_price then (max_price, min_price)
                  else (min_price, max_price) in
                extras_loop (other_cells row)
                  (<[ "max_price" := FNum max_price ]>
                     (<[ "min_price" := FNum min_price ]>
                        {[ "product_name" := FStr item_name ]}))
            end
        end
  end.

Fixpoint load_rows (l : list csv_row) (products : list (gmap string field_value))
  : list (gmap string field_value) :=
  match l with
  | [] => products
  | row :: rest =>
      match load_row row with
      | Loaded product_info => load_rows rest (products ++ [product_info])
      | SkippedNoName | Dropped _ => load_rows rest products
      end
  end.

Definition required_fields : list string := ["Item Name"; "Min Cost ($)"; "Max Cost ($)"].

(** [load_input_data]: the file and header checks, then the row loop. *)
Definition load_input_data (file : option csv_file) : result (list (gmap string field_value)) :=
  match file with
  | None => Raise FileNotFoundError
  | Some f =>
      match fieldnames f with
      | [] => Raise ValueError
      | headers =>
          if forallb (fun field => existsb (String.eqb field) headers) required_fields
          then Ok (load_rows (rows f) [])
          else Raise ValueError
      end
  end.

End Helpers.

(* ===================================================================== *)
(** * The Price Matcher as the specification words it                     *)
(* ===================================================================== *)

Module Spec.

(** Section 4.1, Filter: [min_price <= price <= max_price]; a candidate
    with a non-numeric or missing price is dropped. *)
Definition in_band (min_price max_price : pyfloat) (c : candidate) : bool :=
  match price c with
  | Some (Numeric p) => fle min_price p && fle p max_price
  | Some Unparsable | Some WrongType | None => false
  end.

(** Section 4.1, Rank: the distance [|price - min_price|], a number. *)
Definition distance (min_price : pyfloat) (c : candidate) : pyfloat :=
  match price c with
  | Some (Numeric p) => fabs (exact_sub p min_price)
  | _ => NaN
  end.

(** Section 4.1: filter, stable sort by ascending distance, first 2. *)
Definition select (candidates : list candidate) (min_price max_price : pyfloat)
  : list candidate :=
  firstn 2 (sorted_by (distance min_price) (List.filter (in_band min_price max_price) candidates)).

End Spec.

(* ===================================================================== *)
(** * Vocabulary of the statements                                        *)
(* ===================================================================== *)

(** The price a candidate counts with in the amended statements: the
    float its price denotes, 0 when the record has no price key, nothing
    when the price is not numeric. *)
Definition counted_price (c : candidate) : option pyfloat :=
  match price c with
  | Some (Numeric p) => Some p
  | None => Some fzero
  | Some Unparsable | Some WrongType => None
  end.

(** Inside the band, with the counted price. *)
Definition kept (min_price max_price : pyfloat) (c : candidate) : bool :=
  match counted_price c with
  | Some p => fle min_price p && fle p max_price
  | None => false
  end.

(** The distance [|price - min_price|], with the counted price. *)
Definition closeness (min_price : pyfloat) (c : candidate) : pyfloat :=
  match counted_price c with
  | Some p => fabs (fsub p min_price)
  | None => NaN
  end.

(** [ranked] is a stable ascending arrangement of [l] under [key]: the
    same elements, no element strictly below one placed before it, and the
    elements of equal key in their order in [l]. *)
Definition stable_ranking {A : Type} (key : A -> pyfloat) (l ranked : list A) : Prop :=
  Permutation l ranked
  /\ StronglySorted (fun a b => flt (key b) (key a) = false) ranked
  /\ forall k, List.filter (fun a => feq (key a) k) ranked
               = List.filter (fun a => feq (key a) k) l.

(** The candidates an item carries into the cart phase. *)
Definition eligible_set (item : item_info) : list candidate :=
  match eligible_products item with
  | Some (Tuple1 l) => l
  | Some (Bare l) => l
  | None => []
  end.

(** The store [save_product_data] picks for [is_success]. *)
Definition chosen (is_success : bool) (fs : stores) : store_file :=
  if is_success then success_file fs else failure_file fs.

(** A page on which no probe raises. *)
Definition page_of (hi_a hi_h si_a si_h r1 r2 : bool) (body : string) : page :=
  {| hi_account := Some hi_a; hi_header := Some hi_h;
     signin_account := Some si_a; signin_header := Some si_h;
     body_text := Some body; robot_h1 := Some r1; robot_h2 := Some r2 |}.

(** A reply the fetcher accepts: status 200 and more than 2000 characters. *)
Definition plausible (r : http_reply) : bool :=
  match r with
  | Response status html_content =>
      (status =? 200) && (2000 <? Z.of_nat (String.length html_content))
  | ClientError | OtherError => false
  end.

(** A session that did not put the product into the cart. *)
Definition failed (e : log_entry) : Prop :=
  le_outcome e <> Added /\ le_outcome e <> AlreadyInCart.

(** A session that put the product into the cart, or found it there. *)
Definition succeeded (e : log_entry) : Prop :=
  le_outcome e = Added \/ le_outcome e = AlreadyInCart.

Definition blocked_outcome (out : attempt_outcome) : bool :=
  match out with
  | Blocked => true
  | _ => false
  end.

(** The proxy flags of consecutive sessions of one retry loop that starts
    with [proxy]: each session runs with the current flag, and a blocked
    session raises it for the sessions after it. *)
Fixpoint escalating (proxy : bool) (l : list log_entry) : Prop :=
  match l with
  | [] => True
  | e :: rest =>
      le_proxy e = proxy /\ escalating (proxy || blocked_outcome (le_outcome e)) rest
  end.

(** What the log shows of a session. *)
Definition summary (e : log_entry) : string * bool * attempt_outcome :=
  (name (le_candidate e), le_proxy e, le_outcome e).

(** Lines 326-332 on the two converted prices. *)
Definition ordered_band (a b : pyfloat) : pyfloat * pyfloat :=
  if fgt a b then (b, a) else (a, b).

(** An extra column whose normalised name is one of the two price keys and
    whose value is kept: line 345 then writes its text over the price. *)
Definition clobbers (cell : option string * option string) : bool :=
  match cell with
  | (Some key, Some value) =>
      negb (String.eqb (Helpers.strip value) "")
      && (String.eqb (Helpers.normalize_key key) "min_price"
          || String.eqb (Helpers.normalize_key key) "max_price")
  | _ => false
  end.

(** An extra column of a row as long as the header: a named text cell. *)
Definition text_cell (cell : option string * option string) : bool :=
  match cell with
  | (Some _, Some _) => true
  | _ => false
  end.

(* ===================================================================== *)
(** * Sample data                                                         *)
(* ===================================================================== *)

Definition scraped (nm : string) (p : option pyprice) (u : string) : candidate :=
  {| name := nm; price := p; url := u; added_to_cart := false; added_time := None |}.

(** A product record without a ["price"] key. *)
Definition unpriced_mug : candidate := scraped "Mug" None "https://www.walmart.com/ip/1".

(** The three candidates of the specification's example: 19.99, 25.00, 15.00. *)
Definition kettle_a : candidate :=
  scraped "Kettle A" (Some (Numeric (Fin (1999 # 100)))) "https://www.walmart.com/ip/2".

Definition kettle_b : candidate :=
  scraped "Kettle B" (Some (Numeric (Fin 25))) "https://www.walmart.com/ip/3".

Definition kettle_c : candidate :=
  scraped "Kettle C" (Some (Numeric (Fin 15))) "https://www.walmart.com/ip/4".

(** Two candidates whose distances from a far lower limit round alike. *)
Definition one_dollar : candidate :=
  scraped "One" (Some (Numeric (Fin 1))) "https://www.walmart.com/ip/5".

Definition half_dollar : candidate :=
  scraped "Half" (Some (Numeric (Fin (1 # 2)))) "https://www.walmart.com/ip/6".

Definition kettle_item : item_info :=
  {| product_name := Some "Kettle";
     min_price := Some (Numeric (Fin 15));
     max_price := Some (Numeric (Fin 22));
     extra := [];
     eligible_products := None;
     error := None |}.

Definition with_shortlist (l : list candidate) : item_info :=
  set_eligible kettle_item (Tuple1 l) None.

Definition no_stores : stores := {| success_file := Missing; failure_file := Missing |}.

(** A failure store cut in the middle of a character. *)
Definition torn_stores : stores := {| success_file := Missing; failure_file := Undecodable |}.

Definition fresh : cart_state := {| sessions := []; files := no_stores |}.

(** A session that meets the robot challenge. *)
Definition challenged : session_obs :=
  {| setup_ok := true; body_visible := true;
     pg := page_of false false false false true false "Robot or human?";
     add_button := Some false; click_ok := false;
     added_banner := Some false; view_cart := Some false |}.

(** A session of a signed-in account where the click is confirmed. *)
Definition smooth : session_obs :=
  {| setup_ok := true; body_visible := true;
     pg := page_of true false false false false false "Hi, Graham";
     add_button := Some true; click_ok := true;
     added_banner := Some true; view_cart := Some false |}.

(** Every session is challenged. *)
Definition hostile : world :=
  {| browse := fun _ _ _ => challenged; clock := fun _ => "2025-05-14 10:00:00" |}.

(** The first session is challenged, the later ones go through. *)
Definition thawing : world :=
  {| browse := fun n _ _ => match n with O => challenged | S _ => smooth end;
     clock := fun _ => "2025-05-14 10:00:00" |}.

Fixpoint string_of_length (n : nat) : string :=
  match n with
  | O => EmptyString
  | S n' => String "x"%char (string_of_length n')
  end.

(** A network that times out once and then serves a full page. *)
Definition flaky_net (n : nat) : http_reply :=
  match n with
  | O => ClientError
  | S _ => Response 200 (string_of_length 2001)
  end.

(** The row [Widget,nan,5]. *)
Definition nan_row : csv_row :=
  {| item_name_cell := Some "Widget";
     min_cost_cell := Some (Parses NaN);
     max_cost_cell := Some (Parses (Fin 5));
     other_cells := [] |}.

(** The row [Lamp,abc,7]: a malformed minimum. *)
Definition lamp_row : csv_row :=
  {| item_name_cell := Some " Lamp ";
     min_cost_cell := Some Malformed;
     max_cost_cell := Some (Parses (Fin 7));
     other_cells := [(Some "Brand Name", Some " Acme ")] |}.

(** The row [Desk,90,40]: limits the wrong way round. *)
Definition desk_row : csv_row :=
  {| item_name_cell := Some "Desk";
     min_cost_cell := Some (Parses (Fin 90));
     max_cost_cell := Some (Parses (Fin 40));
     other_cells := [(Some "Brand Name", Some "")] |}.

(** The row [Chair,5]: shorter than the header. *)
Definition short_row : csv_row :=
  {| item_name_cell := Some "Chair";
     min_cost_cell := Some (Parses (Fin 5));
     max_cost_cell := None;
     other_cells := [(Some "Brand Name", None)] |}.

(** A row with an extra column named like the minimum-price key. *)
Definition clobber_row : csv_row :=
  {| item_name_cell := Some "Vase";
     min_cost_cell := Some (Parses (Fin 3));
     max_cost_cell := Some (Parses (Fin 9));
     other_cells := [(Some "Min Price", Some "cheap")] |}.

Definition sample_header : list string :=
  ["Item Name"; "Min Cost ($)"; "Max Cost ($)"; "Brand Name"].

Definition nan_file : csv_file :=
  {| fieldnames := ["Item Name"; "Min Cost ($)"; "Max Cost ($)"]; rows := [nan_row] |}.

Definition sample_file : csv_file :=
  {| fieldnames := sample_header; rows := [lamp_row; short_row; desk_row] |}.

(* ===================================================================== *)
(** * Tactics                                                             *)
(* ===================================================================== *)

(** Runs a bind of [result] whose left side is a known value. *)
Ltac step_bind := unfold mbind, result_bind; cbn beta iota.

(* ===================================================================== *)
(** * Vocabulary of the further properties                                *)
(* ===================================================================== *)

(** [a] is priced at most as [b], both with their counted price. *)
Definition price_le (a b : candidate) : bool :=
  match counted_price a, counted_price b with
  | Some pa, Some pb => fle pa pb
  | _, _ => false
  end.

(** [a] and [b] have the same sort key: their distances from the lower
    limit round to the same float. *)
Definition same_distance (lo : pyfloat) (a b : candidate) : bool :=
  feq (closeness lo a) (closeness lo b).


(** No scraped candidate is inside the item's band, or the band does not
    convert. *)
Definition nothing_in_band (item : item_info) (cands : list candidate) : Prop :=
  match Scraper.band item with
  | inl (lo, hi) => Forall (fun c => kept lo hi c = false) cands
  | inr _ => True
  end.

(** An item whose limits are the wrong way round. *)
Definition inverted_item : item_info :=
  {| product_name := Some "Kettle";
     min_price := Some (Numeric (Fin 22));
     max_price := Some (Numeric (Fin 15));
     extra := [];
     eligible_products := None;
     error := None |}.


(** A shortlist whose candidates were all stamped by an earlier run. *)
Definition stamped_item : item_info :=
  with_shortlist [Bot.stamp kettle_c "2025-05-13 09:00:00"; Bot.stamp kettle_a "2025-05-13 09:05:00"].


(* ===================================================================== *)
(** * Window placement (WalmartBot)                                       *)
(* ===================================================================== *)

(** The screen as [_configure_window_settings] records it. *)
Record window_settings : Type := {
  SCREEN_WIDTH : Z;
  SCREEN_HEIGHT : Z
}.

Module Window.

Definition WINDOW_HEIGHT : Z := 400.
Definition WINDOW_PADDING : Z := 10.


(** Lines 86-89. *)
Definition screen_height (s : window_settings) : Z := SCREEN_HEIGHT s - 80.


Definition rows (s : window_settings) : Z :=
  Z.max 1 (screen_height s / (WINDOW_HEIGHT + WINDOW_PADDING)).






End Window.



(* ===================================================================== *)
(** * The search-page parser (HtmlParser)                                 *)
(* ===================================================================== *)

(** A value that [json.loads] returns: a number written with a fraction or
    an exponent is a float, one written without is an int.  [JObj] lists
    the items of a dict in their order; its keys are distinct. *)
#[local] Unset Elimination Schemes.
Inductive json : Type :=
| JNull
| JBool (b : bool)
| JNum (f : pyfloat)
| JInt (z : Z)
| JStr (s : string)
| JArr (items : list json)
| JObj (members : list (string * json)).
#[local] Set Elimination Schemes.

(** Induction on [json] with the hypothesis on every item and member. *)
Section JsonInduction.
Variable P : json -> Prop.
Hypothesis P_null : P JNull.
Hypothesis P_bool : forall b, P (JBool b).
Hypothesis P_num : forall f, P (JNum f).
Hypothesis P_int : forall z, P (JInt z).
Hypothesis P_str : forall s, P (JStr s).
Hypothesis P_arr : forall items, Forall P items -> P (JArr items).
Hypothesis P_obj : forall members, Forall (fun kv => P (snd kv)) members -> P (JObj members).

Fixpoint json_nested_ind (j : json) : P j :=
  match j with
  | JNull => P_null
  | JBool b => P_bool b
  | JNum f => P_num f
  | JInt z => P_int z
  | JStr s => P_str s
  | JArr items =>
      P_arr items
        ((fix each (l : list json) : Forall P l :=
            match l with
            | [] => @List.Forall_nil json P
            | x :: rest => @List.Forall_cons json P x rest (json_nested_ind x) (each rest)
            end) items)
  | JObj members =>
      P_obj members
        ((fix each (l : list (string * json)) : Forall (fun kv => P (snd kv)) l :=
            match l with
            | [] => @List.Forall_nil (string * json) (fun kv => P (snd kv))
            | kv :: rest =>
                @List.Forall_cons (string * json) (fun kv => P (snd kv)) kv rest
                  (json_nested_ind (snd kv)) (each rest)
            end) members)
  end.

End JsonInduction.

(** [m] occurs in [j]: it is [j], or occurs in an item of the list [j] or
    in a value of the dict [j]. *)
Inductive nested (m : json) : json -> Prop :=
| nested_here : nested m m
| nested_item (items : list json) (v : json) :
    In v items -> nested m v -> nested m (JArr items)
| nested_member (members : list (string * json)) (k : string) (v : json) :
    In (k, v) members -> nested m v -> nested m (JObj members).

(** The result of [selector.xpath(... "__NEXT_DATA__" ...).get()], with
    what [json.loads] makes of its text ([None] for JSONDecodeError). *)
Inductive script_tag : Type :=
| NoTag                          (* [None]: the page has no such script *)
| EmptyTag                       (* the empty text *)
| Tag (parsed : option json).    (* a text that is not empty *)

(** A product dict as the extractors build it. *)
Record parsed_product : Type := {
  pp_name : json;
  pp_price : pyfloat;
  pp_url : string
}.

(** One [div role="group"] of a result page, through the three queries of
    [_extract_products_by_html]: the [\d+] matches in the price span, the
    text of the title span and the [href] of the link. *)
Record html_cart : Type := {
  price_digits : list string;
  cart_name : option string;
  cart_href : option string
}.

(** One element of [html_contents]. *)
Record html_page : Type := {
  content_empty : bool;      (* the content is the empty string *)
  next_data : script_tag;
  carts : list html_cart
}.

Module Parser.

Definition base_url : string := "https://www.walmart.com".

(** [d.get(key)]: [None] when the key is missing. *)
Fixpoint dict_get (key : string) (members : list (string * json)) : json :=
  match members with
  | [] => JNull
  | (k, v) :: rest => if String.eqb k key then v else dict_get key rest
  end.

(** [value == typename] for a string [typename]. *)
Definition equals_string (value : json) (typename : string) : bool :=
  match value with
  | JStr s => String.eqb s typename
  | _ => false
  end.

(** [_find_products_in_json] (lines 113-128), on values of any depth. *)
Fixpoint find_products_in_json (typename : string) (obj : json) : list json :=
  match obj with
  | JObj members =>
      (if equals_string (dict_get "__typename" members) typename then [obj] else [])
      ++ (fix values (l : list (string * json)) : list json :=
            match l with
            | [] => []
            | (_, value) :: rest => find_products_in_json typename value ++ values rest
            end) members
  | JArr items =>
      (fix each (l : list json) : list json :=
         match l with
         | [] => []
         | item :: rest => find_products_in_json typename item ++ each rest
         end) items
  | JNull | JBool _ | JNum _ | JInt _ | JStr _ => []
  end.

(** Truthiness of a JSON value. *)
Definition truthy (v : json) : bool :=
  match v with
  | JNull => false
  | JBool b => b
  | JNum f => negb (feq f fzero)
  | JInt z => negb (z =? 0)
  | JStr s => negb (String.eqb s "")
  | JArr items => match items with [] => false | _ => true end
  | JObj members => match members with [] => false | _ => true end
  end.

Definition starts_with (p s : string) : bool := String.prefix p s.

(** [url.split("?")[0]]. *)
Fixpoint before_query (s : string) : string :=
  match s with
  | EmptyString => EmptyString
  | String a rest => if Ascii.eqb a "?"%char then EmptyString else String a (before_query rest)
  end.

(** Lines 198-204 (and 148-154): make the URL absolute, cut the query. *)
Definition absolute_url (url : string) : string :=
  let url :=
    if starts_with "http://" url || starts_with "https://" url then url
    else (base_url ++ (if starts_with "/" url then url else "/" ++ url))%string in
  before_query url.

Section WithFloat.
(** [float] on a string: the float it denotes, or [None] for ValueError. *)
Variable float_of_string : string -> option pyfloat.

(** [float(price)] on a JSON value; [None] when it raises: ValueError on
    a string that is no float literal, TypeError on [None], a list or a
    dict, OverflowError on an int that rounds beyond the float range.  The
    first two are caught by the inner handler of the loop below, the third
    by its outer one; each time the product is skipped. *)
Definition json_float (v : json) : option pyfloat :=
  match v with
  | JNum f => Some f
  | JInt z =>
      match round64 (inject_Z z) with
      | Fin q => Some (Fin q)
      | PInf | NInf | NaN => None
      end
  | JBool b => Some (if b then Fin 1 else fzero)
  | JStr s => float_of_string s
  | JNull | JArr _ | JObj _ => None
  end.

(** The body of the loop of [_extract_products_by_json] (lines 182-209):
    [None] where the product is skipped. *)
Definition product_of_json (product_data : json) : option parsed_product :=
  match product_data with
  | JObj members =>
      let name := dict_get "name" members in
      let price := dict_get "price" members in
      let url := dict_get "canonicalUrl" members in
      if truthy name && truthy price && truthy url then
        match json_float price with
        | None => None
        | Some p =>
            match url with
            | JStr u => Some {| pp_name := name; pp_price := p; pp_url := absolute_url u |}
            | _ => None                  (* no [startswith]: AttributeError, caught *)
            end
        end
      else None
  | _ => None
  end.

(** [_extract_products_by_json] (lines 172-211).  [json.loads(None)]
    raises TypeError, which the function does not catch. *)
Definition extract_products_by_json (tag : script_tag) : result (list parsed_product) :=
  match tag with
  | NoTag => Raise TypeError
  | EmptyTag | Tag None => Ok []
  | Tag (Some json_data) => Ok (omap product_of_json (find_products_in_json "Product" json_data))
  end.

(** The body of the loop of [_extract_products_by_html] (lines 136-158). *)
Definition product_of_cart (cart : html_cart) : option parsed_product :=
  match price_digits cart with
  | [] => None                           (* [...][0]: IndexError, caught *)
  | digits :: _ =>
      match float_of_string digits with
      | None => None
      | Some p =>
          match cart_href cart with
          | None => None                 (* None has no [startswith] *)
          | Some href =>
              Some {| pp_name := match cart_name cart with Some s => JStr s | None => JNull end;
                      pp_price := p;
                      pp_url := absolute_url href |}
          end
      end
  end.

Definition extract_products_by_html (l : list html_cart) : list parsed_product :=
  omap product_of_cart l.

Definition tag_falsy (tag : script_tag) : bool :=
  match tag with
  | NoTag | EmptyTag => true
  | Tag _ => false
  end.

(** The loop of [search_page_parser] (lines 227-239) with the variable
    [products], unbound at first. *)
Fixpoint pages_loop (html_contents : list html_page) (products : option (list parsed_product))
  : result (option (list parsed_product)) :=
  match html_contents with
  | [] => Ok products
  | page :: rest =>
      if content_empty page then pages_loop rest products
      else
        let products :=
          if tag_falsy (next_data page) then Some (extract_products_by_html (carts page))
          else products in
        match extract_products_by_json (next_data page) with
        | Ok from_json => pages_loop rest (Some from_json)
        | Raise e => Raise e
        | OutOfFuel => OutOfFuel
        end
  end.

(** [search_page_parser]: reading the unbound [products] and any other
    exception end in [return []]. *)
Definition search_page_parser (html_contents : list html_page) : list parsed_product :=
  match pages_loop html_contents None with
  | Ok (Some products) => products
  | Ok None | Raise _ | OutOfFuel => []
  end.

End WithFloat.

End Parser.

(** What a page contributes through its script tag. *)
Definition json_products (float_of_string : string -> option pyfloat) (page : html_page)
  : list parsed_product :=
  match Parser.extract_products_by_json float_of_string (next_data page) with
  | Ok l => l
  | Raise _ | OutOfFuel => []
  end.

(** A page with content and without the script tag. *)
Definition lacks_script (page : html_page) : bool :=
  negb (content_empty page)
  && match next_data page with NoTag => true | _ => false end.

Fixpoint has_char (a : ascii) (s : string) : bool :=
  match s with
  | EmptyString => false
  | String b rest => Ascii.eqb b a || has_char a rest
  end.

(** Absolute and without a query. *)
Definition clean_url (u : string) : Prop :=
  (Parser.starts_with "http://" u || Parser.starts_with "https://" u = true)
  /\ has_char "?"%char u = false.

(** The values in [j] in the order of the document: [j] itself, then what
    is in its items, or in the values of its members, one after the other.
    A value that occurs twice is listed twice. *)
Fixpoint subvalues (j : json) : list json :=
  j :: match j with
       | JArr items =>
           (fix each (l : list json) : list json :=
              match l with
              | [] => []
              | item :: rest => subvalues item ++ each rest
              end) items
       | JObj members =>
           (fix values (l : list (string * json)) : list json :=
              match l with
              | [] => []
              | (_, value) :: rest => subvalues value ++ values rest
              end) members
       | JNull | JBool _ | JNum _ | JInt _ | JStr _ => []
       end.

(** A dict whose [__typename] is [t]. *)
Definition typed (t : string) (j : json) : bool :=
  match j with
  | JObj members => Parser.equals_string (Parser.dict_get "__typename" members) t
  | _ => false
  end.

(** A dict with all a product needs: a truthy name, a truthy price that
    [float] converts, and a URL that is a string and not empty. *)
Definition complete (float_of_string : string -> option pyfloat) (j : json) : bool :=
  match j with
  | JObj members =>
      Parser.truthy (Parser.dict_get "name" members)
      && Parser.truthy (Parser.dict_get "price" members)
      && match Parser.dict_get "canonicalUrl" members with
         | JStr u => negb (String.eqb u "")
         | _ => false
         end
      && match Parser.json_float float_of_string (Parser.dict_get "price" members) with
         | Some _ => true
         | None => false
         end
  | _ => false
  end.

(** The product [p] is the one read off the dict [d]. *)
Definition describes (float_of_string : string -> option pyfloat) (d : json)
    (p : parsed_product) : Prop :=
  exists members u,
    d = JObj members
    /\ Parser.dict_get "canonicalUrl" members = JStr u
    /\ pp_name p = Parser.dict_get "name" members
    /\ Parser.json_float float_of_string (Parser.dict_get "price" members) = Some (pp_price p)
    /\ pp_url p = Parser.absolute_url u.


(** Decimal digits read as a float; nothing else converts.  A stand-in for
    [float] on strings in the examples. *)
Fixpoint digits_value (s : string) (acc : Z) : option Z :=
  match s with
  | EmptyString => Some acc
  | String a rest =>
      let n := Z.of_nat (nat_of_ascii a) in
      if (48 <=? n) && (n <=? 57) then digits_value rest (10 * acc + (n - 48)) else None
  end.

Definition float_of_digits (s : string) : option pyfloat :=
  match s with
  | EmptyString => None
  | _ => match digits_value s 0 with Some z => Some (Fin (inject_Z z)) | None => None end
  end.

(** A product dict of a result page. *)
Definition kettle_json : json :=
  JObj [("__typename", JStr "Product"); ("name", JStr "Kettle A");
        ("price", JNum (Fin (1999 # 100))); ("canonicalUrl", JStr "/ip/Kettle-A/2?athbdg=L1600")].

(** A product dict whose price is an int beyond the float range. *)
Definition priceless_json : json :=
  JObj [("__typename", JStr "Product"); ("name", JStr "Vase");
        ("price", JInt (10 ^ 400)); ("canonicalUrl", JStr "/ip/Vase/7")].

(** The page data around it. *)
Definition next_data_json : json :=
  JObj [("props", JObj [("items", JArr [JObj [("__typename", JStr "Ad")]; kettle_json])]);
        ("page", JStr "/search")].

Definition page_one : html_page :=
  {| content_empty := false; next_data := Tag (Some next_data_json); carts := [] |}.

Definition page_two : html_page :=
  {| content_empty := false; next_data := Tag (Some (JObj [("props", JNull)])); carts := [] |}.

(** A page without the script tag, with one result in its markup. *)
Definition markup_page : html_page :=
  {| content_empty := false; next_data := NoTag;
     carts := [ {| price_digits := ["19"; "99"]; cart_name := Some "Kettle A";
                   cart_href := Some "/ip/Kettle-A/2" |} ] |}.


(** The value of [products] after the pages, when every page with content
    has its script tag. *)
Definition last_parsed (fos : string -> option pyfloat) (pages : list html_page)
    (products : option (list parsed_product)) : option (list parsed_product) :=
  fold_left (fun acc page => if content_empty page then acc else Some (json_products fos page))
    pages products.


(* ===================================================================== *)
(** * The scraping pipeline (MyFastScraper) and the output file           *)
(* ===================================================================== *)

Module FastScraper.

Section Scrape.
(** [float] on a string, and what [Selector(html_content)] finds in a
    content: the text of the script tag and the result groups. *)
Variable float_of_string : string -> option pyfloat.
Variable selector : string -> script_tag * list html_cart.

Definition parse_content (html_content : string) : html_page :=
  {| content_empty := String.eqb html_content "";
     next_data := fst (selector html_content);
     carts := snd (selector html_content) |}.

(** [html for html in html_contents if html]. *)
Definition valid_contents (html_contents : list (option string)) : list string :=
  omap (fun html => match html with
                    | Some s => if String.eqb s "" then None else Some s
                    | None => None
                    end) html_contents.

(** [scrape_products] (lines 38-67).  [net page] is the network as the
    request for that page meets it; any exception ends in [return []]. *)
Definition scrape_products (net : Z -> nat -> http_reply) : list parsed_product :=
  let run : result (list parsed_product) :=
    '(page1, _) ← Helpers.request_html (net 1);
    '(page2, _) ← Helpers.request_html (net 2);
    let html_contents := [page1; page2] in
    let valid_html_contents := valid_contents html_contents in
    match valid_html_contents with
    | [] => Ok []
    | _ => Ok (Parser.search_page_parser float_of_string
                 (map parse_content valid_html_contents))
    end in
  match run with
  | Ok raw_parsed_products => raw_parsed_products
  | Raise _ | OutOfFuel => []
  end.

End Scrape.

Section Batches.
(** [scraped k] is what the [k]-th [scrape_products] task returns, in the
    order in which the tasks are created. *)
Variable scraped : nat -> list candidate.
Variable input_items_info : list item_info.

(** The loop over [range(0, len(input_items_info), batch_size)] (lines
    135-156) for a positive step, with the number of tasks created and of
    pauses taken so far. *)
Fixpoint batch_loop (fuel : nat) (batch_size i : nat) (results : list item_info)
    (tasks pauses : nat) : result (list item_info * nat) :=
  if (i <? length input_items_info)%nat then
    match fuel with
    | O => OutOfFuel
    | S fuel' =>
        let batch := firstn batch_size (skipn i input_items_info) in
        let scraped_products := map scraped (seq tasks (length batch)) in
        let results :=
          results ++ map (fun '(input_item_info, products) =>
                            Scraper.process_product input_item_info products)
                       (combine batch scraped_products) in
        let pauses :=
          if (i + batch_size <? length input_items_info)%nat then S pauses else pauses in
        batch_loop fuel' batch_size (i + batch_size)%nat results
          (tasks + length batch)%nat pauses
    end
  else Ok (results, pauses).

(** [get_eligible_products]: the results and the number of pauses. *)
Definition get_eligible_products (batch_size : Z) : list item_info * nat :=
  if batch_size =? 0 then ([], 0%nat)       (* range() step 0: ValueError, caught *)
  else if batch_size <? 0 then ([], 0%nat)  (* the range is empty *)
  else
    match batch_loop (length input_items_info) (Z.to_nat batch_size) 0 [] 0 0 with
    | Ok r => r
    | Raise _ | OutOfFuel => ([], 0%nat)
    end.

End Batches.

End FastScraper.

(** Where the program runs: [os.path] splits at the backslash on Windows
    only. *)
Inductive platform : Type :=
| Posix
| Windows.

Module Output.

Section Lower.
(** [str.lower], on any text. *)
Variable lower : string -> string.

Definition replace_char (old new : ascii) (s : string) : string :=
  Helpers.map_string (fun a => if Ascii.eqb a old then new else a) s.

(** [.lower().replace(" ", "_").replace(",", "_").replace("'", "_")]
    (line 389). *)
Definition output_key (product_name : string) : string :=
  replace_char "'" "_" (replace_char "," "_" (replace_char " " "_" (lower product_name))).

(** [os.path.dirname('output_data\scraped_products.json')] (lines 384 and
    386): the backslash of the literal separates on Windows; elsewhere the
    path has no directory part. *)
Definition output_dir (os : platform) : string :=
  match os with
  | Posix => ""
  | Windows => "output_data"
  end.

(** [os.makedirs(d, exist_ok=True)]: the empty path raises
    FileNotFoundError; for another one, [creatable] says whether the file
    system has the directory or lets it be made. *)
Definition makedirs (creatable : bool) (d : string) : result unit :=
  if String.eqb d "" then Raise FileNotFoundError
  else if creatable then Ok tt
  else Raise OSError.

(** The loop of [save_output_data] (lines 388-391).  An item without a
    name raises: [None] has no [lower]. *)
Fixpoint output_loop (data : list item_info) (final_data : gmap string item_info)
  : result (gmap string item_info) :=
  match data with
  | [] => Ok final_data
  | item :: rest =>
      match product_name item with
      | None => Raise AttributeError
      | Some n =>
          let product_name := output_key n in
          if negb (String.eqb product_name "")
          then output_loop rest (<[ product_name := item ]> final_data)
          else output_loop rest final_data
      end
  end.

(** [save_output_data] (lines 382-398): the dict handed to [json.dump], or
    [None] when the exception handler is reached before and nothing is
    dumped. *)
Definition save_output_data (os : platform) (creatable : bool) (data : list item_info)
  : option (gmap string item_info) :=
  let run : result (gmap string item_info) :=
    _ ← makedirs creatable (output_dir os);
    output_loop data ∅ in
  match run with
  | Ok final_data => Some final_data
  | Raise _ | OutOfFuel => None
  end.

End Lower.

End Output.

(** The content has no script tag. *)
Definition no_script (selector : string -> script_tag * list html_cart) (html_content : string)
  : bool :=
  match fst (selector html_content) with NoTag => true | _ => false end.

(** What [process_product] makes of the items, each with the results of
    its own task. *)
Definition processed_in_order (scraped : nat -> list candidate) (items : list item_info)
  : list item_info :=
  map (fun '(item, products) => Scraper.process_product item products)
    (combine items (map scraped (seq 0 (length items)))).

(** The item is saved under the key [k]. *)
Definition keyed (lower : string -> string) (k : string) (item : item_info) : bool :=
  match product_name item with
  | Some n => String.eqb (Output.output_key lower n) k && negb (String.eqb k "")
  | None => false
  end.

(** [str.lower] on the sample names, which are of code points below 256. *)
Definition sample_lower (s : string) : string := Helpers.map_string Helpers.lower_char s.

(** A selector that finds the sample page data in every content. *)
Definition sample_selector (html_content : string) : script_tag * list html_cart :=
  (Tag (Some next_data_json), []).

(** A network that serves a full page at once. *)
Definition smooth_net (n : nat) : http_reply := Response 200 (string_of_length 2001).

Definition lamp_item : item_info :=
  {| product_name := Some "Desk Lamp, 40'";
     min_price := Some (Numeric (Fin 5));
     max_price := Some (Numeric (Fin 9));
     extra := [];
     eligible_products := None;
     error := None |}.

Definition nameless_item : item_info :=
  {| product_name := None;
     min_price := Some (Numeric (Fin 5));
     max_price := Some (Numeric (Fin 9));
     extra := [];
     eligible_products := None;
     error := None |}.


(* ===================================================================== *)
(** * Facts on floats                                                     *)
(* ===================================================================== *)

Lemma flt_false_fle (a b : pyfloat) :
  a <> NaN -> b <> NaN -> flt a b = false -> fle b a = true.
Proof.
  destruct a as [x| | |], b as [y| | |]; simpl; try congruence.
  intros _ _ H. apply negb_false_iff in H. exact H.
Qed.

Lemma fle_trans (a b c : pyfloat) :
  fle a b = true -> fle b c = true -> fle a c = true.
Proof.
  destruct a as [x| | |], b as [y| | |], c as [z| | |]; simpl; try congruence.
  rewrite !Qle_bool_iff. intros H1 H2. eapply Qle_trans; eassumption.
Qed.

Lemma flt_true_fle (a b : pyfloat) : flt a b = true -> fle a b = true.
Proof.
  destruct a as [x| | |], b as [y| | |]; simpl; try congruence.
  intros H. apply negb_true_iff in H. apply Qle_bool_iff.
  destruct (Qlt_le_dec x y) as [Hq|Hq]; [apply Qlt_le_weak; exact Hq|].
  apply Qle_bool_iff in Hq. congruence.
Qed.

Lemma fle_not_flt (a b : pyfloat) : fle a b = true -> flt b a = false.
Proof.
  destruct a as [x| | |], b as [y| | |]; simpl; try congruence.
  intros H. rewrite H. reflexivity.
Qed.

Lemma feq_same_not_flt (a b k : pyfloat) :
  feq a k = true -> feq b k = true -> flt a b = false.
Proof.
  destruct a as [x| | |], b as [y| | |], k as [z| | |]; simpl; try congruence.
  rewrite !Qeq_bool_iff. intros H1 H2. apply negb_false_iff, Qle_bool_iff.
  rewrite H1, H2. apply Qle_refl.
Qed.

Lemma feq_refl (a : pyfloat) : a <> NaN -> feq a a = true.
Proof.
  destruct a as [x| | |]; simpl; try congruence.
  intros _. apply Qeq_bool_iff. reflexivity.
Qed.

Lemma feq_sym (a b : pyfloat) : feq a b = true -> feq b a = true.
Proof.
  destruct a as [x| | |], b as [y| | |]; simpl; try congruence.
  rewrite !Qeq_bool_iff. intros H. symmetry. exact H.
Qed.

Lemma feq_same (k a b : pyfloat) : feq a k = true -> feq b k = true -> feq a b = true.
Proof.
  destruct a as [x| | |], b as [y| | |], k as [z| | |]; cbn [feq]; try congruence.
  rewrite !Qeq_bool_iff. intros H1 H2. rewrite H1, H2. reflexivity.
Qed.

Lemma flt_neither_feq (a b : pyfloat) :
  a <> NaN -> b <> NaN -> flt a b = false -> flt b a = false -> feq a b = true.
Proof.
  destruct a as [x| | |], b as [y| | |]; simpl; try congruence.
  intros _ _ H1 H2. apply negb_false_iff in H1, H2.
  apply Qle_bool_iff in H1, H2. apply Qeq_bool_iff. apply Qle_antisym; assumption.
Qed.

(* ===================================================================== *)
(** * Facts on the rounding                                               *)
(* ===================================================================== *)

Lemma rne_div_bounds (n d : Z) : 0 < d -> n / d <= rne_div n d <= n / d + 1.
Proof.
  intros Hd. unfold rne_div. destruct (2 * (n mod d) ?= d); [destruct (Z.even (n / d))|..]; lia.
Qed.

Lemma div_le_cross (a b c d : Z) : 0 < b -> 0 < d -> a * d <= c * b -> a / b <= c / d.
Proof.
  intros Hb Hd H. apply Z.div_le_lower_bound; [exact Hd|].
  pose proof (Z.mul_div_le a b Hb). nia.
Qed.

Lemma rne_div_mono (a b c d : Z) :
  0 < b -> 0 < d -> a * d <= c * b -> rne_div a b <= rne_div c d.
Proof.
  intros Hb Hd H.
  pose proof (div_le_cross a b c d Hb Hd H) as Hf.
  pose proof (rne_div_bounds a b Hb) as B1. pose proof (rne_div_bounds c d Hd) as B2.
  destruct (Z.eq_dec (a / b) (c / d)) as [E|NE]; [|lia].
  pose proof (Z.div_mod a b ltac:(lia)) as Ea. pose proof (Z.div_mod c d ltac:(lia)) as Ec.
  pose proof (Z.mod_pos_bound a b Hb) as Ra. pose proof (Z.mod_pos_bound c d Hd) as Rc.
  assert (Hr : (a mod b) * d <= (c mod d) * b) by nia.
  unfold rne_div. rewrite <- E.
  destruct (Z.compare_spec (2 * (a mod b)) b) as [E1|L1|G1];
  destruct (Z.compare_spec (2 * (c mod d)) d) as [E2|L2|G2];
  destruct (Z.even (a / b)); try lia; nia.
Qed.

Lemma ulp_units_pos (x : Z) : 0 < ulp_units x.
Proof. unfold ulp_units. apply Z.pow_pos_nonneg; lia. Qed.

Lemma log2_upper (x : Z) : 0 <= x -> x < 2 ^ (Z.log2 x + 1).
Proof.
  intros Hx. destruct (Z.eq_dec x 0) as [->|Hne]; [reflexivity|].
  pose proof (Z.log2_spec x ltac:(lia)) as H.
  replace (Z.log2 x + 1) with (Z.succ (Z.log2 x)) by lia. lia.
Qed.

(** Rounding keeps the order.  Inside one binade the nearest multiple of
    the spacing is monotone; across binades the smaller argument rounds to
    at most the upper end of its binade and the larger to at least the
    lower end of its own. *)
Lemma round_scaled_mono (x1 d1 x2 d2 : Z) :
  0 <= x1 -> 0 < d1 -> 0 < d2 -> x1 * d2 <= x2 * d1 ->
  round_scaled x1 d1 <= round_scaled x2 d2.
Proof.
  intros Hx1 Hd1 Hd2 H. unfold round_scaled.
  assert (Hx2 : 0 <= x2) by nia.
  pose proof (div_le_cross x1 d1 x2 d2 Hd1 Hd2 H) as HF.
  assert (HF1 : 0 <= x1 / d1) by (apply Z.div_pos; lia).
  set (F1 := x1 / d1) in *. set (F2 := x2 / d2) in *.
  pose proof (Z.log2_le_mono F1 F2 HF) as Hk.
  pose proof (Z.log2_nonneg F1) as Hk1. pose proof (Z.log2_nonneg F2) as Hk2.
  unfold ulp_units.
  set (k1 := Z.log2 F1) in *. set (k2 := Z.log2 F2) in *.
  set (e1 := Z.max 0 (k1 - 52)). set (e2 := Z.max 0 (k2 - 52)).
  assert (He : e1 <= e2) by (unfold e1, e2; lia).
  assert (Hu1 : 0 < 2 ^ e1) by (apply Z.pow_pos_nonneg; unfold e1; lia).
  assert (Hu2 : 0 < 2 ^ e2) by (apply Z.pow_pos_nonneg; unfold e2; lia).
  destruct (Z.eq_dec e1 e2) as [E|NE].
  - rewrite <- E. apply Z.mul_le_mono_nonneg_r; [lia|].
    apply rne_div_mono; nia.
  - assert (Hlt : e1 < e2) by lia.
    assert (He2 : e2 = k2 - 52) by (unfold e1, e2 in *; lia).
    assert (Hk12 : k1 + 1 <= k2) by (unfold e1, e2 in *; lia).
    assert (HF1u : F1 < 2 ^ (k1 + 1)) by (apply log2_upper; exact HF1).
    assert (Hsplit1 : 2 ^ (k1 + 1) = 2 ^ e1 * 2 ^ (k1 + 1 - e1)).
    { rewrite <- Z.pow_add_r by (unfold e1; lia). f_equal. lia. }
    set (T := 2 ^ (k1 + 1 - e1)) in *.
    assert (HT : 0 < T) by (apply Z.pow_pos_nonneg; unfold e1; lia).
    assert (Hx1u : x1 < d1 * 2 ^ (k1 + 1)).
    { pose proof (Z.mul_succ_div_gt x1 d1 Hd1) as Hgt. fold F1 in Hgt. nia. }
    assert (Hq1 : x1 / (d1 * 2 ^ e1) < T).
    { apply Z.div_lt_upper_bound; [nia|]. rewrite Hsplit1 in Hx1u. nia. }
    pose proof (rne_div_bounds x1 (d1 * 2 ^ e1) ltac:(nia)) as B1.
    assert (HM1 : rne_div x1 (d1 * 2 ^ e1) * 2 ^ e1 <= 2 ^ (k1 + 1)).
    { rewrite Hsplit1. nia. }
    assert (HF2pos : 0 < F2).
    { destruct (Z.lt_trichotomy F2 0) as [L|[E0|G]]; [| |exact G].
      - unfold k2 in *. rewrite Z.log2_nonpos in * by lia. lia.
      - unfold k2 in *. rewrite E0 in *. simpl in *. lia. }
    pose proof (Z.log2_spec F2 HF2pos) as [HF2l _]. fold k2 in HF2l.
    assert (Hsplit2 : 2 ^ k2 = 2 ^ e2 * 2 ^ 52).
    { rewrite <- Z.pow_add_r by lia. f_equal. lia. }
    assert (Hx2l : d2 * F2 <= x2) by (apply Z.mul_div_le; exact Hd2).
    assert (Hq2 : 2 ^ 52 <= x2 / (d2 * 2 ^ e2)).
    { apply Z.div_le_lower_bound; [nia|]. rewrite Hsplit2 in HF2l. nia. }
    pose proof (rne_div_bounds x2 (d2 * 2 ^ e2) ltac:(nia)) as B2.
    assert (HM2 : 2 ^ k2 <= rne_div x2 (d2 * 2 ^ e2) * 2 ^ e2).
    { rewrite Hsplit2. nia. }
    assert (Hpow : 2 ^ (k1 + 1) <= 2 ^ k2) by (apply Z.pow_le_mono_r; lia).
    lia.
Qed.

Lemma round_units_mono (n1 d1 n2 d2 : Z) :
  0 <= n1 -> 0 < d1 -> 0 < d2 -> n1 * d2 <= n2 * d1 ->
  round_units n1 d1 <= round_units n2 d2.
Proof.
  intros Hn Hd1 Hd2 H. unfold round_units.
  assert (HS : 0 < unit_scale) by (apply Z.pow_pos_nonneg; lia).
  apply round_scaled_mono; try lia; nia.
Qed.

Lemma round_units_nonneg (n d : Z) : 0 <= n -> 0 < d -> 0 <= round_units n d.
Proof.
  intros Hn Hd. unfold round_units, round_scaled.
  assert (HS : 0 < unit_scale) by (apply Z.pow_pos_nonneg; lia).
  pose proof (ulp_units_pos (n * unit_scale / d)) as Hu.
  pose proof (rne_div_bounds (n * unit_scale) (d * ulp_units (n * unit_scale / d)) ltac:(nia)).
  assert (0 <= n * unit_scale / (d * ulp_units (n * unit_scale / d))) by (apply Z.div_pos; nia).
  nia.
Qed.

Lemma round64_not_nan (q : Q) : round64 q <> NaN.
Proof.
  unfold round64. destruct (Qnum q); try discriminate;
    match goal with |- context [if ?b then _ else _] => destruct b end; discriminate.
Qed.

Lemma of_units_le (m1 m2 : Z) : m1 <= m2 -> (of_units m1 <= of_units m2)%Q.
Proof.
  intros H. unfold of_units. rewrite !Qred_correct. unfold Qle. cbn [Qnum Qden].
  apply Z.mul_le_mono_nonneg_r; [lia|exact H].
Qed.

Lemma of_units_zero : of_units 0 == 0.
Proof. unfold of_units. rewrite Qred_correct. reflexivity. Qed.

(** On exact results that are not negative, rounding keeps the order, and
    the rounded result is not negative. *)
Lemma round64_mono (q1 q2 : Q) :
  (0 <= q1)%Q -> (q1 <= q2)%Q ->
  fle (round64 q1) (round64 q2) = true
  /\ fle (Fin 0) (round64 q1) = true.
Proof.
  destruct q1 as [n1 d1], q2 as [n2 d2]. unfold Qle, round64. cbn [Qnum Qden].
  intros H0 H. rewrite Z.mul_1_r in H0. cbn [Z.mul] in H0.
  assert (Hpos : forall n d, 0 < n -> 0 < d ->
            fle (Fin 0) (if overflow_units <=? round_units n d then PInf
                         else Fin (of_units (round_units n d))) = true).
  { intros n d Hn Hd. destruct (overflow_units <=? round_units n d); [reflexivity|].
    cbn [fle]. apply Qle_bool_iff. rewrite <- of_units_zero. apply of_units_le.
    apply round_units_nonneg; lia. }
  destruct n1 as [|p1|p1]; [| |lia].
  - split; [|reflexivity]. destruct n2 as [|p2|p2]; [reflexivity| |lia].
    apply Hpos; lia.
  - split; [|apply Hpos; lia]. destruct n2 as [|p2|p2]; [lia| |lia].
    pose proof (round_units_mono (Z.pos p1) (Z.pos d1) (Z.pos p2) (Z.pos d2)
                  ltac:(lia) ltac:(lia) ltac:(lia) H) as Hm.
    destruct (Z.leb_spec overflow_units (round_units (Z.pos p1) (Z.pos d1))) as [O1|O1];
    destruct (Z.leb_spec overflow_units (round_units (Z.pos p2) (Z.pos d2))) as [O2|O2];
      try reflexivity; [lia|].
    cbn [fle]. apply Qle_bool_iff, of_units_le, Hm.
Qed.

(* ===================================================================== *)
(** * Facts on [sorted_by]                                                *)
(* ===================================================================== *)

Section SortedFacts.
Context {A : Type} (key : A -> pyfloat).

Lemma insert_by_perm (x : A) (l : list A) : Permutation (x :: l) (insert_by key x l).
Proof.
  induction l as [|y ys IH]; simpl; [reflexivity|].
  destruct (flt (key y) (key x)); [|reflexivity].
  rewrite perm_swap. constructor. exact IH.
Qed.

Lemma sorted_by_perm (l : list A) : Permutation l (sorted_by key l).
Proof.
  induction l as [|x xs IH]; simpl; [constructor|].
  rewrite <- insert_by_perm. constructor. exact IH.
Qed.

Lemma sorted_by_length (l : list A) : length (sorted_by key l) = length l.
Proof. symmetry. apply Permutation_length, sorted_by_perm. Qed.

(** Stability: elements of one key keep their order. *)
Lemma insert_by_filter (k : pyfloat) (x : A) (l : list A) :
  List.filter (fun a => feq (key a) k) (insert_by key x l)
  = List.filter (fun a => feq (key a) k) (x :: l).
Proof.
  induction l as [|y ys IH]; [reflexivity|].
  simpl insert_by. destruct (flt (key y) (key x)) eqn:Hlt; [|reflexivity].
  simpl in *. rewrite IH.
  destruct (feq (key y) k) eqn:Hy, (feq (key x) k) eqn:Hx; try reflexivity.
  rewrite (feq_same_not_flt _ _ _ Hy Hx) in Hlt. discriminate.
Qed.

Lemma sorted_by_filter (k : pyfloat) (l : list A) :
  List.filter (fun a => feq (key a) k) (sorted_by key l)
  = List.filter (fun a => feq (key a) k) l.
Proof.
  induction l as [|x xs IH]; [reflexivity|].
  simpl sorted_by. rewrite insert_by_filter. simpl. rewrite IH. reflexivity.
Qed.

(** Ascending order when no key is NaN. *)
Lemma insert_by_sorted (x : A) (l : list A) :
  key x <> NaN -> Forall (fun a => key a <> NaN) l ->
  StronglySorted (fun a b => fle (key a) (key b) = true) l ->
  StronglySorted (fun a b => fle (key a) (key b) = true) (insert_by key x l).
Proof.
  intros Hx Hl Hs. induction Hs as [|y ys Hs IH Hy]; simpl.
  - repeat constructor.
  - apply Forall_cons_1 in Hl as [Hyn Hl].
    destruct (flt (key y) (key x)) eqn:Hlt.
    + constructor; [apply IH; assumption|].
      rewrite <- (insert_by_perm x ys). constructor; [|exact Hy].
      apply flt_true_fle; exact Hlt.
    + pose proof (flt_false_fle _ _ Hyn Hx Hlt) as Hle.
      constructor; [constructor; assumption|].
      constructor; [exact Hle|].
      eapply List.Forall_impl; [|exact Hy]. intros a Ha. simpl in Ha.
      eapply fle_trans; eassumption.
Qed.

End SortedFacts.

Section RankingFacts.
Context {A : Type} (key : A -> pyfloat).

Lemma sorted_by_sorted (l : list A) :
  Forall (fun a => key a <> NaN) l ->
  StronglySorted (fun a b => fle (key a) (key b) = true) (sorted_by key l).
Proof.
  induction 1 as [|x xs Hx Hxs IH]; simpl; [constructor|].
  apply insert_by_sorted; [exact Hx| |exact IH].
  rewrite <- sorted_by_perm. exact Hxs.
Qed.

Lemma strongly_sorted_weaken (R S : A -> A -> Prop) (l : list A) :
  (forall a b, R a b -> S a b) -> StronglySorted R l -> StronglySorted S l.
Proof.
  intros HRS. induction 1 as [|x xs Hs IH Hx]; constructor; [exact IH|].
  eapply List.Forall_impl; [|exact Hx]. intros b. apply HRS.
Qed.

Lemma pairwise_sorted (R : A -> A -> Prop) (l : list A) :
  (forall a b, In a l -> In b l -> R a b) -> StronglySorted R l.
Proof.
  induction l as [|x xs IH]; intros H; constructor.
  - apply IH. intros a b Ha Hb. apply H; right; assumption.
  - apply List.Forall_forall. intros b Hb. apply H; [left; reflexivity|right; exact Hb].
Qed.

Lemma sorted_by_incomparable (l : list A) :
  (forall a b, In a l -> In b l -> flt (key a) (key b) = false) ->
  sorted_by key l = l.
Proof.
  induction l as [|x xs IH]; intros H; [reflexivity|].
  simpl. rewrite IH by (intros a b Ha Hb; apply H; right; assumption).
  destruct xs as [|y ys]; [reflexivity|]. simpl.
  rewrite (H y x) by (simpl; auto). reflexivity.
Qed.

Lemma stable_ranking_ordered (l : list A) :
  Forall (fun a => key a <> NaN) l -> stable_ranking key l (sorted_by key l).
Proof.
  intros Hl. split; [apply sorted_by_perm|]. split; [|intros k; apply sorted_by_filter].
  eapply strongly_sorted_weaken; [|apply sorted_by_sorted; exact Hl].
  intros a b Hab. apply fle_not_flt. exact Hab.
Qed.

Lemma stable_ranking_incomparable (l : list A) :
  (forall a b, In a l -> In b l -> flt (key a) (key b) = false) ->
  stable_ranking key l (sorted_by key l).
Proof.
  intros H. rewrite (sorted_by_incomparable l H).
  split; [reflexivity|]. split; [|reflexivity].
  apply pairwise_sorted. intros a b Ha Hb. apply H; assumption.
Qed.

(** With no NaN among the keys, a list has one stable ranking only: the
    arrangement does not depend on the sorting algorithm. *)
Lemma sorted_classes_unique (r1 r2 : list A) :
  Forall (fun a => key a <> NaN) r1 -> Forall (fun a => key a <> NaN) r2 ->
  StronglySorted (fun a b => flt (key b) (key a) = false) r1 ->
  StronglySorted (fun a b => flt (key b) (key a) = false) r2 ->
  (forall k, List.filter (fun a => feq (key a) k) r1
             = List.filter (fun a => feq (key a) k) r2) ->
  r1 = r2.
Proof.
  revert r2. induction r1 as [|x t1 IH]; intros r2 Hn1 Hn2 Hs1 Hs2 Hcl.
  - destruct r2 as [|y t2]; [reflexivity|].
    apply Forall_cons_1 in Hn2 as [Hy _].
    specialize (Hcl (key y)). simpl in Hcl. rewrite (feq_refl _ Hy) in Hcl. discriminate.
  - apply Forall_cons_1 in Hn1 as [Hx Hn1].
    destruct r2 as [|y t2].
    { specialize (Hcl (key x)). simpl in Hcl. rewrite (feq_refl _ Hx) in Hcl. discriminate. }
    apply Forall_cons_1 in Hn2 as [Hy Hn2].
    apply StronglySorted_inv in Hs1 as [Hs1 Hx1].
    apply StronglySorted_inv in Hs2 as [Hs2 Hy2].
    assert (Hxy : flt (key x) (key y) = false).
    { assert (Hin : In x (y :: t2)).
      { pose proof (Hcl (key x)) as Hk. simpl in Hk. rewrite (feq_refl _ Hx) in Hk.
        assert (Hin : In x (List.filter (fun a => feq (key a) (key x)) (y :: t2)))
          by (simpl; rewrite <- Hk; left; reflexivity).
        apply List.filter_In in Hin. tauto. }
      destruct Hin as [<- | Hin].
      - destruct (key y); simpl; try congruence.
        apply negb_false_iff, Qle_bool_iff, Qle_refl.
      - exact (proj1 (List.Forall_forall _ _) Hy2 x Hin). }
    assert (Hyx : flt (key y) (key x) = false).
    { assert (Hin : In y (x :: t1)).
      { pose proof (Hcl (key y)) as Hk. simpl in Hk. rewrite (feq_refl _ Hy) in Hk.
        assert (Hin : In y (List.filter (fun a => feq (key a) (key y)) (x :: t1)))
          by (simpl in Hk |- *; rewrite Hk; left; reflexivity).
        apply List.filter_In in Hin. tauto. }
      destruct Hin as [<- | Hin].
      - exact Hxy.
      - exact (proj1 (List.Forall_forall _ _) Hx1 y Hin). }
    pose proof (flt_neither_feq _ _ Hx Hy Hxy Hyx) as Heq.
    assert (x = y).
    { pose proof (Hcl (key x)) as Hk. simpl in Hk.
      rewrite (feq_refl _ Hx), (feq_sym _ _ Heq) in Hk. congruence. }
    subst y. f_equal. apply IH; try assumption.
    intros k. specialize (Hcl k). simpl in Hcl.
    destruct (feq (key x) k); congruence.
Qed.

Lemma stable_ranking_unique (l r1 r2 : list A) :
  Forall (fun a => key a <> NaN) l ->
  stable_ranking key l r1 -> stable_ranking key l r2 -> r1 = r2.
Proof.
  intros Hl (Hp1 & Hs1 & Hc1) (Hp2 & Hs2 & Hc2).
  apply sorted_classes_unique; try assumption.
  - rewrite <- Hp1. exact Hl.
  - rewrite <- Hp2. exact Hl.
  - intros k. rewrite Hc1, Hc2. reflexivity.
Qed.

End RankingFacts.

(* ===================================================================== *)
(** * The Price Matcher                                                   *)
(* ===================================================================== *)

Lemma insert_by_ext {A : Type} (key key' : A -> pyfloat) (x : A) (l : list A) :
  key x = key' x -> Forall (fun a => key a = key' a) l ->
  insert_by key x l = insert_by key' x l.
Proof.
  intros Hx. induction 1 as [|y ys Hy Hys IH]; simpl; [reflexivity|].
  rewrite Hx, Hy, IH. reflexivity.
Qed.

Lemma sorted_by_ext {A : Type} (key key' : A -> pyfloat) (l : list A) :
  Forall (fun a => key a = key' a) l -> sorted_by key l = sorted_by key' l.
Proof.
  induction 1 as [|x xs Hx Hxs IH]; simpl; [reflexivity|].
  rewrite IH. apply insert_by_ext; [exact Hx|].
  rewrite <- sorted_by_perm. exact Hxs.
Qed.

Lemma product_price_counted (c : candidate) :
  match Scraper.product_price c with
  | inl p => counted_price c = Some p
  | inr _ => counted_price c = None
  end.
Proof.
  unfold Scraper.product_price, counted_price.
  destruct (price c) as [[f| |]|]; reflexivity.
Qed.

Lemma sort_key_closeness (lo : pyfloat) (c : candidate) :
  Scraper.sort_key lo c = closeness lo c.
Proof.
  unfold Scraper.sort_key, closeness. pose proof (product_price_counted c) as H.
  destruct (Scraper.product_price c); rewrite H; reflexivity.
Qed.

Lemma filter_loop_spec (lo hi : pyfloat) (l acc : list candidate) :
  Scraper.filter_loop lo hi l acc = acc ++ List.filter (kept lo hi) l.
Proof.
  revert acc. induction l as [|c l IH]; intros acc; simpl.
  - rewrite app_nil_r. reflexivity.
  - unfold kept. pose proof (product_price_counted c) as H.
    destruct (Scraper.product_price c) as [p|e]; rewrite H.
    + destruct (fle lo p && fle p hi); rewrite IH; [|reflexivity].
      rewrite <- app_assoc. reflexivity.
    + apply IH.
Qed.

Lemma select_unfold (cands : list candidate) (lo hi : pyfloat) :
  Scraper.select cands lo hi
  = firstn 2 (sorted_by (closeness lo) (List.filter (kept lo hi) cands)).
Proof.
  unfold Scraper.select. rewrite filter_loop_spec. simpl.
  rewrite (sorted_by_ext (Scraper.sort_key lo) (closeness lo))
    by (apply List.Forall_forall; intros c _; apply sort_key_closeness).
  destruct (List.filter (kept lo hi) cands); reflexivity.
Qed.

(** The distances of the kept candidates never mix NaN with an ordered
    value: under a finite lower limit none is NaN, otherwise each is
    [inf] or NaN, and no two of those compare. *)
Lemma kept_key (lo hi : pyfloat) (c : candidate) :
  kept lo hi c = true ->
  match lo with
  | Fin _ => closeness lo c <> NaN
  | _ => closeness lo c = PInf \/ closeness lo c = NaN
  end.
Proof.
  unfold kept, closeness.
  destruct (counted_price c) as [p|]; [|discriminate].
  destruct lo as [m| | |], p as [x| | |]; cbn [fle fsub fabs andb]; try discriminate; auto.
  intros _. pose proof (round64_not_nan (x - m)) as Hn.
  destruct (round64 (x - m)); cbn [fabs]; congruence.
Qed.

Lemma kept_ranking (cands : list candidate) (lo hi : pyfloat) :
  stable_ranking (closeness lo) (List.filter (kept lo hi) cands)
    (sorted_by (closeness lo) (List.filter (kept lo hi) cands)).
Proof.
  assert (Hk : forall c, In c (List.filter (kept lo hi) cands) -> kept lo hi c = true)
    by (intros c Hc; apply List.filter_In in Hc; tauto).
  destruct lo as [m| | |].
  1: { apply stable_ranking_ordered, List.Forall_forall. intros c Hc.
       exact (kept_key (Fin m) hi c (Hk c Hc)). }
  all: apply stable_ranking_incomparable; intros a b Ha Hb;
    pose proof (kept_key _ hi a (Hk a Ha)) as Hka;
    pose proof (kept_key _ hi b (Hk b Hb)) as Hkb; simpl in Hka, Hkb;
    destruct Hka as [-> | ->], Hkb as [-> | ->]; reflexivity.
Qed.

Lemma in_firstn {A : Type} (n : nat) (x : A) (l : list A) : In x (firstn n l) -> In x l.
Proof. intros H. rewrite <- (firstn_skipn n l). apply in_or_app. left. exact H. Qed.

Lemma select_length (cands : list candidate) (lo hi : pyfloat) :
  (length (Scraper.select cands lo hi) <= 2)%nat.
Proof. rewrite select_unfold. rewrite length_firstn. lia. Qed.

Lemma select_in_band (cands : list candidate) (lo hi : pyfloat) :
  Forall (fun c => kept lo hi c = true) (Scraper.select cands lo hi).
Proof.
  rewrite select_unfold. apply List.Forall_forall. intros c Hc.
  apply in_firstn in Hc.
  apply (Permutation_in _ (Permutation_sym (sorted_by_perm _ _))) in Hc.
  apply List.filter_In in Hc. tauto.
Qed.

(** The example of the specification: band [15, 22] on prices 19.99, 25.00
    and 15.00 gives [15.00; 19.99]. *)
Example select_kettles :
  Scraper.select [kettle_a; kettle_b; kettle_c] (Fin 15) (Fin 22) = [kettle_c; kettle_a].
Proof. reflexivity. Qed.

(** C1, as stated, fails: a candidate without a price key is not dropped.
    The source reads the missing price as 0, so the band [0, 10] keeps the
    record that the specification's filter drops. *)
Lemma select_keeps_unpriced :
  Scraper.select [unpriced_mug] (Fin 0) (Fin 10) = [unpriced_mug]
  /\ Spec.select [unpriced_mug] (Fin 0) (Fin 10) = [].
Proof. split; reflexivity. Qed.

(** C1 (amended): for every candidate list and every band, [select] keeps
    exactly the candidates whose price converts to a number inside the band,
    a missing price counting as 0 and a non-numeric one being dropped;
    arranges them in a stable ascending ranking by the float
    [abs(price - min_price)], the subtraction rounded to the nearest double
    (same elements, no element strictly closer than one placed before it,
    distances that are the same float in discovery order); and returns the
    first 2.  Under a finite lower limit that ranking is the only stable
    one, so the result is the first 2 of any stable sort.  Every element
    returned is inside the band and at most 2 are returned. *)
Theorem select_ranked_shortlist (cands : list candidate) (lo hi : pyfloat) :
  Scraper.select cands lo hi
  = firstn 2 (sorted_by (closeness lo) (List.filter (kept lo hi) cands))
  /\ stable_ranking (closeness lo) (List.filter (kept lo hi) cands)
       (sorted_by (closeness lo) (List.filter (kept lo hi) cands))
  /\ (forall m ranked,
        lo = Fin m ->
        stable_ranking (closeness lo) (List.filter (kept lo hi) cands) ranked ->
        Scraper.select cands lo hi = firstn 2 ranked)
  /\ Forall (fun c => kept lo hi c = true) (Scraper.select cands lo hi)
  /\ (length (Scraper.select cands lo hi) <= 2)%nat.
Proof.
  split; [apply select_unfold|]. split; [apply kept_ranking|].
  split; [|split; [apply select_in_band|apply select_length]].
  intros m ranked -> Hr. rewrite select_unfold. f_equal.
  apply (stable_ranking_unique (closeness (Fin m)) (List.filter (kept (Fin m) hi) cands));
    [|apply kept_ranking|exact Hr].
  apply List.Forall_forall. intros c Hc. apply List.filter_In in Hc as [_ Hc].
  exact (kept_key (Fin m) hi c Hc).
Qed.

Lemma select_ranked_shortlist_kettles :
  Scraper.select [kettle_a; kettle_b; kettle_c] (Fin 15) (Fin 22)
  = firstn 2 [kettle_c; kettle_a].
Proof.
  apply (proj1 (proj2 (proj2 (select_ranked_shortlist [kettle_a; kettle_b; kettle_c]
                                (Fin 15) (Fin 22)))) 15%Q [kettle_c; kettle_a] eq_refl).
  change (stable_ranking (closeness (Fin 15)) [kettle_a; kettle_c] [kettle_c; kettle_a]).
  split; [apply perm_swap|]. split.
  - repeat constructor.
  - intros k. cbn [List.filter].
    destruct (feq (closeness (Fin 15) kettle_c) k) eqn:Hc,
             (feq (closeness (Fin 15) kettle_a) k) eqn:Ha; try reflexivity.
    pose proof (feq_same k _ _ Hc Ha) as Hca.
    vm_compute in Hca. discriminate Hca.
Defined.

(** Where every candidate carries a price key and the subtraction is exact
    on its price, the source's shortlist is the specification's. *)
Lemma select_matches_spec (cands : list candidate) (lo hi : pyfloat) :
  Forall (fun c => price c <> None) cands ->
  Forall (fun c => closeness lo c = Spec.distance lo c) cands ->
  Scraper.select cands lo hi = Spec.select cands lo hi.
Proof.
  intros Hp Hd. rewrite select_unfold. unfold Spec.select.
  assert (Hf : List.filter (kept lo hi) cands = List.filter (Spec.in_band lo hi) cands).
  { apply List.filter_ext_in. intros c Hc.
    pose proof (proj1 (List.Forall_forall _ _) Hp c Hc) as Hc'. cbv beta in Hc'.
    unfold kept, Spec.in_band, counted_price.
    destruct (price c) as [[f| |]|]; simpl;
      first [reflexivity | exfalso; apply Hc'; reflexivity]. }
  rewrite Hf. f_equal. apply sorted_by_ext.
  apply List.Forall_forall. intros c Hc. apply List.filter_In in Hc as [Hc _].
  exact (proj1 (List.Forall_forall _ _) Hd c Hc).
Qed.

(** The distance is a float: under the band [-1e16, 10] the prices 1.0 and
    0.5 are both 1e16 away once the subtraction has rounded, the sort keeps
    them in discovery order, and the cheaper one comes second. *)
Example select_rounds_the_distance :
  Scraper.select [one_dollar; half_dollar] (Fin (- inject_Z (10 ^ 16))) (Fin 10)
  = [one_dollar; half_dollar]
  /\ Spec.select [one_dollar; half_dollar] (Fin (- inject_Z (10 ^ 16))) (Fin 10)
     = [half_dollar; one_dollar].
Proof. split; vm_compute; reflexivity. Qed.

(* ===================================================================== *)
(** * The scrape-to-cart interface                                        *)
(* ===================================================================== *)

(** The except branch (lines 115-121) attaches the bare empty list. *)
Lemma process_product_error_path (item : item_info) (cands : list candidate) (e : exn) :
  Scraper.band item = inr e ->
  eligible_products (Scraper.process_product item cands) = Some (Bare [])
  /\ error (Scraper.process_product item cands) = Some e.
Proof. intros H. unfold Scraper.process_product. rewrite H. split; reflexivity. Qed.

(** C3: on the success path of the scrape phase (both limits of the band
    convert), the field [eligible_products] is the one-element tuple around
    the shortlist, which is empty or of length at most 2, never the bare
    shortlist; and the cart phase, indexing the field with [0], gets that
    shortlist (or stops at its guard when the shortlist is empty). *)
Theorem eligible_products_one_tuple (item : item_info) (cands : list candidate)
    (lo hi : pyfloat) :
  Scraper.band item = inl (lo, hi) ->
  eligible_products (Scraper.process_product item cands)
  = Some (Tuple1 (Scraper.select cands lo hi))
  /\ (length (Scraper.select cands lo hi) <= 2)%nat
  /\ (forall l, eligible_products (Scraper.process_product item cands) = Some (Bare l) -> False)
  /\ Bot.products_list (Scraper.process_product item cands)
     = Ok (match Scraper.select cands lo hi with [] => None | l => Some l end).
Proof.
  intros H. unfold Scraper.process_product, Bot.products_list. rewrite H. simpl.
  split; [reflexivity|]. split; [apply select_length|]. split; [discriminate|].
  destruct (Scraper.select cands lo hi); reflexivity.
Qed.

Lemma eligible_products_one_tuple_kettles :
  eligible_products (Scraper.process_product kettle_item [kettle_a; kettle_b; kettle_c])
  = Some (Tuple1 [kettle_c; kettle_a])
  /\ Bot.products_list (Scraper.process_product kettle_item [kettle_a; kettle_b; kettle_c])
     = Ok (Some [kettle_c; kettle_a]).
Proof.
  destruct (eligible_products_one_tuple kettle_item [kettle_a; kettle_b; kettle_c]
              (Fin 15) (Fin 22) eq_refl) as (H1 & _ & _ & H2).
  split; [exact H1|exact H2].
Defined.

(* ===================================================================== *)
(** * The outcome stores                                                  *)
(* ===================================================================== *)

Lemma save_product_data_union (product : gmap string item_info) (is_success : bool)
    (fs : stores) (prior : gmap string item_info) :
  Bot.load_store (chosen is_success fs) = Ok prior ->
  Bot.save_product_data product is_success fs
  = Ok (if is_success
        then {| success_file := JsonObject (product ∪ prior); failure_file := failure_file fs |}
        else {| success_file := success_file fs; failure_file := JsonObject (product ∪ prior) |}).
Proof.
  unfold Bot.save_product_data, chosen. destruct is_success; intros ->; reflexivity.
Qed.

(** C8, as stated, fails: a failure store that exists but holds bytes that
    are no UTF-8 text (a file cut inside a character, say) is malformed, yet
    saving into it raises UnicodeDecodeError instead of starting from the
    empty mapping, and nothing is written. *)
Lemma undecodable_store_raises :
  Bot.load_store (failure_file torn_stores) = Raise UnicodeDecodeError
  /\ Bot.save_product_data {[ "kettle" := kettle_item ]} false torn_stores
     = Raise UnicodeDecodeError.
Proof. split; reflexivity. Qed.

(** C8 (amended): saving the record [v] under key [k] merges it into the
    store: whatever the store held before, reading it back gives [v] at [k]
    and the prior value at every other key, and the other store is left as
    it was.  The store holds nothing before exactly when its file is
    missing or is text that is not JSON (JSONDecodeError), and what its
    JSON object holds otherwise.  A file that is no UTF-8 text raises
    UnicodeDecodeError and one whose JSON is no object raises
    AttributeError: these two are hard errors, and the save writes
    nothing. *)
Theorem save_product_data_merges (k : string) (v : item_info) (is_success : bool)
    (fs : stores) (prior : gmap string item_info) :
  Bot.load_store (chosen is_success fs) = Ok prior ->
  (exists fs' after,
     Bot.save_product_data {[ k := v ]} is_success fs = Ok fs'
     /\ Bot.read_store (chosen is_success fs') = Ok after
     /\ after !! k = Some v
     /\ (forall k', k' <> k -> after !! k' = prior !! k')
     /\ chosen (negb is_success) fs' = chosen (negb is_success) fs)
  /\ (forall f data,
        Bot.load_store f = Ok data
        <-> (f = Missing \/ f = Garbage) /\ data = ∅ \/ f = JsonObject data)
  /\ (forall fs0, chosen is_success fs0 = Undecodable ->
        Bot.save_product_data {[ k := v ]} is_success fs0 = Raise UnicodeDecodeError)
  /\ (forall fs0, chosen is_success fs0 = JsonOther ->
        Bot.save_product_data {[ k := v ]} is_success fs0 = Raise AttributeError).
Proof.
  intros Hload. split; [|split; [|split]].
  - rewrite (save_product_data_union _ _ _ _ Hload).
    eexists. exists (<[ k := v ]> prior). split; [reflexivity|].
    split. { destruct is_success; simpl; rewrite insert_union_singleton_l; reflexivity. }
    split; [apply lookup_insert_eq|].
    split. { intros k' Hk. apply lookup_insert_ne. congruence. }
    destruct is_success; reflexivity.
  - intros f data. split.
    + destruct f; cbn [Bot.load_store]; intros [= <-]; auto.
    + intros [[[-> | ->] ->] | ->]; reflexivity.
  - intros fs0 Hf. unfold Bot.save_product_data, chosen in *.
    destruct is_success; rewrite Hf; reflexivity.
  - intros fs0 Hf. unfold Bot.save_product_data, chosen in *.
    destruct is_success; rewrite Hf; reflexivity.
Qed.

Lemma save_product_data_merges_missing :
  exists fs' after,
    Bot.save_product_data {[ "kettle" := kettle_item ]} false no_stores = Ok fs'
    /\ Bot.read_store (failure_file fs') = Ok after
    /\ after !! "kettle" = Some kettle_item.
Proof.
  destruct (save_product_data_merges "kettle" kettle_item false no_stores ∅ eq_refl)
    as ((fs' & after & H1 & H2 & H3 & _) & _).
  exists fs', after. repeat split; assumption.
Defined.

(* ===================================================================== *)
(** * Items with nothing to try                                           *)
(* ===================================================================== *)

Lemma products_list_empty (item : item_info) :
  eligible_set item = [] -> Bot.products_list item = Ok None.
Proof.
  unfold eligible_set, Bot.products_list.
  destruct (eligible_products item) as [[l|l]|]; intros H; try subst l; reflexivity.
Qed.

(** C4: for an item whose eligible set is empty, the orchestrator opens no
    browser session (the session log is unchanged), stamps no candidate, and
    writes the item as it is under its key into the failure store, leaving
    the success store alone. *)
Theorem empty_eligible_set_fails (w : world) (retry_attempts : Z) (item_key : string)
    (item : item_info) (st : cart_state) (prior : gmap string item_info) :
  eligible_set item = [] ->
  Bot.load_store (failure_file (files st)) = Ok prior ->
  Bot.process_product w retry_attempts item_key item (sessions st) = Ok (None, sessions st)
  /\ Bot.add_to_cart_single_product w retry_attempts item_key item st
     = Ok {| sessions := sessions st;
             files := {| success_file := success_file (files st);
                         failure_file := JsonObject (<[ item_key := item ]> prior) |} |}.
Proof.
  intros Hempty Hload.
  assert (Hp : Bot.process_product w retry_attempts item_key item (sessions st)
               = Ok (None, sessions st)).
  { unfold Bot.process_product. rewrite (products_list_empty _ Hempty). reflexivity. }
  split; [exact Hp|].
  unfold Bot.add_to_cart_single_product. rewrite Hp.
  step_bind.
  rewrite (save_product_data_union _ false _ _ Hload). cbn beta iota.
  rewrite insert_union_singleton_l. reflexivity.
Qed.

Lemma empty_eligible_set_fails_fresh :
  Bot.add_to_cart_single_product hostile 2 "kettle" (with_shortlist []) fresh
  = Ok {| sessions := [];
          files := {| success_file := Missing;
                      failure_file := JsonObject (<[ "kettle" := with_shortlist [] ]> ∅) |} |}.
Proof.
  exact (proj2 (empty_eligible_set_fails hostile 2 "kettle" (with_shortlist []) fresh ∅
                  eq_refl eq_refl)).
Defined.

(* ===================================================================== *)
(** * The login check                                                     *)
(* ===================================================================== *)

(** A probe that raises makes the check answer [(None, None)], which the
    caller treats as not logged in. *)
Lemma login_check_probe_raises (p : page) :
  hi_account p = None -> Bot.login_check p = NotSignedIn.
Proof. intros H. unfold Bot.login_check, Bot.is_account_logged_in. rewrite H. reflexivity. Qed.

(** C6: on a page whose probes answer, the login check goes through the
    signals in priority order: an authenticated-user marker gives logged in;
    otherwise an anonymous sign-in marker gives not logged in; otherwise a
    block marker (robot challenge, or a short body with "Forbidden") gives
    blocked; and with none of the three it gives logged in. *)
Theorem login_check_priority (hi_a hi_h si_a si_h r1 r2 : bool) (body : string) :
  Bot.is_account_logged_in (page_of hi_a hi_h si_a si_h r1 r2 body)
  = (if hi_a || hi_h then (Some true, Some false)
     else if si_a || si_h then (Some false, Some false)
     else if Bot.is_request_blocked (page_of hi_a hi_h si_a si_h r1 r2 body)
          then (Some false, Some true)
          else (Some true, None))
  /\ Bot.login_check (page_of hi_a hi_h si_a si_h r1 r2 body)
     = (if hi_a || hi_h then LoggedIn
        else if si_a || si_h then NotSignedIn
        else if Bot.is_request_blocked (page_of hi_a hi_h si_a si_h r1 r2 body)
             then BlockedPage
             else LoggedIn)
  /\ Bot.is_request_blocked (page_of hi_a hi_h si_a si_h r1 r2 body)
     = (r1 || r2
        || (negb (String.eqb body "") && (Z.of_nat (String.length body) <? 500)
            && Bot.contains "Forbidden" body)).
Proof.
  unfold Bot.login_check, Bot.is_account_logged_in, Bot.is_request_blocked.
  destruct hi_a, hi_h, si_a, si_h, r1, r2; cbn;
    repeat split; try reflexivity;
    destruct (negb (String.eqb body "") && (Z.of_nat (String.length body) <? 500)
              && Bot.contains "Forbidden" body); reflexivity.
Qed.

(** The ambiguous page goes on to the add-to-cart step. *)
Example ambiguous_page_proceeds :
  Bot.login_check (page_of false false false false false false "Loading") = LoggedIn.
Proof. reflexivity. Qed.

(** A short body with "Forbidden" counts as blocked; a sign-in marker on the
    same page is read first. *)
Example forbidden_page_blocked :
  Bot.login_check (page_of false false false false false false "403 Forbidden") = BlockedPage
  /\ Bot.login_check (page_of false false true false false false "403 Forbidden") = NotSignedIn.
Proof. split; reflexivity. Qed.

(* ===================================================================== *)
(** * The fetcher                                                         *)
(* ===================================================================== *)

(** C9: the fetcher returns content only from a reply with status 200 and
    a body longer than 2000 characters, namely from the first such reply;
    a transport error, another exception or an implausible reply makes it
    try again, two requests in all; and when both fail it returns [None],
    raising nothing. *)
Theorem request_html_retries (net : nat -> http_reply) :
  exists r sent,
    Helpers.request_html net = Ok (r, sent)
    /\ (sent <= 2)%nat
    /\ match r with
       | Some html =>
           exists n, sent = S n
             /\ net n = Response 200 html
             /\ 2000 < Z.of_nat (String.length html)
             /\ forall m, (m < n)%nat -> plausible (net m) = false
       | None => sent = 2%nat /\ forall m, (m < 2)%nat -> plausible (net m) = false
       end.
Proof.
  unfold Helpers.request_html. simpl.
  destruct (net 0%nat) as [| |s0 h0] eqn:H0.
  3: destruct ((s0 =? 200) && (2000 <? Z.of_nat (String.length h0))) eqn:P0.
  3: { apply andb_true_iff in P0 as [Hs Hl]. apply Z.eqb_eq in Hs. apply Z.ltb_lt in Hl.
       subst s0. exists (Some h0), 1%nat. split; [reflexivity|]. split; [lia|].
       exists 0%nat. repeat split; try assumption. intros m Hm. lia. }
  all: destruct (net 1%nat) as [| |s1 h1] eqn:H1.
  all: try destruct ((s1 =? 200) && (2000 <? Z.of_nat (String.length h1))) eqn:P1.
  all: try (exists None, 2%nat; split; [reflexivity|]; split; [lia|]; split; [reflexivity|];
            intros m Hm; assert (Hm' : m = 0%nat \/ m = 1%nat) by lia;
            destruct Hm' as [-> | ->]; [rewrite H0|rewrite H1]; simpl; auto; fail).
  all: apply andb_true_iff in P1 as [Hs Hl]; apply Z.eqb_eq in Hs; apply Z.ltb_lt in Hl;
    subst s1; exists (Some h1), 2%nat; (split; [reflexivity|]); (split; [lia|]);
    exists 1%nat; repeat split; try assumption;
    intros m Hm; assert (m = 0%nat) by lia; subst m; rewrite H0; simpl; auto.
Qed.

(** A time-out followed by a full page: the second request's content. *)
Example request_html_flaky :
  Helpers.request_html flaky_net = Ok (Some (string_of_length 2001), 2%nat).
Proof. vm_compute. reflexivity. Qed.

(* ===================================================================== *)
(** * The input loader                                                    *)
(* ===================================================================== *)

Lemma flt_asym (a b : pyfloat) : flt a b = true -> flt b a = false.
Proof. intros H. apply fle_not_flt, flt_true_fle, H. Qed.

Lemma ordered_band_not_gt (a b lo hi : pyfloat) :
  ordered_band a b = (lo, hi) -> fgt lo hi = false.
Proof.
  unfold ordered_band, fgt. destruct (flt b a) eqn:H; intros [= <- <-].
  - apply flt_asym. exact H.
  - exact H.
Qed.

Lemma not_gt_le (lo hi : pyfloat) :
  fgt lo hi = false -> lo <> NaN -> hi <> NaN -> fle lo hi = true.
Proof. intros H Hlo Hhi. apply flt_false_fle; assumption. Qed.

Lemma extras_loop_lookup (k : string) (cells : list (option string * option string))
    (d d' : gmap string field_value) :
  Helpers.extras_loop cells d = Loaded d' ->
  Forall (fun c => match c with
                   | (Some key, Some value) =>
                       Helpers.strip value <> "" -> Helpers.normalize_key key <> k
                   | _ => True
                   end) cells ->
  d' !! k = d !! k.
Proof.
  intros Hrun Hcells. revert d Hrun.
  induction Hcells as [|[[key|] [value|]] cells Hc Hcells IH]; intros d Hrun; simpl in Hrun;
    try discriminate.
  - congruence.
  - destruct (String.eqb (Helpers.strip value) "") eqn:He; simpl in Hrun.
    + apply IH. exact Hrun.
    + rewrite (IH _ Hrun). apply lookup_insert_ne. apply Hc.
      apply String.eqb_neq. exact He.
Qed.

Lemma clobber_free_key (k : string) (cells : list (option string * option string)) :
  k = "min_price" \/ k = "max_price" ->
  Forall (fun c => clobbers c = false) cells ->
  Forall (fun c => match c with
                   | (Some key, Some value) =>
                       Helpers.strip value <> "" -> Helpers.normalize_key key <> k
                   | _ => True
                   end) cells.
Proof.
  intros Hk. apply List.Forall_impl. intros [[key|] [value|]] Hc; try exact I.
  intros Hv Heq. simpl in Hc.
  apply String.eqb_neq in Hv. rewrite Hv in Hc. simpl in Hc.
  apply orb_false_iff in Hc as [H1 H2].
  apply String.eqb_neq in H1, H2. destruct Hk; congruence.
Qed.

Lemma extras_loop_text (cells : list (option string * option string))
    (d : gmap string field_value) :
  Forall (fun c => text_cell c = true) cells -> exists d', Helpers.extras_loop cells d = Loaded d'.
Proof.
  intros H. revert d. induction H as [|[[key|] [value|]] cells Hc Hcells IH]; intros d;
    simpl in *; try discriminate.
  - eexists; reflexivity.
  - destruct (negb (String.eqb (Helpers.strip value) "")); apply IH.
Qed.

(** What a row with its name and both price cells comes to. *)
Lemma load_row_unfold (row : csv_row) (nm : string) (min_cell max_cell : price_cell) :
  item_name_cell row = Some nm -> Helpers.strip nm <> "" ->
  min_cost_cell row = Some min_cell -> max_cost_cell row = Some max_cell ->
  Helpers.load_row row
  = Helpers.extras_loop (other_cells row)
      (<[ "max_price" := FNum (snd (ordered_band (Helpers.cell_price min_cell)
                                                 (Helpers.cell_price max_cell))) ]>
         (<[ "min_price" := FNum (fst (ordered_band (Helpers.cell_price min_cell)
                                                    (Helpers.cell_price max_cell))) ]>
            {[ "product_name" := FStr (Helpers.strip nm) ]})).
Proof.
  intros Hn Hne Hmin Hmax. unfold Helpers.load_row. rewrite Hn, Hmin, Hmax.
  apply String.eqb_neq in Hne. rewrite Hne. unfold ordered_band.
  destruct (fgt (Helpers.cell_price min_cell) (Helpers.cell_price max_cell)); reflexivity.
Qed.

Lemma load_row_loaded (row : csv_row) (d : gmap string field_value) :
  Helpers.load_row row = Loaded d ->
  exists nm min_cell max_cell,
    item_name_cell row = Some nm /\ Helpers.strip nm <> ""
    /\ min_cost_cell row = Some min_cell /\ max_cost_cell row = Some max_cell.
Proof.
  unfold Helpers.load_row.
  destruct (item_name_cell row) as [nm|]; [|discriminate].
  destruct (String.eqb (Helpers.strip nm) "") eqn:He; [discriminate|].
  destruct (min_cost_cell row) as [min_cell|]; [|discriminate].
  destruct (max_cost_cell row) as [max_cell|]; [|discriminate].
  intros _. exists nm, min_cell, max_cell. apply String.eqb_neq in He. auto.
Qed.

Lemma load_rows_spec (l : list csv_row) (acc : list (gmap string field_value)) :
  Helpers.load_rows l acc
  = acc ++ omap (fun row => match Helpers.load_row row with
                            | Loaded d => Some d
                            | _ => None
                            end) l.
Proof.
  revert acc. induction l as [|row l IH]; intros acc; simpl.
  - rewrite app_nil_r. reflexivity.
  - destruct (Helpers.load_row row); rewrite IH; [|reflexivity..].
    rewrite <- app_assoc. reflexivity.
Qed.

Lemma load_row_prices (row : csv_row) (d : gmap string field_value)
    (nm : string) (min_cell max_cell : price_cell) :
  item_name_cell row = Some nm -> Helpers.strip nm <> "" ->
  min_cost_cell row = Some min_cell -> max_cost_cell row = Some max_cell ->
  Forall (fun c => clobbers c = false) (other_cells row) ->
  Helpers.load_row row = Loaded d ->
  d !! "min_price"
  = Some (FNum (fst (ordered_band (Helpers.cell_price min_cell) (Helpers.cell_price max_cell))))
  /\ d !! "max_price"
     = Some (FNum (snd (ordered_band (Helpers.cell_price min_cell) (Helpers.cell_price max_cell)))).
Proof.
  intros Hn Hne Hmin Hmax Hfree Hrow.
  rewrite (load_row_unfold row nm min_cell max_cell Hn Hne Hmin Hmax) in Hrow.
  split.
  - rewrite (extras_loop_lookup "min_price" _ _ _ Hrow)
      by (apply clobber_free_key; [left; reflexivity|exact Hfree]).
    rewrite lookup_insert_ne by discriminate. apply lookup_insert_eq.
  - rewrite (extras_loop_lookup "max_price" _ _ _ Hrow)
      by (apply clobber_free_key; [right; reflexivity|exact Hfree]).
    apply lookup_insert_eq.
Qed.

(** The short row is dropped: [None.strip()] raises inside the row's [try]. *)
Example short_row_dropped : Helpers.load_row short_row = Dropped AttributeError.
Proof. reflexivity. Qed.

(** An extra column named like a price key overwrites the price (line 345). *)
Example extra_column_overwrites_price :
  exists d, Helpers.load_row clobber_row = Loaded d
            /\ d !! "min_price" = Some (FStr "cheap").
Proof. eexists. split; reflexivity. Qed.

(** C7, as stated, fails: the cell [nan] converts, [nan > 5] is false, so
    nothing is swapped and the loaded item has a minimum that is not below
    its maximum. *)
Lemma nan_minimum_is_loaded :
  exists d,
    Helpers.load_input_data (Some nan_file) = Ok [d]
    /\ d !! "min_price" = Some (FNum NaN)
    /\ d !! "max_price" = Some (FNum (Fin 5))
    /\ fle NaN (Fin 5) = false.
Proof.
  eexists. split; [reflexivity|]. split; [reflexivity|]. split; reflexivity.
Qed.

(** C7 (amended): in a file whose extra columns do not collide with the
    price keys, every loaded item has float limits with [min_price >
    max_price] false, hence [min_price <= max_price] whenever neither limit
    is NaN.  A row with a name and both price cells, whatever their text,
    is loaded rather than dropped: a malformed cell counts as 0, and the two
    values are swapped when the minimum exceeds the maximum. *)
Theorem load_input_data_orders_prices (f : csv_file)
    (items : list (gmap string field_value)) :
  Helpers.load_input_data (Some f) = Ok items ->
  Forall (fun row => Forall (fun c => clobbers c = false) (other_cells row)) (rows f) ->
  Forall (fun d => exists lo hi,
            d !! "min_price" = Some (FNum lo) /\ d !! "max_price" = Some (FNum hi)
            /\ fgt lo hi = false
            /\ (lo <> NaN -> hi <> NaN -> fle lo hi = true)) items
  /\ (forall row nm min_cell max_cell,
        In row (rows f) ->
        item_name_cell row = Some nm -> Helpers.strip nm <> "" ->
        min_cost_cell row = Some min_cell -> max_cost_cell row = Some max_cell ->
        Forall (fun c => text_cell c = true) (other_cells row) ->
        exists d, In d items
          /\ Helpers.load_row row = Loaded d
          /\ d !! "min_price"
             = Some (FNum (fst (ordered_band (Helpers.cell_price min_cell)
                                             (Helpers.cell_price max_cell))))
          /\ d !! "max_price"
             = Some (FNum (snd (ordered_band (Helpers.cell_price min_cell)
                                             (Helpers.cell_price max_cell)))))
  /\ Helpers.cell_price Malformed = fzero
  /\ (forall a b, fgt a b = true -> ordered_band a b = (b, a)).
Proof.
  intros Hload Hfree.
  assert (Hitems : items = omap (fun row => match Helpers.load_row row with
                                            | Loaded d => Some d
                                            | _ => None
                                            end) (rows f)).
  { unfold Helpers.load_input_data in Hload. destruct (fieldnames f); [discriminate|].
    destruct (forallb _ _); [|discriminate].
    injection Hload as <-. apply load_rows_spec. }
  split; [|split; [|split]].
  - apply List.Forall_forall. intros d Hd. subst items.
    apply list_elem_of_In, list_elem_of_omap in Hd as (row & Hrow & Hd).
    destruct (Helpers.load_row row) as [d'| |] eqn:Hr; try discriminate.
    injection Hd as ->.
    destruct (load_row_loaded row d Hr) as (nm & min_cell & max_cell & Hn & Hne & Hmin & Hmax).
    apply list_elem_of_In in Hrow.
    pose proof (proj1 (List.Forall_forall _ _) Hfree row Hrow) as Hf. cbv beta in Hf.
    destruct (load_row_prices row d nm min_cell max_cell Hn Hne Hmin Hmax Hf Hr) as [H1 H2].
    destruct (ordered_band (Helpers.cell_price min_cell) (Helpers.cell_price max_cell))
      as [lo hi] eqn:Hb.
    exists lo, hi. split; [exact H1|]. split; [exact H2|].
    pose proof (ordered_band_not_gt _ _ _ _ Hb) as Hgt.
    split; [exact Hgt|]. intros Hlo Hhi. apply not_gt_le; assumption.
  - intros row nm min_cell max_cell Hrow Hn Hne Hmin Hmax Htext.
    pose proof (proj1 (List.Forall_forall _ _) Hfree row Hrow) as Hf. cbv beta in Hf.
    destruct (extras_loop_text (other_cells row)
      (<[ "max_price" := FNum (snd (ordered_band (Helpers.cell_price min_cell)
                                                 (Helpers.cell_price max_cell))) ]>
         (<[ "min_price" := FNum (fst (ordered_band (Helpers.cell_price min_cell)
                                                    (Helpers.cell_price max_cell))) ]>
            {[ "product_name" := FStr (Helpers.strip nm) ]})) Htext) as [d Hd].
    rewrite <- (load_row_unfold row nm min_cell max_cell Hn Hne Hmin Hmax) in Hd.
    exists d. split.
    { subst items. apply list_elem_of_In, list_elem_of_omap. exists row.
      split; [apply list_elem_of_In; exact Hrow|]. rewrite Hd. reflexivity. }
    split; [exact Hd|].
    exact (load_row_prices row d nm min_cell max_cell Hn Hne Hmin Hmax Hf Hd).
  - reflexivity.
  - intros a b H. unfold ordered_band. rewrite H. reflexivity.
Qed.

(* ===================================================================== *)
(** * The retry loop of [attempt_add_to_cart]                             *)
(* ===================================================================== *)

Lemma loop_body_cases (out : attempt_outcome) (st : loop_state) :
  (Bot.loop_body out st = Return true /\ (out = Added \/ out = AlreadyInCart))
  \/ (exists st', Bot.loop_body out st = Continue st'
        /\ retries st' = retries st + 1
        /\ proxy_needed st' = proxy_needed st || blocked_outcome out
        /\ out <> Added /\ out <> AlreadyInCart).
Proof.
  destruct out; simpl;
    first [ left; split; [reflexivity|auto; fail]
          | right; eexists; split; [reflexivity|]; simpl;
            rewrite ?orb_false_r, ?orb_true_r; repeat split; (reflexivity || discriminate) ].
Qed.

Lemma escalating_true (l : list log_entry) :
  escalating true l -> Forall (fun e => le_proxy e = true) l.
Proof.
  induction l as [|e l IH]; simpl; [constructor|]. intros [He Hl].
  constructor; [exact He|apply IH; exact Hl].
Qed.

Lemma escalating_after_block (proxy : bool) (l pre post : list log_entry) (e : log_entry) :
  escalating proxy l -> l = pre ++ e :: post -> le_outcome e = Blocked ->
  Forall (fun e' => le_proxy e' = true) post.
Proof.
  revert proxy l. induction pre as [|x pre IH]; intros proxy l Hl -> Hb; simpl in Hl.
  - destruct Hl as [_ Hl]. rewrite Hb in Hl. simpl in Hl. rewrite orb_true_r in Hl.
    apply escalating_true. exact Hl.
  - destruct Hl as [_ Hl]. eapply IH; [exact Hl|reflexivity|exact Hb].
Qed.

(** The loop returns once the fuel covers the remaining budget; it opens
    only sessions on [c]. *)
Lemma attempt_loop_spec (fuel : nat) (w : world) (retry_attempts : Z) (c : candidate)
    (st : loop_state) (log : list log_entry) :
  retry_attempts - retries st <= Z.of_nat fuel ->
  exists ok st' new,
    Bot.attempt_loop fuel w retry_attempts c st log = Ok (ok, st', log ++ new)
    /\ Forall (fun e => le_candidate e = c) new
    /\ escalating (proxy_needed st) new
    /\ if ok
       then exists pre e, new = pre ++ [e] /\ Forall failed pre /\ succeeded e
              /\ Z.of_nat (length new) <= retry_attempts - retries st
              /\ retries st' = retries st + Z.of_nat (length pre)
       else Forall failed new
            /\ Z.of_nat (length new) = Z.max 0 (retry_attempts - retries st)
            /\ retries st' = retries st + Z.of_nat (length new).
Proof.
  revert st log. induction fuel as [|fuel IH]; intros st log Hfuel; simpl.
  - destruct (retries st <? retry_attempts) eqn:Hlt; [apply Z.ltb_lt in Hlt; lia|].
    apply Z.ltb_ge in Hlt. exists false, st, []. rewrite app_nil_r.
    split; [reflexivity|]. split; [constructor|]. split; [exact I|].
    split; [constructor|]. simpl. lia.
  - destruct (retries st <? retry_attempts) eqn:Hlt.
    2: { apply Z.ltb_ge in Hlt. exists false, st, []. rewrite app_nil_r.
         split; [reflexivity|]. split; [constructor|]. split; [exact I|].
         split; [constructor|]. simpl. lia. }
    apply Z.ltb_lt in Hlt.
    set (out := Bot.run_session (browse w (length log) c (proxy_needed st))).
    set (e := {| le_candidate := c; le_proxy := proxy_needed st; le_outcome := out |}).
    destruct (loop_body_cases out st) as [[Hb Hout] | (st1 & Hb & Hr & Hp & Hna & Hnc)];
      rewrite Hb.
    + exists true, st, [e]. split; [reflexivity|]. split; [repeat constructor|].
      split; [simpl; auto|].
      exists [], e. split; [reflexivity|]. split; [constructor|]. split; [exact Hout|].
      simpl. lia.
    + destruct (IH st1 (log ++ [e])) as (ok & st' & new & Hrun & Hc & Hesc & Hok); [lia|].
      exists ok, st', (e :: new). rewrite Hrun. rewrite <- app_assoc. simpl.
      split; [reflexivity|]. split; [constructor; [reflexivity|exact Hc]|].
      split. { split; [reflexivity|]. simpl. rewrite <- Hp. exact Hesc. }
      assert (He : failed e) by (split; assumption).
      destruct ok.
      * destruct Hok as (pre & e' & -> & Hpre & He' & Hlen & Hret).
        exists (e :: pre), e'. split; [reflexivity|]. split; [constructor; assumption|].
        split; [exact He'|]. rewrite length_app in Hlen |- *. simpl in Hlen |- *. lia.
      * destruct Hok as (Hf & Hlen & Hret).
        split; [constructor; assumption|]. simpl length. lia.
Qed.

Lemma attempt_add_to_cart_spec (w : world) (retry_attempts : Z) (c : candidate)
    (log : list log_entry) :
  exists ok st new,
    Bot.attempt_add_to_cart w retry_attempts c log = Ok (ok, st, log ++ new)
    /\ Forall (fun e => le_candidate e = c) new
    /\ escalating false new
    /\ if ok
       then exists pre e, new = pre ++ [e] /\ Forall failed pre /\ succeeded e
              /\ Z.of_nat (length new) <= retry_attempts
              /\ retries st = Z.of_nat (length pre)
       else Forall failed new
            /\ Z.of_nat (length new) = Z.max 0 retry_attempts
            /\ retries st = Z.of_nat (length new).
Proof.
  unfold Bot.attempt_add_to_cart.
  destruct (attempt_loop_spec (Z.to_nat retry_attempts) w retry_attempts c
              Bot.initial_state log) as (ok & st & new & Hrun & Hc & Hesc & Hok).
  { simpl. lia. }
  exists ok, st, new. split; [exact Hrun|]. split; [exact Hc|]. split; [exact Hesc|].
  simpl in Hok. destruct ok.
  - destruct Hok as (pre & e & Hn & Hpre & He & Hlen & Hret).
    exists pre, e. repeat split; try assumption; lia.
  - destruct Hok as (Hf & Hlen & Hret). repeat split; try assumption; lia.
Qed.


(* ===================================================================== *)
(** * Proxy escalation                                                    *)
(* ===================================================================== *)

(** C2, as stated, fails: with every session challenged and a budget of 2,
    the first candidate is blocked unproxied and retried through the proxy,
    yet the first session on the second candidate runs without the proxy
    again. *)
Lemma second_candidate_starts_unproxied :
  exists log,
    Bot.process_product hostile 2 "kettle" (with_shortlist [kettle_c; kettle_a]) []
    = Ok (None, log)
    /\ map summary log
       = [("Kettle C", false, Blocked); ("Kettle C", true, Blocked);
          ("Kettle A", false, Blocked); ("Kettle A", true, Blocked)].
Proof. eexists. split; reflexivity. Qed.

(** C2 (amended): within the attempts on one candidate, a blocked session
    adds one to the retry counter and sets [proxy_needed], and every later
    session on that candidate runs on the proxied profile; the first session
    on each candidate runs unproxied. *)
Theorem proxy_escalates_per_candidate (w : world) (retry_attempts : Z) (c : candidate)
    (log : list log_entry) :
  exists ok st new,
    Bot.attempt_add_to_cart w retry_attempts c log = Ok (ok, st, log ++ new)
    /\ Forall (fun e => le_candidate e = c) new
    /\ (forall pre e post,
          new = pre ++ e :: post -> le_outcome e = Blocked ->
          Forall (fun e' => le_proxy e' = true) post)
    /\ (forall e post, new = e :: post -> le_proxy e = false)
    /\ (forall st0, Bot.loop_body Blocked st0
                    = Continue {| retries := retries st0 + 1; proxy_needed := true |}).
Proof.
  destruct (attempt_add_to_cart_spec w retry_attempts c log)
    as (ok & st & new & Hrun & Hc & Hesc & _).
  exists ok, st, new. split; [exact Hrun|]. split; [exact Hc|].
  split. { intros pre e post Hn Hb. eapply escalating_after_block; eassumption. }
  split. { intros e post ->. simpl in Hesc. tauto. }
  reflexivity.
Qed.

Lemma proxy_escalates_hostile :
  exists st e1 e2,
    Bot.attempt_add_to_cart hostile 2 kettle_c [] = Ok (false, st, [e1; e2])
    /\ le_outcome e1 = Blocked
    /\ le_proxy e1 = false
    /\ le_proxy e2 = true.
Proof.
  destruct (proxy_escalates_per_candidate hostile 2 kettle_c [])
    as (ok & st & new & Hrun & _ & Hafter & Hfirst & _).
  vm_compute in Hrun. injection Hrun as <- <- <-.
  do 3 eexists. split; [vm_compute; reflexivity|]. split; [reflexivity|].
  split.
  - exact (Hfirst _ _ eq_refl).
  - exact (List.Forall_inv (Hafter [] _ _ eq_refl eq_refl)).
Defined.

(* ===================================================================== *)
(** * Walking the shortlist                                               *)
(* ===================================================================== *)

Lemma try_products_skip (w : world) (retry_attempts : Z) (i : nat)
    (skipped l : list candidate) (log : list log_entry) :
  Forall (fun c => added_to_cart c = true) skipped ->
  Bot.try_products w retry_attempts i (skipped ++ l) log
  = Bot.try_products w retry_attempts (i + length skipped) l log.
Proof.
  intros H. revert i. induction H as [|c skipped Hc Hs IH]; intros i; simpl.
  - f_equal. lia.
  - rewrite Hc, IH. f_equal. lia.
Qed.

Lemma try_products_cutoff (w : world) (retry_attempts : Z) (i : nat) (c : candidate)
    (rest : list candidate) (log log1 : list log_entry) (st : loop_state) :
  2 <= retry_attempts -> (1 <= i)%nat -> added_to_cart c = false ->
  Bot.attempt_add_to_cart w retry_attempts c log = Ok (false, st, log1) ->
  Bot.try_products w retry_attempts i (c :: rest) log = Ok (None, log1).
Proof.
  intros Hra Hi Hc Hrun. simpl. rewrite Hc, Hrun.
  step_bind.
  replace (1 <=? Z.of_nat i) with true by (symmetry; apply Z.leb_le; lia).
  replace (2 <=? retry_attempts) with true by (symmetry; apply Z.leb_le; lia).
  reflexivity.
Qed.

(** The sessions of the walk come in blocks, one block per candidate
    tried, and the candidates tried are unflagged members of the list,
    in the order of the list. *)
Lemma try_products_blocks (w : world) (retry_attempts : Z) (l : list candidate) :
  forall (i : nat) (log : list log_entry),
  exists winner (blocks : list (candidate * list log_entry)),
    Bot.try_products w retry_attempts i l log = Ok (winner, log ++ concat (map snd blocks))
    /\ map fst blocks `sublist_of` l
    /\ Forall (fun b => added_to_cart (fst b) = false
                        /\ Forall (fun e => le_candidate e = fst b) (snd b)) blocks.
Proof.
  induction l as [|c rest IH]; intros i log; simpl.
  - exists None, []. simpl. rewrite app_nil_r. repeat split; constructor.
  - destruct (added_to_cart c) eqn:Hflag.
    + destruct (IH (S i) log) as (winner & blocks & Hrun & Hsub & Hbl).
      exists winner, blocks. split; [exact Hrun|]. split; [|exact Hbl].
      apply sublist_cons. exact Hsub.
    + destruct (attempt_add_to_cart_spec w retry_attempts c log)
        as (ok & st & new & Hrun & Hc & _ & _).
      rewrite Hrun. step_bind.
      assert (Hone : [c] `sublist_of` c :: rest)
        by (apply sublist_skip, sublist_nil_l).
      assert (Hblock : Forall (fun b : candidate * list log_entry =>
                                 added_to_cart (fst b) = false
                                 /\ Forall (fun e => le_candidate e = fst b) (snd b))
                              [(c, new)])
        by (repeat constructor; assumption).
      destruct ok.
      * exists (Some i), [(c, new)]. simpl. rewrite app_nil_r. auto.
      * destruct ((1 <=? Z.of_nat i) && (2 <=? retry_attempts)).
        -- exists None, [(c, new)]. simpl. rewrite app_nil_r. auto.
        -- destruct (IH (S i) (log ++ new)) as (winner & blocks & Hrest & Hsub & Hbl).
           exists winner, ((c, new) :: blocks). simpl. rewrite Hrest, app_assoc.
           split; [reflexivity|]. split; [apply sublist_skip; exact Hsub|].
           constructor; [split; assumption|exact Hbl].
Qed.

Lemma process_product_none (w : world) (retry_attempts : Z) (item_key : string)
    (item : item_info) (st : cart_state) (l : list candidate) (log1 : list log_entry)
    (prior : gmap string item_info) :
  Bot.products_list item = Ok (Some l) ->
  Bot.try_products w retry_attempts 0 l (sessions st) = Ok (None, log1) ->
  Bot.load_store (failure_file (files st)) = Ok prior ->
  Bot.add_to_cart_single_product w retry_attempts item_key item st
  = Ok {| sessions := log1;
          files := {| success_file := success_file (files st);
                      failure_file := JsonObject (<[ item_key := item ]> prior) |} |}.
Proof.
  intros Hl Hrun Hload. unfold Bot.add_to_cart_single_product, Bot.process_product.
  rewrite Hl. step_bind. rewrite Hrun. cbn beta iota.
  rewrite (save_product_data_union _ false _ _ Hload). cbn beta iota.
  rewrite insert_union_singleton_l. reflexivity.
Qed.

(** The walk over the shortlist from index [i] on, block by block: a block
    is the index of a candidate and the sessions opened on it. *)
Lemma try_products_walk (w : world) (retry_attempts : Z) (l : list candidate) :
  forall (i : nat) (log : list log_entry),
  exists winner (blocks : list (nat * list log_entry)),
    Bot.try_products w retry_attempts i l log = Ok (winner, log ++ concat (map snd blocks))
    /\ StronglySorted lt (map fst blocks)
    /\ Forall (fun b => (i <= fst b)%nat) blocks
    /\ (forall pre j new post,
          blocks = pre ++ (j, new) :: post ->
          exists c ok st,
            l !! (j - i)%nat = Some c /\ added_to_cart c = false
            /\ Bot.attempt_add_to_cart w retry_attempts c (log ++ concat (map snd pre))
               = Ok (ok, st, (log ++ concat (map snd pre)) ++ new)
            /\ (post <> [] -> ok = false /\ (j = 0%nat \/ retry_attempts < 2))
            /\ (post = [] -> winner = if ok then Some j else None))
    /\ (blocks = [] -> winner = None)
    /\ (forall j c,
          (i <= j)%nat -> l !! (j - i)%nat = Some c -> added_to_cart c = false ->
          In j (map fst blocks)
          \/ exists pre j' new',
               blocks = pre ++ [(j', new')] /\ (j' < j)%nat
               /\ (winner = Some j'
                   \/ winner = None /\ (1 <= j')%nat /\ 2 <= retry_attempts)).
Proof.
  induction l as [|c rest IH]; intros i log.
  - exists None, []. cbn [Bot.try_products map concat]. rewrite app_nil_r.
    split; [reflexivity|]. split; [constructor|]. split; [constructor|].
    split; [intros [|? ?] ? ? ? H; discriminate H|]. split; [reflexivity|].
    intros j c _ H. discriminate H.
  - cbn [Bot.try_products]. destruct (added_to_cart c) eqn:Hflag.
    + destruct (IH (S i) log) as (winner & blocks & Hrun & Hsorted & Hfrom & Hblock & Hnone & Hcover).
      exists winner, blocks. split; [exact Hrun|]. split; [exact Hsorted|].
      split. { eapply List.Forall_impl; [|exact Hfrom]. intros b Hb. cbv beta in Hb. lia. }
      split.
      { intros pre j new post Hb.
        destruct (Hblock pre j new post Hb) as (c' & ok & st & Hl & Hrest).
        assert (Hj : (S i <= j)%nat).
        { assert (Hin : In (j, new) blocks) by (rewrite Hb; apply in_elt).
          exact (proj1 (List.Forall_forall _ _) Hfrom _ Hin). }
        exists c', ok, st. split; [|exact Hrest].
        replace (j - i)%nat with (S (j - S i)) by lia. exact Hl. }
      split; [exact Hnone|].
      intros j c' Hj Hl Hc'. destruct (Nat.eq_dec j i) as [->|Hne].
      * rewrite Nat.sub_diag in Hl. injection Hl as <-. congruence.
      * apply (Hcover j c'); [lia| |exact Hc'].
        replace (j - i)%nat with (S (j - S i)) in Hl by lia. exact Hl.
    + destruct (attempt_add_to_cart_spec w retry_attempts c log)
        as (ok & st & new & Hatt & _).
      rewrite Hatt. step_bind.
      assert (Hone : forall winner,
                (ok = true -> winner = Some i) ->
                (ok = false -> winner = None /\ (1 <= i)%nat /\ 2 <= retry_attempts) ->
                StronglySorted lt (map fst [(i, new)])
                /\ Forall (fun b : nat * list log_entry => (i <= fst b)%nat) [(i, new)]
                /\ (forall pre j new0 post,
                      [(i, new)] = pre ++ (j, new0) :: post ->
                      exists c0 ok0 st0,
                        (c :: rest) !! (j - i)%nat = Some c0 /\ added_to_cart c0 = false
                        /\ Bot.attempt_add_to_cart w retry_attempts c0
                             (log ++ concat (map snd pre))
                           = Ok (ok0, st0, (log ++ concat (map snd pre)) ++ new0)
                        /\ (post <> [] -> ok0 = false /\ (j = 0%nat \/ retry_attempts < 2))
                        /\ (post = [] -> winner = if ok0 then Some j else None))
                /\ ([(i, new)] = [] -> winner = None)
                /\ (forall j c0,
                      (i <= j)%nat -> (c :: rest) !! (j - i)%nat = Some c0 ->
                      added_to_cart c0 = false ->
                      In j (map fst [(i, new)])
                      \/ exists pre j' new',
                           [(i, new)] = pre ++ [(j', new')] /\ (j' < j)%nat
                           /\ (winner = Some j'
                               \/ winner = None /\ (1 <= j')%nat /\ 2 <= retry_attempts))).
      { intros winner Hwin Hlose.
        split; [repeat constructor|]. split; [repeat constructor|].
        split.
        { intros pre j new0 post Hb. destruct pre as [|b pre].
          - injection Hb as <- <- <-. exists c, ok, st. rewrite Nat.sub_diag.
            split; [reflexivity|]. split; [exact Hflag|].
            cbn [map concat]. rewrite app_nil_r. split; [exact Hatt|].
            split; [intros H; congruence|]. intros _.
            destruct ok; [apply Hwin; reflexivity|apply Hlose; reflexivity].
          - injection Hb as _ Hb. destruct pre; discriminate Hb. }
        split; [discriminate|].
        intros j c0 Hj Hl Hc0. destruct (Nat.eq_dec j i) as [->|Hne]; [left; left; reflexivity|].
        right. exists [], i, new. split; [reflexivity|]. split; [lia|].
        destruct ok; [left; apply Hwin; reflexivity|right; apply Hlose; reflexivity]. }
      destruct ok.
      * exists (Some i), [(i, new)]. cbn [map snd concat]. rewrite app_nil_r.
        split; [reflexivity|]. apply Hone; [reflexivity|discriminate].
      * destruct ((1 <=? Z.of_nat i) && (2 <=? retry_attempts)) eqn:Hcut.
        -- apply andb_true_iff in Hcut as [H1 H2]. apply Z.leb_le in H1, H2.
           exists None, [(i, new)]. cbn [map snd concat]. rewrite app_nil_r.
           split; [reflexivity|]. apply Hone; [discriminate|]. intros _. repeat split; lia.
        -- destruct (IH (S i) (log ++ new))
             as (winner & blocks & Hrun & Hsorted & Hfrom & Hblock & Hnone & Hcover).
           exists winner, ((i, new) :: blocks). cbn [map snd fst concat].
           rewrite Hrun, <- app_assoc. split; [reflexivity|].
           split.
           { constructor; [exact Hsorted|]. apply List.Forall_forall. intros j Hj.
             apply in_map_iff in Hj as (b & <- & Hb).
             pose proof (proj1 (List.Forall_forall _ _) Hfrom _ Hb) as Hle. cbv beta in Hle. lia. }
           split.
           { constructor; [cbn [fst]; lia|].
             eapply List.Forall_impl; [|exact Hfrom]. intros b Hb. cbv beta in Hb. lia. }
           split.
           { intros pre j new0 post Hb. destruct pre as [|b pre].
             - injection Hb as <- <- <-. exists c, false, st. rewrite Nat.sub_diag.
               split; [reflexivity|]. split; [exact Hflag|].
               cbn [map concat]. rewrite app_nil_r. split; [exact Hatt|].
               split.
               + intros _. split; [reflexivity|].
                 apply andb_false_iff in Hcut as [H|H];
                   [left; apply Z.leb_gt in H; lia|right; apply Z.leb_gt in H; exact H].
               + intros ->. apply Hnone. reflexivity.
             - injection Hb as Hb0 Hb. subst b.
               destruct (Hblock pre j new0 post Hb) as (c' & ok & st' & Hl & Hc' & Hatt' & Hrest).
               assert (Hj : (S i <= j)%nat).
               { assert (Hin : In (j, new0) blocks) by (rewrite Hb; apply in_elt).
                 exact (proj1 (List.Forall_forall _ _) Hfrom _ Hin). }
               exists c', ok, st'.
               split. { replace (j - i)%nat with (S (j - S i)) by lia. exact Hl. }
               split; [exact Hc'|]. cbn [map snd concat]. rewrite !app_assoc.
               split; [exact Hatt'|exact Hrest]. }
           split; [discriminate|].
           intros j c0 Hj Hl Hc0. destruct (Nat.eq_dec j i) as [->|Hne]; [left; left; reflexivity|].
           replace (j - i)%nat with (S (j - S i)) in Hl by lia.
           destruct (Hcover j c0 ltac:(lia) Hl Hc0) as [Hin | (pre & j' & new' & Hb & Hlt & Hend)].
           ++ left. right. exact Hin.
           ++ right. exists ((i, new) :: pre), j', new'. rewrite Hb.
              split; [reflexivity|]. split; [exact Hlt|exact Hend].
Qed.

(** C5: the candidates of the shortlist are attempted in rank order.  The
    sessions of the walk come in blocks, at increasing positions of the
    shortlist; each block is what [attempt_add_to_cart] opens on the
    unflagged candidate at that position, run where the blocks before it
    left off; a block followed by another one has failed, at the first
    position or with a budget below 2; the walk ends on the block that
    succeeds, whose position is the winner, or without winner.  No
    unflagged candidate is passed over: each one has its block unless the
    walk ended before it, on a success or, with [retry_attempts >= 2], on a
    failure at the second position or later.  In that last case the item is
    written to the failure store and no session is opened on the candidates
    [rest] after it. *)
Theorem shortlist_walk_in_rank_order_with_cutoff :
  (forall (w : world) (retry_attempts : Z) (l : list candidate) (log : list log_entry),
     exists winner (blocks : list (nat * list log_entry)),
       Bot.try_products w retry_attempts 0 l log = Ok (winner, log ++ concat (map snd blocks))
       /\ StronglySorted lt (map fst blocks)
       /\ (forall pre j new post,
             blocks = pre ++ (j, new) :: post ->
             exists c ok st,
               l !! j = Some c /\ added_to_cart c = false
               /\ Bot.attempt_add_to_cart w retry_attempts c (log ++ concat (map snd pre))
                  = Ok (ok, st, (log ++ concat (map snd pre)) ++ new)
               /\ (post <> [] -> ok = false /\ (j = 0%nat \/ retry_attempts < 2))
               /\ (post = [] -> winner = if ok then Some j else None))
       /\ (blocks = [] -> winner = None)
       /\ (forall j c,
             l !! j = Some c -> added_to_cart c = false ->
             In j (map fst blocks)
             \/ exists pre j' new',
                  blocks = pre ++ [(j', new')] /\ (j' < j)%nat
                  /\ (winner = Some j'
                      \/ winner = None /\ (1 <= j')%nat /\ 2 <= retry_attempts)))
  /\ (forall (w : world) (retry_attempts : Z) (item_key : string) (item : item_info)
        (st : cart_state) (c0 c : candidate) (skipped rest : list candidate)
        (log0 log1 : list log_entry) (st1 : loop_state) (prior : gmap string item_info),
        2 <= retry_attempts ->
        eligible_products item = Some (Tuple1 (c0 :: skipped ++ c :: rest)) ->
        Forall (fun x => added_to_cart x = true) skipped ->
        (added_to_cart c0 = true /\ log0 = sessions st
         \/ added_to_cart c0 = false
            /\ exists st0, Bot.attempt_add_to_cart w retry_attempts c0 (sessions st)
                           = Ok (false, st0, log0)) ->
        added_to_cart c = false ->
        Bot.attempt_add_to_cart w retry_attempts c log0 = Ok (false, st1, log1) ->
        Bot.load_store (failure_file (files st)) = Ok prior ->
        Bot.add_to_cart_single_product w retry_attempts item_key item st
        = Ok {| sessions := log1;
                files := {| success_file := success_file (files st);
                            failure_file := JsonObject (<[ item_key := item ]> prior) |} |}).
Proof.
  split.
  - intros w retry_attempts l log.
    destruct (try_products_walk w retry_attempts l 0 log)
      as (winner & blocks & Hrun & Hsorted & _ & Hblock & Hnone & Hcover).
    exists winner, blocks. split; [exact Hrun|]. split; [exact Hsorted|].
    split.
    { intros pre j new post Hb.
      destruct (Hblock pre j new post Hb) as (c & ok & st & Hl & Hrest).
      rewrite Nat.sub_0_r in Hl. exists c, ok, st. split; [exact Hl|exact Hrest]. }
    split; [exact Hnone|].
    intros j c Hl Hc. apply (Hcover j c); [lia| |exact Hc]. rewrite Nat.sub_0_r. exact Hl.
  - intros w retry_attempts item_key item st c0 c skipped rest log0 log1 st1 prior
      Hra Hitem Hskip Hfirst Hc Hrun Hload.
    apply (process_product_none w retry_attempts item_key item st
             (c0 :: skipped ++ c :: rest) log1 prior).
    + unfold Bot.products_list. rewrite Hitem. reflexivity.
    + assert (Htail : forall log, log = log0 ->
                Bot.try_products w retry_attempts 1 (skipped ++ c :: rest) log
                = Ok (None, log1)).
      { intros log ->. rewrite (try_products_skip _ _ _ _ _ _ Hskip).
        eapply try_products_cutoff; [exact Hra|lia|exact Hc|exact Hrun]. }
      simpl. destruct Hfirst as [[Hflag Hlog] | [Hflag [st0 Hrun0]]]; rewrite Hflag.
      * apply Htail. symmetry. exact Hlog.
      * rewrite Hrun0. step_bind.
        replace (1 <=? Z.of_nat 0) with false by reflexivity. simpl andb.
        apply Htail. reflexivity.
    + exact Hload.
Qed.

Lemma shortlist_cutoff_hostile :
  exists log1,
    Bot.add_to_cart_single_product hostile 2 "kettle"
      (with_shortlist [kettle_c; kettle_a; kettle_b]) fresh
    = Ok {| sessions := log1;
            files := {| success_file := Missing;
                        failure_file :=
                          JsonObject (<[ "kettle" := with_shortlist [kettle_c; kettle_a; kettle_b] ]> ∅) |} |}
    /\ map summary log1
       = [("Kettle C", false, Blocked); ("Kettle C", true, Blocked);
          ("Kettle A", false, Blocked); ("Kettle A", true, Blocked)].
Proof.
  eexists. split.
  - eapply (proj2 shortlist_walk_in_rank_order_with_cutoff hostile 2 "kettle"
              (with_shortlist [kettle_c; kettle_a; kettle_b]) fresh
              kettle_c kettle_a [] [kettle_b]).
    + discriminate.
    + reflexivity.
    + constructor.
    + right. split; [reflexivity|]. eexists. reflexivity.
    + reflexivity.
    + reflexivity.
    + reflexivity.
  - reflexivity.
Defined.

(** The example of the specification: the second candidate goes into the
    cart after the first has used up its budget; the item is written to the
    success store with that candidate stamped. *)
Example second_candidate_wins :
  exists st',
    Bot.add_to_cart_single_product thawing 1 "kettle" (with_shortlist [kettle_c; kettle_a]) fresh
    = Ok st'
    /\ map summary (sessions st')
       = [("Kettle C", false, Blocked); ("Kettle A", false, Added)]
    /\ success_file (files st')
       = JsonObject {[ "kettle" := with_shortlist
                         [kettle_c; Bot.stamp kettle_a "2025-05-14 10:00:00"] ]}
    /\ failure_file (files st') = Missing.
Proof. eexists. split; [reflexivity|]. split; [reflexivity|]. split; vm_compute; reflexivity. Qed.

Lemma load_input_data_orders_prices_sample :
  exists d,
    In d (Helpers.load_rows (rows sample_file) [])
    /\ d !! "min_price" = Some (FNum fzero)
    /\ d !! "max_price" = Some (FNum (Fin 7)).
Proof.
  destruct (load_input_data_orders_prices sample_file
              (Helpers.load_rows (rows sample_file) []) eq_refl) as (_ & Hrow & _).
  - repeat constructor.
  - destruct (Hrow lamp_row " Lamp " Malformed (Parses (Fin 7))) as (d & Hd & _ & Hmin & Hmax).
    + left. reflexivity.
    + reflexivity.
    + discriminate.
    + reflexivity.
    + reflexivity.
    + repeat constructor.
    + exists d. split; [exact Hd|]. split; [exact Hmin|exact Hmax].
Defined.

(** The sample file: the short row is dropped, the malformed minimum reads
    as 0, the swapped limits come out in order. *)
Example load_input_data_sample :
  exists lamp desk,
    Helpers.load_input_data (Some sample_file) = Ok [lamp; desk]
    /\ lamp !! "product_name" = Some (FStr "Lamp")
    /\ lamp !! "min_price" = Some (FNum fzero)
    /\ lamp !! "max_price" = Some (FNum (Fin 7))
    /\ lamp !! "brand_name" = Some (FStr "Acme")
    /\ desk !! "min_price" = Some (FNum (Fin 40))
    /\ desk !! "max_price" = Some (FNum (Fin 90))
    /\ desk !! "brand_name" = None.
Proof. do 2 eexists. split; [reflexivity|]. repeat split; reflexivity. Qed.

(* ===================================================================== *)
(** * Further properties of the Price Matcher                             *)
(* ===================================================================== *)

Lemma fle_refl (a : pyfloat) : a <> NaN -> fle a a = true.
Proof.
  destruct a as [x| | |]; simpl; try congruence. intros _. apply Qle_bool_iff, Qle_refl.
Qed.

Lemma strongly_sorted_firstn {A : Type} (R : A -> A -> Prop) (n : nat) (l : list A) :
  StronglySorted R l -> StronglySorted R (firstn n l).
Proof.
  intros H. revert n. induction H as [|x xs Hs IH Hx]; intros [|n]; simpl; try constructor.
  - apply IH.
  - apply List.Forall_forall. intros y Hy. apply in_firstn in Hy.
    exact (proj1 (List.Forall_forall _ _) Hx y Hy).
Qed.

Lemma strongly_sorted_weaken_on {A : Type} (P : A -> Prop) (R S : A -> A -> Prop)
    (l : list A) :
  (forall a b, P a -> P b -> R a b -> S a b) ->
  Forall P l -> StronglySorted R l -> StronglySorted S l.
Proof.
  intros HRS HP Hs. induction Hs as [|x xs Hs IH Hx]; constructor.
  - apply IH. apply Forall_cons_1 in HP. tauto.
  - apply Forall_cons_1 in HP as [Px Pxs].
    apply List.Forall_forall. intros y Hy. apply HRS; [exact Px| |].
    + exact (proj1 (List.Forall_forall _ _) Pxs y Hy).
    + exact (proj1 (List.Forall_forall _ _) Hx y Hy).
Qed.

Lemma fle_fabs (a b : pyfloat) :
  fle (Fin 0) a = true -> fle (Fin 0) b = true -> fle a b = true ->
  fle (fabs a) (fabs b) = true.
Proof.
  destruct a as [x| | |], b as [y| | |]; cbn [fle fabs]; try congruence.
  rewrite !Qle_bool_iff. intros Hx Hy Hxy.
  rewrite (Qabs_pos x Hx), (Qabs_pos y Hy). exact Hxy.
Qed.

Lemma fle_antisym (a b : pyfloat) : fle a b = true -> fle b a = true -> feq a b = true.
Proof.
  destruct a as [x| | |], b as [y| | |]; cbn [fle feq]; try congruence.
  rewrite !Qle_bool_iff, Qeq_bool_iff. intros H1 H2. apply Qle_antisym; assumption.
Qed.

Lemma fle_total (a b : pyfloat) : a <> NaN -> b <> NaN -> fle a b = true \/ fle b a = true.
Proof.
  destruct a as [x| | |], b as [y| | |]; cbn [fle]; try congruence; auto.
  intros _ _. rewrite !Qle_bool_iff. destruct (Qlt_le_dec x y) as [H|H]; [left|right]; lra.
Qed.

(** Above a finite lower limit a candidate that costs no more is no
    farther: the rounding keeps the order of the exact distances. *)
Lemma closeness_mono (m : Q) (hi : pyfloat) (a b : candidate) :
  kept (Fin m) hi a = true -> kept (Fin m) hi b = true ->
  price_le a b = true ->
  fle (closeness (Fin m) a) (closeness (Fin m) b) = true.
Proof.
  unfold kept, closeness, price_le.
  destruct (counted_price a) as [[qa| | |]|], (counted_price b) as [[qb| | |]|];
    cbn [fle fsub fabs andb]; try discriminate.
  - intros Ha Hb Hab.
    apply andb_true_iff in Ha as [Ha _]. apply andb_true_iff in Hb as [Hb _].
    apply Qle_bool_iff in Ha, Hb, Hab.
    destruct (round64_mono (qa - m) (qb - m)) as [H1 H2]; [lra|lra|].
    destruct (round64_mono (qb - m) (qb - m)) as [_ H3]; [lra|lra|].
    apply fle_fabs; assumption.
  - intros _ _ _. pose proof (round64_not_nan (qa - m)) as Hn.
    destruct (round64 (qa - m)); cbn [fabs fle]; congruence.
  - reflexivity.
Qed.

Lemma kept_price_refl (lo hi : pyfloat) (c : candidate) :
  kept lo hi c = true -> price_le c c = true.
Proof.
  unfold kept, price_le. destruct (counted_price c) as [p|]; [|discriminate].
  intros H. apply andb_true_iff in H as [H _]. apply fle_refl.
  destruct lo, p; simpl in H; congruence.
Qed.

Lemma kept_price_total (m : Q) (hi : pyfloat) (a b : candidate) :
  kept (Fin m) hi a = true -> kept (Fin m) hi b = true ->
  price_le a b = true \/ price_le b a = true.
Proof.
  unfold kept, price_le.
  destruct (counted_price a) as [pa|], (counted_price b) as [pb|]; try discriminate.
  intros Ha Hb. apply andb_true_iff in Ha as [Ha _]. apply andb_true_iff in Hb as [Hb _].
  apply fle_total; [destruct pa|destruct pb]; cbn [fle] in *; congruence.
Qed.

(** X1: under a finite lower limit the shortlist is cheapest first up to
    the rounding of the distance.  A candidate inside the band that costs no
    more than another is no farther from the lower limit in the float
    distance the sort uses; so every element of the shortlist costs no more
    than each element behind it, or has the same float distance; and the
    first element costs no more than any candidate inside the band, or that
    candidate has the same float distance and was found later. *)
Theorem shortlist_cheapest_first (cands : list candidate) (m : Q) (hi : pyfloat) :
  (forall a b, kept (Fin m) hi a = true -> kept (Fin m) hi b = true ->
     price_le a b = true ->
     fle (closeness (Fin m) a) (closeness (Fin m) b) = true)
  /\ StronglySorted (fun a b => price_le a b = true \/ same_distance (Fin m) a b = true)
       (Scraper.select cands (Fin m) hi)
  /\ (forall c0 rest c,
        Scraper.select cands (Fin m) hi = c0 :: rest ->
        In c cands -> kept (Fin m) hi c = true ->
        price_le c0 c = true \/ same_distance (Fin m) c0 c = true).
Proof.
  split; [intros a b; apply closeness_mono|].
  rewrite select_unfold.
  set (pool := List.filter (kept (Fin m) hi) cands).
  assert (Hpool : Forall (fun c => kept (Fin m) hi c = true) pool).
  { apply List.Forall_forall. intros c Hc. apply List.filter_In in Hc. tauto. }
  assert (Hnan : Forall (fun c => closeness (Fin m) c <> NaN) pool).
  { eapply List.Forall_impl; [|exact Hpool]. intros c Hc. exact (kept_key (Fin m) hi c Hc). }
  assert (Hstep : forall a b, kept (Fin m) hi a = true -> kept (Fin m) hi b = true ->
            fle (closeness (Fin m) a) (closeness (Fin m) b) = true ->
            price_le a b = true \/ same_distance (Fin m) a b = true).
  { intros a b Ha Hb Hab. destruct (kept_price_total m hi a b Ha Hb) as [H|H]; [left; exact H|].
    right. apply fle_antisym; [exact Hab|]. apply (closeness_mono m hi b a); assumption. }
  assert (Hsorted : StronglySorted
                      (fun a b => price_le a b = true \/ same_distance (Fin m) a b = true)
                      (sorted_by (closeness (Fin m)) pool)).
  { apply (strongly_sorted_weaken_on (fun c => kept (Fin m) hi c = true)
             (fun a b => fle (closeness (Fin m) a) (closeness (Fin m) b) = true)).
    - exact Hstep.
    - rewrite <- sorted_by_perm. exact Hpool.
    - apply sorted_by_sorted. exact Hnan. }
  split; [apply strongly_sorted_firstn; exact Hsorted|].
  intros c0 rest c Hsel Hc Hk.
  assert (Hin : In c (sorted_by (closeness (Fin m)) pool)).
  { apply (Permutation_in _ (sorted_by_perm _ _)). apply List.filter_In. tauto. }
  destruct (sorted_by (closeness (Fin m)) pool) as [|x xs]; [discriminate|].
  simpl in Hsel. injection Hsel as -> _.
  apply StronglySorted_inv in Hsorted as [_ Hall].
  destruct Hin as [<- | Hin].
  - left. eapply kept_price_refl. exact Hk.
  - exact (proj1 (List.Forall_forall _ _) Hall c Hin).
Qed.

Lemma kept_band_ordered (lo hi : pyfloat) (c : candidate) :
  kept lo hi c = true -> fle lo hi = true.
Proof.
  unfold kept. destruct (counted_price c) as [p|]; [|discriminate].
  intros H. apply andb_true_iff in H as [H1 H2]. eapply fle_trans; eassumption.
Qed.

Lemma filter_nothing {A : Type} (f : A -> bool) (l : list A) :
  Forall (fun a => f a = false) l -> List.filter f l = [].
Proof. induction 1 as [|x xs Hx _ IH]; simpl; [reflexivity|]. rewrite Hx. exact IH. Qed.

Lemma select_nothing (cands : list candidate) (lo hi : pyfloat) :
  Forall (fun c => kept lo hi c = false) cands -> Scraper.select cands lo hi = [].
Proof. intros H. rewrite select_unfold, (filter_nothing _ _ H). reflexivity. Qed.

(** X2: a band whose upper limit is below its lower limit, or one of
    whose limits is NaN, matches nothing: the shortlist is empty for every
    candidate list, and [process_product] attaches the one-element tuple
    around the empty list. *)
Theorem unordered_band_matches_nothing (item : item_info) (cands : list candidate)
    (lo hi : pyfloat) :
  Scraper.band item = inl (lo, hi) ->
  fle lo hi = false ->
  Scraper.select cands lo hi = []
  /\ eligible_products (Scraper.process_product item cands) = Some (Tuple1 []).
Proof.
  intros Hband Hle.
  assert (Hsel : Scraper.select cands lo hi = []).
  { apply select_nothing, List.Forall_forall. intros c _.
    destruct (kept lo hi c) eqn:Hk; [|reflexivity].
    apply kept_band_ordered in Hk. congruence. }
  split; [exact Hsel|].
  unfold Scraper.process_product. rewrite Hband, Hsel. reflexivity.
Qed.

Lemma unordered_band_matches_nothing_kettles :
  Scraper.select [kettle_a; kettle_b; kettle_c] (Fin 22) (Fin 15) = []
  /\ eligible_products (Scraper.process_product inverted_item [kettle_a; kettle_b; kettle_c])
     = Some (Tuple1 []).
Proof.
  exact (unordered_band_matches_nothing inverted_item [kettle_a; kettle_b; kettle_c]
           (Fin 22) (Fin 15) eq_refl eq_refl).
Defined.

(** X3: the shortlist is made of scraped candidates and loses an in-band
    candidate only by the cut to two: its length is the smaller of 2 and the
    number of candidates inside the band, and with at most two inside the
    band it holds each of them. *)
Theorem shortlist_loses_only_by_truncation (cands : list candidate) (lo hi : pyfloat) :
  length (Scraper.select cands lo hi)
  = Nat.min 2 (length (List.filter (kept lo hi) cands))
  /\ Forall (fun c => In c cands) (Scraper.select cands lo hi)
  /\ ((length (List.filter (kept lo hi) cands) <= 2)%nat ->
      Permutation (List.filter (kept lo hi) cands) (Scraper.select cands lo hi)).
Proof.
  rewrite select_unfold. split; [|split].
  - rewrite length_firstn, sorted_by_length. reflexivity.
  - apply List.Forall_forall. intros c Hc. apply in_firstn in Hc.
    apply (Permutation_in _ (Permutation_sym (sorted_by_perm _ _))) in Hc.
    apply List.filter_In in Hc. tauto.
  - intros Hlen. rewrite firstn_all2 by (rewrite sorted_by_length; exact Hlen).
    apply sorted_by_perm.
Qed.

Lemma shortlist_loses_only_by_truncation_kettles :
  Permutation [kettle_a; kettle_c] (Scraper.select [kettle_a; kettle_b; kettle_c] (Fin 15) (Fin 22)).
Proof.
  apply (proj2 (proj2 (shortlist_loses_only_by_truncation [kettle_a; kettle_b; kettle_c]
                         (Fin 15) (Fin 22)))).
  apply le_n.
Defined.

(* ===================================================================== *)
(** * From the scrape phase into the cart phase                           *)
(* ===================================================================== *)

Lemma single_product_without_list (w : world) (retry_attempts : Z) (item_key : string)
    (item : item_info) (st : cart_state) (prior : gmap string item_info) :
  Bot.products_list item = Ok None ->
  Bot.load_store (failure_file (files st)) = Ok prior ->
  Bot.add_to_cart_single_product w retry_attempts item_key item st
  = Ok {| sessions := sessions st;
          files := {| success_file := success_file (files st);
                      failure_file := JsonObject (<[ item_key := item ]> prior) |} |}.
Proof.
  intros Hl Hload. unfold Bot.add_to_cart_single_product, Bot.process_product.
  rewrite Hl. step_bind. rewrite (save_product_data_union _ false _ _ Hload). cbn beta iota.
  rewrite insert_union_singleton_l. reflexivity.
Qed.

(** X4: when no scraped candidate is inside the item's band, or a limit
    of the band does not convert, the item as the scrape phase returns it
    goes through the cart phase without any browser session and is written,
    as it is, into the failure store. *)
Theorem unmatched_item_fails_in_cart (w : world) (retry_attempts : Z) (item_key : string)
    (item : item_info) (cands : list candidate) (st : cart_state)
    (prior : gmap string item_info) :
  nothing_in_band item cands ->
  Bot.load_store (failure_file (files st)) = Ok prior ->
  Bot.add_to_cart_single_product w retry_attempts item_key
    (Scraper.process_product item cands) st
  = Ok {| sessions := sessions st;
          files := {| success_file := success_file (files st);
                      failure_file :=
                        JsonObject (<[ item_key := Scraper.process_product item cands ]> prior) |} |}.
Proof.
  intros Hnone Hload. apply single_product_without_list; [|exact Hload].
  apply products_list_empty. unfold nothing_in_band in Hnone.
  unfold eligible_set, Scraper.process_product.
  destruct (Scraper.band item) as [[lo hi]|e]; simpl; [|reflexivity].
  apply select_nothing. exact Hnone.
Qed.

Lemma unmatched_item_fails_in_cart_kettle_b :
  Bot.add_to_cart_single_product hostile 1 "kettle"
    (Scraper.process_product kettle_item [kettle_b]) fresh
  = Ok {| sessions := [];
          files := {| success_file := Missing;
                      failure_file :=
                        JsonObject (<[ "kettle" := Scraper.process_product kettle_item [kettle_b] ]> ∅) |} |}.
Proof.
  apply (unmatched_item_fails_in_cart hostile 1 "kettle" kettle_item [kettle_b] fresh ∅).
  - repeat constructor.
  - reflexivity.
Defined.

(* ===================================================================== *)
(** * Further properties of the cart orchestrator                         *)
(* ===================================================================== *)

Lemma try_products_winner (w : world) (retry_attempts : Z) (l : list candidate) :
  forall (i0 j : nat) (log log' : list log_entry),
    Bot.try_products w retry_attempts i0 l log = Ok (Some j, log') ->
    exists c pre e,
      (i0 <= j)%nat /\ l !! (j - i0)%nat = Some c /\ added_to_cart c = false
      /\ log' = pre ++ [e] /\ le_candidate e = c /\ succeeded e.
Proof.
  induction l as [|c0 rest IH]; intros i0 j log log' Hrun; simpl in Hrun; [discriminate|].
  destruct (added_to_cart c0) eqn:Hflag.
  - destruct (IH _ _ _ _ Hrun) as (c & pre & e & Hle & Hl & Hc & Hlog & He & Hs).
    exists c, pre, e. split; [lia|]. split; [|auto].
    replace (j - i0)%nat with (S (j - S i0)) by lia. exact Hl.
  - destruct (attempt_add_to_cart_spec w retry_attempts c0 log)
      as (ok & st & new & Hatt & Hc & _ & Hok).
    rewrite Hatt in Hrun. revert Hrun. step_bind. destruct ok.
    + intros [= <- <-]. destruct Hok as (pre & e & -> & _ & He & _).
      exists c0, (log ++ pre), e. split; [lia|]. rewrite Nat.sub_diag.
      split; [reflexivity|]. split; [exact Hflag|]. split; [apply app_assoc|].
      split; [|exact He].
      apply Forall_app in Hc as [_ Hc]. exact (List.Forall_inv Hc).
    + destruct ((1 <=? Z.of_nat i0) && (2 <=? retry_attempts)); [discriminate|].
      intros Hrun. destruct (IH _ _ _ _ Hrun) as (c & pre & e & Hle & Hl & Hc' & Hlog & He & Hs).
      exists c, pre, e. split; [lia|]. split; [|auto].
      replace (j - i0)%nat with (S (j - S i0)) by lia. exact Hl.
Qed.

(** What the walk returns, with the outcomes of its sessions: without a
    winner every session failed; with one, the last session succeeded on it
    and every session before failed. *)
Lemma try_products_outcomes (w : world) (retry_attempts : Z) (l : list candidate) :
  forall (i : nat) (log : list log_entry),
  exists winner new,
    Bot.try_products w retry_attempts i l log = Ok (winner, log ++ new)
    /\ match winner with
       | None => Forall failed new
       | Some j =>
           exists c pre e,
             (i <= j)%nat /\ l !! (j - i)%nat = Some c /\ added_to_cart c = false
             /\ new = pre ++ [e] /\ Forall failed pre /\ le_candidate e = c /\ succeeded e
       end.
Proof.
  induction l as [|c0 rest IH]; intros i log; cbn [Bot.try_products].
  - exists None, []. rewrite app_nil_r. split; [reflexivity|constructor].
  - destruct (added_to_cart c0) eqn:Hflag.
    + destruct (IH (S i) log) as (winner & new & Hrun & Hout).
      exists winner, new. split; [exact Hrun|]. destruct winner as [j|]; [|exact Hout].
      destruct Hout as (c & pre & e & Hle & Hl & Hrest).
      exists c, pre, e. split; [lia|]. split; [|exact Hrest].
      replace (j - i)%nat with (S (j - S i)) by lia. exact Hl.
    + destruct (attempt_add_to_cart_spec w retry_attempts c0 log)
        as (ok & st & new & Hatt & Hc & _ & Hok).
      rewrite Hatt. step_bind. destruct ok.
      * destruct Hok as (pre & e & -> & Hpre & He & _).
        exists (Some i), (pre ++ [e]). split; [reflexivity|].
        exists c0, pre, e. rewrite Nat.sub_diag. split; [lia|]. split; [reflexivity|].
        split; [exact Hflag|]. split; [reflexivity|]. split; [exact Hpre|].
        split; [|exact He]. apply Forall_app in Hc as [_ Hc]. exact (List.Forall_inv Hc).
      * destruct Hok as (Hfail & _).
        destruct ((1 <=? Z.of_nat i) && (2 <=? retry_attempts)).
        -- exists None, new. split; [reflexivity|exact Hfail].
        -- destruct (IH (S i) (log ++ new)) as (winner & new' & Hrun & Hout).
           exists winner, (new ++ new'). rewrite Hrun, app_assoc. split; [reflexivity|].
           destruct winner as [j|].
           ++ destruct Hout as (c & pre & e & Hle & Hl & Hc' & -> & Hpre & Hrest).
              exists c, (new ++ pre), e. split; [lia|].
              split. { replace (j - i)%nat with (S (j - S i)) by lia. exact Hl. }
              split; [exact Hc'|]. split; [apply app_assoc|].
              split; [apply Forall_app; split; assumption|exact Hrest].
           ++ apply Forall_app. split; assumption.
Qed.

(** X5: an item with a shortlist ends in exactly one store, and in the one
    its sessions call for.  Either every session opened for the item
    failed, and the item is written as it is into the failure store, the
    success store staying as it was; or the last session succeeded on an
    unflagged candidate of the shortlist, every session before it failed,
    and the item is written into the success store with exactly that
    candidate stamped [added_to_cart] and [added_time], the failure store
    staying as it was. *)
Theorem each_item_lands_in_one_store (w : world) (retry_attempts : Z) (item_key : string)
    (item : item_info) (st : cart_state) (l : list candidate)
    (ps pf : gmap string item_info) :
  eligible_products item = Some (Tuple1 l) ->
  Bot.load_store (success_file (files st)) = Ok ps ->
  Bot.load_store (failure_file (files st)) = Ok pf ->
  exists new,
    (Forall failed new
     /\ Bot.add_to_cart_single_product w retry_attempts item_key item st
        = Ok {| sessions := sessions st ++ new;
                files := {| success_file := success_file (files st);
                            failure_file := JsonObject (<[ item_key := item ]> pf) |} |})
    \/ exists i c pre e,
         l !! i = Some c /\ added_to_cart c = false
         /\ new = pre ++ [e] /\ Forall failed pre /\ le_candidate e = c /\ succeeded e
         /\ Bot.add_to_cart_single_product w retry_attempts item_key item st
            = Ok {| sessions := sessions st ++ new;
                    files :=
                      {| success_file :=
                           JsonObject
                             (<[ item_key :=
                                   set_eligible item
                                     (Tuple1 (<[ i := Bot.stamp c
                                                        (clock w (length (sessions st ++ new))) ]> l))
                                     None ]> ps);
                         failure_file := failure_file (files st) |} |}.
Proof.
  intros Hitem Hs Hf.
  destruct l as [|c0 rest].
  { exists []. left. split; [constructor|]. rewrite app_nil_r.
    apply single_product_without_list; [|exact Hf].
    unfold Bot.products_list. rewrite Hitem. reflexivity. }
  destruct (try_products_outcomes w retry_attempts (c0 :: rest) 0 (sessions st))
    as (winner & new & Hrun & Hout).
  exists new. destruct winner as [j|].
  - right. destruct Hout as (c & pre & e & _ & Hl & Hc & Hnew & Hpre & He & Hsucc).
    rewrite Nat.sub_0_r in Hl.
    exists j, c, pre, e. repeat (split; [assumption|]).
    unfold Bot.add_to_cart_single_product, Bot.process_product, Bot.products_list.
    rewrite Hitem. step_bind. rewrite Hrun. cbn beta iota.
    rewrite (save_product_data_union _ true _ _ Hs). cbn beta iota.
    unfold Bot.stamp_item. rewrite Hl. rewrite insert_union_singleton_l. reflexivity.
  - left. split; [exact Hout|].
    apply process_product_none with (l := c0 :: rest); [|exact Hrun|exact Hf].
    unfold Bot.products_list. rewrite Hitem. reflexivity.
Qed.

Lemma each_item_lands_in_one_store_thawing :
  exists new,
    (Forall failed new
     /\ Bot.add_to_cart_single_product thawing 1 "kettle"
          (with_shortlist [kettle_c; kettle_a]) fresh
        = Ok {| sessions := sessions fresh ++ new;
                files := {| success_file := success_file (files fresh);
                            failure_file :=
                              JsonObject (<[ "kettle" := with_shortlist [kettle_c; kettle_a] ]> ∅) |} |})
    \/ exists i c pre e,
         [kettle_c; kettle_a] !! i = Some c /\ added_to_cart c = false
         /\ new = pre ++ [e] /\ Forall failed pre /\ le_candidate e = c /\ succeeded e
         /\ Bot.add_to_cart_single_product thawing 1 "kettle"
              (with_shortlist [kettle_c; kettle_a]) fresh
            = Ok {| sessions := sessions fresh ++ new;
                    files :=
                      {| success_file :=
                           JsonObject
                             (<[ "kettle" :=
                                   set_eligible (with_shortlist [kettle_c; kettle_a])
                                     (Tuple1 (<[ i := Bot.stamp c
                                                        (clock thawing
                                                           (length (sessions fresh ++ new))) ]>
                                                [kettle_c; kettle_a]))
                                     None ]> ∅);
                         failure_file := failure_file (files fresh) |} |}.
Proof.
  exact (each_item_lands_in_one_store thawing 1 "kettle" (with_shortlist [kettle_c; kettle_a])
           fresh [kettle_c; kettle_a] ∅ ∅ eq_refl eq_refl eq_refl).
Defined.

(** X6: a shortlist whose candidates all carry [added_to_cart] opens no
    session, and the item is written into the failure store: an item that
    an earlier run already put into the cart is recorded as failed. *)
Theorem flagged_shortlist_is_recorded_as_failure (w : world) (retry_attempts : Z)
    (item_key : string) (item : item_info) (st : cart_state) (l : list candidate)
    (prior : gmap string item_info) :
  eligible_products item = Some (Tuple1 l) ->
  Forall (fun c => added_to_cart c = true) l ->
  Bot.load_store (failure_file (files st)) = Ok prior ->
  Bot.add_to_cart_single_product w retry_attempts item_key item st
  = Ok {| sessions := sessions st;
          files := {| success_file := success_file (files st);
                      failure_file := JsonObject (<[ item_key := item ]> prior) |} |}.
Proof.
  intros Hitem Hflag Hload. destruct l as [|c0 rest].
  { apply single_product_without_list; [|exact Hload].
    unfold Bot.products_list. rewrite Hitem. reflexivity. }
  apply process_product_none with (l := c0 :: rest); [| |exact Hload].
  - unfold Bot.products_list. rewrite Hitem. reflexivity.
  - rewrite <- (app_nil_r (c0 :: rest)). rewrite (try_products_skip _ _ _ _ _ _ Hflag).
    reflexivity.
Qed.

Lemma flagged_shortlist_is_recorded_as_failure_stamped :
  Bot.add_to_cart_single_product thawing 3 "kettle" stamped_item fresh
  = Ok {| sessions := [];
          files := {| success_file := Missing;
                      failure_file := JsonObject (<[ "kettle" := stamped_item ]> ∅) |} |}.
Proof.
  apply (flagged_shortlist_is_recorded_as_failure thawing 3 "kettle" stamped_item fresh
           [Bot.stamp kettle_c "2025-05-13 09:00:00"; Bot.stamp kettle_a "2025-05-13 09:05:00"] ∅).
  - reflexivity.
  - repeat constructor.
  - reflexivity.
Defined.

Lemma run_session_success (o : session_obs) :
  Bot.run_session o = Added \/ Bot.run_session o = AlreadyInCart ->
  setup_ok o = true /\ body_visible o = true
  /\ Bot.login_check (pg o) = LoggedIn
  /\ Bot.is_item_added_to_cart o = true
  /\ (Bot.is_add_to_cart_button_visible o = true -> click_ok o = true).
Proof.
  unfold Bot.run_session.
  destruct (setup_ok o); simpl; [|intros [H|H]; discriminate].
  destruct (body_visible o); simpl; [|intros [H|H]; discriminate].
  destruct (Bot.login_check (pg o)); try (intros [H|H]; discriminate).
  destruct (Bot.is_add_to_cart_button_visible o), (click_ok o),
    (Bot.is_item_added_to_cart o); intros [H|H]; try discriminate; auto.
Qed.

(** Every logged outcome is what [run_session] makes of the session the
    world showed at that position. *)
Lemma attempt_loop_outcomes (fuel : nat) (w : world) (retry_attempts : Z) (c : candidate) :
  forall (st : loop_state) (log : list log_entry) ok st' log',
    Bot.attempt_loop fuel w retry_attempts c st log = Ok (ok, st', log') ->
    exists new, log' = log ++ new
      /\ forall k e, new !! k = Some e ->
           le_outcome e = Bot.run_session (browse w (length log + k) c (le_proxy e)).
Proof.
  induction fuel as [|fuel IH]; intros st log ok st' log' Hrun; simpl in Hrun.
  - destruct (retries st <? retry_attempts); [discriminate|].
    injection Hrun as <- <- <-. exists []. rewrite app_nil_r. split; [reflexivity|].
    intros k e Hk. destruct k; discriminate.
  - destruct (retries st <? retry_attempts).
    2: { injection Hrun as <- <- <-. exists []. rewrite app_nil_r. split; [reflexivity|].
         intros k e Hk. destruct k; discriminate. }
    set (out := Bot.run_session (browse w (length log) c (proxy_needed st))) in *.
    set (e0 := {| le_candidate := c; le_proxy := proxy_needed st; le_outcome := out |}) in *.
    assert (Hhead : forall new k e,
              (forall k' e', new !! k' = Some e' ->
                 le_outcome e' = Bot.run_session
                                   (browse w (length (log ++ [e0]) + k') c (le_proxy e'))) ->
              (e0 :: new) !! k = Some e ->
              le_outcome e = Bot.run_session (browse w (length log + k) c (le_proxy e))).
    { intros new k e Hnew Hk. destruct k as [|k].
      - injection Hk as <-. simpl. rewrite Nat.add_0_r. reflexivity.
      - simpl in Hk. rewrite (Hnew k e Hk). rewrite length_app. simpl.
        replace (length log + 1 + k)%nat with (length log + S k)%nat by lia. reflexivity. }
    destruct (Bot.loop_body out st) as [b|st1].
    + injection Hrun as <- <- <-. exists [e0]. split; [reflexivity|].
      intros k e Hk. apply (Hhead [] k e); [|exact Hk]. intros k' e' Hk'. destruct k'; discriminate.
    + destruct (IH _ _ _ _ _ Hrun) as (new & -> & Hnew).
      exists (e0 :: new). rewrite <- app_assoc. split; [reflexivity|].
      intros k e Hk. exact (Hhead new k e Hnew Hk).
Qed.

(** X7: [attempt_add_to_cart] reports success only after a session that
    was set up, whose page loaded and passed the login check as logged in,
    and on which the added-to-cart banner or the view-cart button was seen;
    where the add-to-cart button was visible, the click went through.  That
    session is the last one of the call, and every session the call opened
    before it, all on the same candidate, failed and added one to the retry
    counter.  It never reports success from a blocked, timed-out or
    signed-out session. *)
Theorem success_needs_a_confirmed_session (w : world) (retry_attempts : Z) (c : candidate)
    (log log' : list log_entry) (st : loop_state) :
  Bot.attempt_add_to_cart w retry_attempts c log = Ok (true, st, log') ->
  exists pre e,
    log' = (log ++ pre) ++ [e]
    /\ Forall failed pre
    /\ Forall (fun e' => le_candidate e' = c) pre
    /\ retries st = Z.of_nat (length pre)
    /\ le_candidate e = c
    /\ succeeded e
    /\ le_outcome e = Bot.run_session (browse w (length (log ++ pre)) c (le_proxy e))
    /\ setup_ok (browse w (length (log ++ pre)) c (le_proxy e)) = true
    /\ body_visible (browse w (length (log ++ pre)) c (le_proxy e)) = true
    /\ Bot.login_check (pg (browse w (length (log ++ pre)) c (le_proxy e))) = LoggedIn
    /\ Bot.is_item_added_to_cart (browse w (length (log ++ pre)) c (le_proxy e)) = true
    /\ (Bot.is_add_to_cart_button_visible (browse w (length (log ++ pre)) c (le_proxy e)) = true ->
        click_ok (browse w (length (log ++ pre)) c (le_proxy e)) = true).
Proof.
  intros Hrun.
  destruct (attempt_add_to_cart_spec w retry_attempts c log)
    as (ok & st0 & new & Hspec & Hc & _ & Hok).
  rewrite Hrun in Hspec. injection Hspec as <- <- ->.
  destruct Hok as (pre & e & -> & Hpre & He & _ & Hret).
  destruct (attempt_loop_outcomes _ _ _ _ _ _ _ _ _ Hrun) as (new & Hnew & Hout).
  apply app_inv_head in Hnew. subst new.
  apply Forall_app in Hc as [Hcpre Hce].
  exists pre, e. split; [apply app_assoc|]. split; [exact Hpre|]. split; [exact Hcpre|].
  split; [exact Hret|]. split; [exact (List.Forall_inv Hce)|]. split; [exact He|].
  assert (Hk : (pre ++ [e]) !! length pre = Some e).
  { rewrite lookup_app_r by lia. rewrite Nat.sub_diag. reflexivity. }
  specialize (Hout _ _ Hk). rewrite length_app.
  split; [exact Hout|].
  apply run_session_success. rewrite <- Hout. exact He.
Qed.

Lemma success_needs_a_confirmed_session_thawing :
  exists st log' pre e,
    Bot.attempt_add_to_cart thawing 2 kettle_a [] = Ok (true, st, log')
    /\ log' = pre ++ [e]
    /\ Forall failed pre
    /\ retries st = Z.of_nat (length pre)
    /\ Bot.is_item_added_to_cart (browse thawing (length pre) kettle_a (le_proxy e)) = true.
Proof.
  destruct (success_needs_a_confirmed_session thawing 2 kettle_a [] _ _ eq_refl)
    as (pre & e & Hlog & Hfail & _ & Hret & _ & _ & _ & _ & _ & _ & Hseen & _).
  do 2 eexists. exists pre, e. split; [reflexivity|]. split; [exact Hlog|].
  split; [exact Hfail|]. split; [exact Hret|exact Hseen].
Defined.

Lemma attempt_without_budget (w : world) (retry_attempts : Z) (c : candidate)
    (log : list log_entry) :
  retry_attempts <= 0 ->
  Bot.attempt_add_to_cart w retry_attempts c log = Ok (false, Bot.initial_state, log).
Proof.
  intros H. unfold Bot.attempt_add_to_cart.
  replace (Z.to_nat retry_attempts) with 0%nat by lia. simpl.
  replace (0 <? retry_attempts) with false by (symmetry; apply Z.ltb_ge; exact H).
  reflexivity.
Qed.

Lemma try_products_without_budget (w : world) (retry_attempts : Z) (l : list candidate) :
  retry_attempts <= 0 ->
  forall (i : nat) (log : list log_entry),
    Bot.try_products w retry_attempts i l log = Ok (None, log).
Proof.
  intros H. induction l as [|c rest IH]; intros i log; simpl; [reflexivity|].
  destruct (added_to_cart c); [apply IH|].
  rewrite (attempt_without_budget _ _ _ _ H). step_bind.
  replace (2 <=? retry_attempts) with false by (symmetry; apply Z.leb_gt; lia).
  rewrite andb_false_r. apply IH.
Qed.

(** X8: with [retry_attempts <= 0] the bot opens no browser session at
    all: every item, whatever its shortlist, is written into the failure
    store. *)
Theorem no_budget_no_session (w : world) (retry_attempts : Z) (item_key : string)
    (item : item_info) (st : cart_state) (l : list candidate)
    (prior : gmap string item_info) :
  retry_attempts <= 0 ->
  eligible_products item = Some (Tuple1 l) ->
  Bot.load_store (failure_file (files st)) = Ok prior ->
  Bot.add_to_cart_single_product w retry_attempts item_key item st
  = Ok {| sessions := sessions st;
          files := {| success_file := success_file (files st);
                      failure_file := JsonObject (<[ item_key := item ]> prior) |} |}.
Proof.
  intros Hra Hitem Hload. destruct l as [|c0 rest].
  { apply single_product_without_list; [|exact Hload].
    unfold Bot.products_list. rewrite Hitem. reflexivity. }
  apply process_product_none with (l := c0 :: rest); [| |exact Hload].
  - unfold Bot.products_list. rewrite Hitem. reflexivity.
  - apply try_products_without_budget. exact Hra.
Qed.

Lemma no_budget_no_session_thawing :
  Bot.add_to_cart_single_product thawing 0 "kettle" (with_shortlist [kettle_c; kettle_a]) fresh
  = Ok {| sessions := [];
          files := {| success_file := Missing;
                      failure_file :=
                        JsonObject (<[ "kettle" := with_shortlist [kettle_c; kettle_a] ]> ∅) |} |}.
Proof.
  apply (no_budget_no_session thawing 0 "kettle" (with_shortlist [kettle_c; kettle_a]) fresh
           [kettle_c; kettle_a] ∅).
  - discriminate.
  - reflexivity.
  - reflexivity.
Defined.

(** X9: successive saves into one store: a later save under the same key
    replaces the earlier record (the result is that of the later save
    alone), and saves under different keys give the same store in either
    order. *)
Theorem later_save_wins_and_saves_commute (is_success : bool) (fs : stores)
    (prior : gmap string item_info) (k k' : string) (v1 v2 v' : item_info) :
  Bot.load_store (chosen is_success fs) = Ok prior ->
  (Bot.save_product_data {[ k := v1 ]} is_success fs
     ≫= Bot.save_product_data {[ k := v2 ]} is_success)
  = Bot.save_product_data {[ k := v2 ]} is_success fs
  /\ (k <> k' ->
      (Bot.save_product_data {[ k := v1 ]} is_success fs
         ≫= Bot.save_product_data {[ k' := v' ]} is_success)
      = (Bot.save_product_data {[ k' := v' ]} is_success fs
           ≫= Bot.save_product_data {[ k := v1 ]} is_success)).
Proof.
  intros Hload.
  assert (Htwice : forall (a b : string) (x y : item_info),
            (Bot.save_product_data {[ a := x ]} is_success fs
               ≫= Bot.save_product_data {[ b := y ]} is_success)
            = Ok (if is_success
                  then {| success_file := JsonObject (<[ b := y ]> (<[ a := x ]> prior));
                          failure_file := failure_file fs |}
                  else {| success_file := success_file fs;
                          failure_file := JsonObject (<[ b := y ]> (<[ a := x ]> prior)) |})).
  { intros a b x y. rewrite (save_product_data_union _ _ _ _ Hload). step_bind.
    unfold Bot.save_product_data. destruct is_success; simpl;
      rewrite !insert_union_singleton_l; reflexivity. }
  split.
  - rewrite Htwice, (save_product_data_union _ _ _ _ Hload).
    rewrite insert_insert_eq, <- !insert_union_singleton_l. reflexivity.
  - intros Hne. rewrite !Htwice. rewrite (insert_insert_ne prior k k') by exact Hne.
    reflexivity.
Qed.

Lemma later_save_wins_kettle :
  (Bot.save_product_data {[ "kettle" := kettle_item ]} false no_stores
     ≫= Bot.save_product_data {[ "kettle" := inverted_item ]} false)
  = Bot.save_product_data {[ "kettle" := inverted_item ]} false no_stores.
Proof.
  exact (proj1 (later_save_wins_and_saves_commute false no_stores ∅ "kettle" "lamp"
                  kettle_item inverted_item kettle_item eq_refl)).
Defined.

(* ===================================================================== *)
(** * Window placement                                                    *)
(* ===================================================================== *)


Lemma rows_pos (s : window_settings) : 1 <= Window.rows s.
Proof. unfold Window.rows. lia. Qed.











(* ===================================================================== *)
(** * The search-page parser                                              *)
(* ===================================================================== *)

Lemma find_in_items (t : string) (m v : json) (items : list json) :
  In v items -> In m (Parser.find_products_in_json t v) ->
  In m (Parser.find_products_in_json t (JArr items)).
Proof.
  simpl. induction items as [|x rest IH]; intros Hv Hm; [destruct Hv|].
  apply in_or_app. destruct Hv as [-> | Hv]; [left; exact Hm|right; apply IH; assumption].
Qed.

Lemma find_in_members (t : string) (m v : json) (k : string) (members : list (string * json)) :
  In (k, v) members -> In m (Parser.find_products_in_json t v) ->
  In m (Parser.find_products_in_json t (JObj members)).
Proof.
  intros Hv Hm. simpl. apply in_or_app. right.
  induction members as [|[k' x] rest IH]; [destruct Hv|].
  apply in_or_app. destruct Hv as [[= -> ->] | Hv]; [left; exact Hm|right; apply IH; exact Hv].
Qed.

Lemma find_products_spec (t : string) (obj m : json) :
  In m (Parser.find_products_in_json t obj)
  <-> nested m obj
      /\ exists members, m = JObj members
           /\ Parser.dict_get "__typename" members = JStr t.
Proof.
  split.
  - revert m. induction obj as [| | | | |items IH|members IH] using json_nested_ind;
      intros m Hm; try (destruct Hm; fail).
    + simpl in Hm. induction IH as [|x rest Hx _ IHrest]; [destruct Hm|].
      apply in_app_or in Hm as [Hm|Hm].
      * destruct (Hx m Hm) as [Hn Ht]. split; [|exact Ht].
        eapply nested_item; [left; reflexivity|exact Hn].
      * destruct (IHrest Hm) as [Hn Ht]. split; [|exact Ht].
        inversion Hn as [|items' v Hv Hnv|]; subst.
        -- destruct Ht as (members & [=] & _).
        -- eapply nested_item; [right; exact Hv|exact Hnv].
    + simpl in Hm. apply in_app_or in Hm as [Hm|Hm].
      * destruct (Parser.equals_string (Parser.dict_get "__typename" members) t) eqn:Ht;
          [|destruct Hm].
        destruct Hm as [<- | []]. split; [constructor|]. exists members. split; [reflexivity|].
        unfold Parser.equals_string in Ht.
        destruct (Parser.dict_get "__typename" members); try discriminate.
        apply String.eqb_eq in Ht. subst. reflexivity.
      * assert (Hsub : exists k v, In (k, v) members /\ nested m v
                         /\ exists ms, m = JObj ms
                              /\ Parser.dict_get "__typename" ms = JStr t).
        { clear - IH Hm. induction IH as [|[k x] rest Hx _ IHrest]; [destruct Hm|].
          apply in_app_or in Hm as [Hm|Hm].
          - destruct (Hx m Hm) as [Hn Ht]. exists k, x. split; [left; reflexivity|]. auto.
          - destruct (IHrest Hm) as (k' & v & Hin & Hn & Ht).
            exists k', v. split; [right; exact Hin|]. auto. }
        destruct Hsub as (k & v & Hin & Hn & Ht). split; [|exact Ht].
        eapply nested_member; eassumption.
  - intros [Hn (members & -> & Ht)]. induction Hn as [|items v Hv Hn IH|ms k v Hv Hn IH].
    + simpl. apply in_or_app. left. rewrite Ht. simpl. rewrite String.eqb_refl. left. reflexivity.
    + eapply find_in_items; eassumption.
    + eapply find_in_members; eassumption.
Qed.

(** X12: [_find_products_in_json] returns exactly the dicts of the given
    [__typename] that occur in the value at any depth, under lists and
    under dict values: every dict it returns is one, and none is missed. *)
Theorem find_products_exactly_the_typed_dicts (t : string) (obj m : json) :
  In m (Parser.find_products_in_json t obj)
  <-> nested m obj
      /\ exists members, m = JObj members
           /\ Parser.dict_get "__typename" members = JStr t.
Proof. apply find_products_spec. Qed.

(** The product dict two levels down is found; the advertisement is not. *)
Example find_products_sample :
  Parser.find_products_in_json "Product" next_data_json = [kettle_json].
Proof. reflexivity. Qed.

Lemma before_query_no_query (s : string) : has_char "?"%char (Parser.before_query s) = false.
Proof.
  induction s as [|a s IH]; simpl; [reflexivity|].
  destruct (Ascii.eqb a "?"%char) eqn:Ha; simpl; [reflexivity|].
  rewrite Ha. exact IH.
Qed.

Lemma before_query_fixed (s : string) :
  has_char "?"%char s = false -> Parser.before_query s = s.
Proof.
  induction s as [|a s IH]; simpl; [reflexivity|]. intros H.
  apply orb_false_iff in H as [Ha Hs]. rewrite Ha, (IH Hs). reflexivity.
Qed.

Lemma prefix_before_query (p s : string) :
  has_char "?"%char p = false -> String.prefix p s = true ->
  String.prefix p (Parser.before_query s) = true.
Proof.
  revert s. induction p as [|a p IH]; intros s Hp Hs;
    [destruct (Parser.before_query s); reflexivity|].
  destruct s as [|b s]; [discriminate|]. simpl in Hp, Hs |- *.
  apply orb_false_iff in Hp as [Ha Hp].
  destruct (ascii_dec a b) as [<-|]; [|discriminate].
  rewrite Ha. simpl. destruct (ascii_dec a a); [|congruence].
  apply IH; assumption.
Qed.

Lemma absolute_url_spec (u : string) :
  clean_url (Parser.absolute_url u)
  /\ (clean_url u -> Parser.absolute_url u = u)
  /\ (Parser.starts_with "http://" u || Parser.starts_with "https://" u = false ->
      Parser.absolute_url u
      = (Parser.base_url
         ++ Parser.before_query (if Parser.starts_with "/" u then u else "/" ++ u))%string).
Proof.
  unfold clean_url, Parser.absolute_url, Parser.starts_with.
  split; [|split].
  - split; [|apply before_query_no_query].
    destruct (String.prefix "http://" u) eqn:H1; simpl.
    { rewrite (prefix_before_query "http://" u eq_refl H1). reflexivity. }
    destruct (String.prefix "https://" u) eqn:H2; simpl.
    { rewrite (prefix_before_query "https://" u eq_refl H2). apply orb_true_r. }
    reflexivity.
  - intros [Habs Hq]. rewrite Habs. apply before_query_fixed. exact Hq.
  - intros ->. reflexivity.
Qed.

(** X13: the URL the extractors store is always absolute ([http://] or
    [https://]) and carries no query; a URL that already is so is stored
    unchanged, and a path is put behind [https://www.walmart.com], with a
    slash in between when it has none. *)
Theorem absolute_url_is_clean (u : string) :
  clean_url (Parser.absolute_url u)
  /\ (clean_url u -> Parser.absolute_url u = u)
  /\ (Parser.starts_with "http://" u || Parser.starts_with "https://" u = false ->
      Parser.absolute_url u
      = (Parser.base_url
         ++ Parser.before_query (if Parser.starts_with "/" u then u else "/" ++ u))%string).
Proof. apply absolute_url_spec. Qed.

Lemma absolute_url_is_clean_kettle :
  Parser.absolute_url "https://www.walmart.com/ip/Kettle-A/2"
  = "https://www.walmart.com/ip/Kettle-A/2".
Proof.
  apply (proj1 (proj2 (absolute_url_is_clean "https://www.walmart.com/ip/Kettle-A/2"))).
  split; reflexivity.
Defined.

Example absolute_url_sample :
  Parser.absolute_url "/ip/Kettle-A/2?athbdg=L1600" = "https://www.walmart.com/ip/Kettle-A/2"
  /\ Parser.absolute_url "ip/Kettle-A/2" = "https://www.walmart.com/ip/Kettle-A/2"
  /\ Parser.absolute_url "http://example.org/a?b" = "http://example.org/a".
Proof. repeat split; reflexivity. Qed.

(* ===================================================================== *)
(** * Facts on the extraction from the page data                          *)
(* ===================================================================== *)

Lemma product_of_json_spec (fos : string -> option pyfloat) (d : json) (p : parsed_product) :
  Parser.product_of_json fos d = Some p
  <-> exists members u,
        d = JObj members
        /\ Parser.truthy (Parser.dict_get "name" members) = true
        /\ Parser.truthy (Parser.dict_get "price" members) = true
        /\ Parser.dict_get "canonicalUrl" members = JStr u /\ u <> ""%string
        /\ Parser.json_float fos (Parser.dict_get "price" members) = Some (pp_price p)
        /\ pp_name p = Parser.dict_get "name" members
        /\ pp_url p = Parser.absolute_url u.
Proof.
  split.
  - destruct d as [| | | | | |members]; try discriminate. unfold Parser.product_of_json.
    destruct (Parser.truthy (Parser.dict_get "name" members)) eqn:Hn; [|discriminate].
    destruct (Parser.truthy (Parser.dict_get "price" members)) eqn:Hp; [|discriminate].
    destruct (Parser.truthy (Parser.dict_get "canonicalUrl" members)) eqn:Hu; [|discriminate].
    cbn [andb]. destruct (Parser.json_float fos (Parser.dict_get "price" members)) as [f|] eqn:Hf;
      [|discriminate].
    destruct (Parser.dict_get "canonicalUrl" members) as [| | | |u| |] eqn:Eu; try discriminate.
    intros [= <-]. exists members, u. cbn [pp_name pp_price pp_url].
    repeat split; try reflexivity; try assumption.
    intros ->. discriminate Hu.
  - intros (members & u & -> & Hn & Hp & Eu & Hu & Hf & En & Eurl).
    unfold Parser.product_of_json. rewrite Hn, Hp, Eu, Hf. cbn [andb Parser.truthy].
    destruct (String.eqb_spec u "") as [->|_]; [congruence|]. cbn [negb].
    destruct p as [n f w]. cbn in *. subst. reflexivity.
Qed.

Lemma find_is_filter (t : string) (j : json) :
  Parser.find_products_in_json t j = List.filter (typed t) (subvalues j).
Proof.
  induction j as [| | | | |items IH|members IH] using json_nested_ind; try reflexivity.
  - cbn [Parser.find_products_in_json subvalues List.filter typed].
    induction IH as [|x rest Hx _ IHrest]; [reflexivity|].
    rewrite List.filter_app, <- Hx, IHrest. reflexivity.
  - cbn [Parser.find_products_in_json subvalues List.filter typed].
    assert (Hvalues :
              (fix values (l : list (string * json)) : list json :=
                 match l with
                 | [] => []
                 | (_, value) :: rest => Parser.find_products_in_json t value ++ values rest
                 end) members
              = List.filter (typed t)
                  ((fix values (l : list (string * json)) : list json :=
                      match l with
                      | [] => []
                      | (_, value) :: rest => subvalues value ++ values rest
                      end) members)).
    { induction IH as [|[k x] rest Hx _ IHrest]; [reflexivity|].
      cbn [snd] in Hx. rewrite List.filter_app, <- Hx, IHrest. reflexivity. }
    rewrite Hvalues.
    destruct (Parser.equals_string (Parser.dict_get "__typename" members) t); reflexivity.
Qed.

Lemma subvalues_nested (j m : json) : In m (subvalues j) <-> nested m j.
Proof.
  split.
  - revert m. induction j as [| | | | |items IH|members IH] using json_nested_ind;
      intros m [<- | Hm]; try constructor; try (destruct Hm; fail).
    + assert (Hsub : exists v, In v items /\ nested m v).
      { induction IH as [|x rest Hx _ IHrest]; [destruct Hm|].
        apply in_app_or in Hm as [Hm|Hm].
        - exists x. split; [left; reflexivity|apply Hx; exact Hm].
        - destruct (IHrest Hm) as (v & Hv & Hn). exists v. split; [right; exact Hv|exact Hn]. }
      destruct Hsub as (v & Hv & Hn). eapply nested_item; eassumption.
    + assert (Hsub : exists k v, In (k, v) members /\ nested m v).
      { induction IH as [|[k x] rest Hx _ IHrest]; [destruct Hm|].
        apply in_app_or in Hm as [Hm|Hm].
        - exists k, x. split; [left; reflexivity|apply Hx; exact Hm].
        - destruct (IHrest Hm) as (k' & v & Hv & Hn).
          exists k', v. split; [right; exact Hv|exact Hn]. }
      destruct Hsub as (k & v & Hv & Hn). eapply nested_member; eassumption.
  - intros Hn. induction Hn as [|items v Hv Hn IH|ms k v Hv Hn IH].
    + destruct m; left; reflexivity.
    + right. clear Hn. induction items as [|x rest IHr]; [destruct Hv|].
      apply in_or_app. destruct Hv as [-> | Hv]; [left; exact IH|right; apply IHr; exact Hv].
    + right. clear Hn. induction ms as [|[k0 x] rest IHr]; [destruct Hv|].
      apply in_or_app.
      destruct Hv as [Heq | Hv]; [left; injection Heq as _ ->; exact IH|right; apply IHr; exact Hv].
Qed.

Lemma product_of_json_complete (fos : string -> option pyfloat) (d : json) :
  if complete fos d
  then exists p, Parser.product_of_json fos d = Some p /\ describes fos d p
  else Parser.product_of_json fos d = None.
Proof.
  destruct d as [| | | | | |members]; try reflexivity.
  unfold complete, Parser.product_of_json, describes.
  destruct (Parser.truthy (Parser.dict_get "name" members)); [|reflexivity].
  destruct (Parser.truthy (Parser.dict_get "price" members)); [|reflexivity].
  cbn [andb].
  destruct (Parser.dict_get "canonicalUrl" members) as [|b|f|z|u|items|ms] eqn:Eu.
  1-4, 6-7:
    match goal with
    | |- context [if Parser.truthy ?v then _ else _] =>
        destruct (Parser.truthy v);
        destruct (Parser.json_float fos (Parser.dict_get "price" members)); reflexivity
    end.
  cbn [Parser.truthy].
  destruct (negb (String.eqb u "")); [|reflexivity]. cbn [andb].
  destruct (Parser.json_float fos (Parser.dict_get "price" members)) as [f|] eqn:Ef;
    [|reflexivity].
  eexists. split; [reflexivity|]. exists members, u. cbn [pp_name pp_price pp_url].
  rewrite Eu. repeat split; assumption.
Qed.

Lemma omap_filter_Forall2 {A B : Type} (keep : A -> bool) (f : A -> option B)
    (R : A -> B -> Prop) (l : list A) :
  (forall x, if keep x then exists y, f x = Some y /\ R x y else f x = None) ->
  Forall2 R (List.filter keep l) (omap f l).
Proof.
  intros H. induction l as [|x l IH]; [constructor|].
  cbn [List.filter]. specialize (H x).
  change (omap f (x :: l)) with (match f x with Some y => y :: omap f l | None => omap f l end).
  destruct (keep x).
  - destruct H as (y & -> & Hy). constructor; assumption.
  - rewrite H. exact IH.
Qed.

Lemma forall2_in_r {A B : Type} (R : A -> B -> Prop) (l : list A) (k : list B) :
  Forall2 R l k -> forall y, In y k -> exists x, In x l /\ R x y.
Proof.
  induction 1 as [|x y l k Hxy _ IH]; intros z Hz; [destruct Hz|].
  destruct Hz as [<- | Hz].
  - exists x. split; [left; reflexivity|exact Hxy].
  - destruct (IH z Hz) as (x' & Hx' & Hr). exists x'. split; [right; exact Hx'|exact Hr].
Qed.

(** X14: from page data that parses, [_extract_products_by_json] returns
    one product for each occurrence of a complete dict of type [Product]
    in the data, in the order of the document, and nothing else: a dict is
    complete when its name and price are truthy, its [canonicalUrl] is a
    string that is not empty, and [float] converts its price (an int beyond
    the float range does not convert); the product carries that name, the
    converted price and the URL made absolute and cut at the query.  The
    values listed are those that occur in the data at any depth.  Text that
    is not JSON gives the empty list; a missing script tag raises
    TypeError. *)
Theorem extracted_products_are_the_complete_product_dicts
    (fos : string -> option pyfloat) (json_data : json) :
  (exists products,
      Parser.extract_products_by_json fos (Tag (Some json_data)) = Ok products
      /\ Forall2 (describes fos)
           (List.filter (complete fos) (List.filter (typed "Product") (subvalues json_data)))
           products
      /\ Forall (fun p => clean_url (pp_url p)) products)
  /\ (forall d, In d (subvalues json_data) <-> nested d json_data)
  /\ (forall d p p', describes fos d p -> describes fos d p' -> p = p')
  /\ Parser.extract_products_by_json fos (Tag None) = Ok []
  /\ Parser.extract_products_by_json fos EmptyTag = Ok []
  /\ Parser.extract_products_by_json fos NoTag = Raise TypeError.
Proof.
  split; [|split; [|split; [|repeat split]]].
  - eexists. split; [reflexivity|].
    assert (H2 : Forall2 (describes fos)
                   (List.filter (complete fos)
                      (List.filter (typed "Product") (subvalues json_data)))
                   (omap (Parser.product_of_json fos)
                      (Parser.find_products_in_json "Product" json_data))).
    { rewrite find_is_filter. apply omap_filter_Forall2. apply product_of_json_complete. }
    split; [exact H2|].
    apply List.Forall_forall. intros p Hp.
    destruct (forall2_in_r _ _ _ H2 p Hp) as (d & _ & members & u & _ & _ & _ & _ & Hu).
    rewrite Hu. apply absolute_url_spec.
  - intros d. apply subvalues_nested.
  - intros d [n f u] [n' f' u'] (ms & w & -> & Hw & Hn & Hf & Hu) (ms' & w' & [= <-] & Hw' & Hn' & Hf' & Hu').
    cbn [pp_name pp_price pp_url] in *. congruence.
Qed.

(** A dict that occurs twice gives two products, in the order of the
    document; the int price beyond the float range gives none. *)
Example extracted_products_twice :
  Parser.extract_products_by_json float_of_digits
    (Tag (Some (JArr [kettle_json; priceless_json; JObj [("again", kettle_json)]])))
  = Ok [ {| pp_name := JStr "Kettle A"; pp_price := Fin (1999 # 100);
            pp_url := "https://www.walmart.com/ip/Kettle-A/2" |};
         {| pp_name := JStr "Kettle A"; pp_price := Fin (1999 # 100);
            pp_url := "https://www.walmart.com/ip/Kettle-A/2" |} ].
Proof. vm_compute. reflexivity. Qed.

(** The sample page data gives the one kettle, with its URL completed. *)
Example extracted_products_sample :
  Parser.extract_products_by_json float_of_digits (next_data page_one)
  = Ok [ {| pp_name := JStr "Kettle A"; pp_price := Fin (1999 # 100);
            pp_url := "https://www.walmart.com/ip/Kettle-A/2" |} ].
Proof. reflexivity. Qed.

(* ===================================================================== *)
(** * Facts on [search_page_parser]                                       *)
(* ===================================================================== *)

Lemma pages_loop_spec (fos : string -> option pyfloat) (pages : list html_page)
    (products : option (list parsed_product)) :
  Parser.pages_loop fos pages products
  = if existsb lacks_script pages then Raise TypeError
    else Ok (last_parsed fos pages products).
Proof.
  revert products. induction pages as [|page rest IH]; intros products; [reflexivity|].
  change (last_parsed fos (page :: rest) products)
    with (last_parsed fos rest
            (if content_empty page then products else Some (json_products fos page))).
  cbn [Parser.pages_loop existsb]. unfold lacks_script at 1. unfold json_products.
  destruct (content_empty page); cbn [negb andb orb]; [apply IH|].
  destruct (next_data page) as [| |[j|]]; cbn [Parser.extract_products_by_json orb];
    try reflexivity; apply IH.
Qed.

Lemma last_parsed_last (fos : string -> option pyfloat) (pages : list html_page)
    (products : option (list parsed_product)) :
  last_parsed fos pages products
  = List.last (map (fun page => Some (json_products fos page))
                 (List.filter (fun page => negb (content_empty page)) pages)) products.
Proof.
  revert products. induction pages as [|page rest IH]; intros products; [reflexivity|].
  unfold last_parsed. cbn [fold_left List.filter].
  destruct (content_empty page); cbn [negb]; [apply IH|].
  fold (last_parsed fos rest (Some (json_products fos page))). rewrite IH.
  cbn [map]. generalize (map (fun page0 => Some (json_products fos page0))
                           (List.filter (fun page0 => negb (content_empty page0)) rest)).
  intros l. destruct l as [|x l]; [reflexivity|].
  change (List.last (Some (json_products fos page) :: x :: l) products)
    with (List.last (x :: l) products).
  revert x. induction l as [|y l IHl]; intros x; [reflexivity|].
  change (List.last (x :: y :: l) (Some (json_products fos page)))
    with (List.last (y :: l) (Some (json_products fos page))).
  change (List.last (x :: y :: l) products) with (List.last (y :: l) products).
  apply IHl.
Qed.

Lemma last_some (A : Type) (l : list (list A)) :
  match List.last (map Some l) None with Some x => x | None => [] end = List.last l [].
Proof.
  induction l as [|x l IH]; [reflexivity|].
  destruct l as [|y l]; [reflexivity|].
  change (List.last (map Some (x :: y :: l)) None) with (List.last (map Some (y :: l)) None).
  change (List.last (x :: y :: l) []) with (List.last (y :: l) (@nil A)).
  exact IH.
Qed.

Lemma search_page_parser_spec (fos : string -> option pyfloat) (pages : list html_page) :
  Parser.search_page_parser fos pages
  = if existsb lacks_script pages then []
    else List.last (map (json_products fos)
                      (List.filter (fun page => negb (content_empty page)) pages)) [].
Proof.
  unfold Parser.search_page_parser. rewrite pages_loop_spec.
  destruct (existsb lacks_script pages); [reflexivity|].
  rewrite last_parsed_last, <- last_some, map_map. reflexivity.
Qed.

(** X15: [search_page_parser] returns the products of the page data of the
    last page that has content, and nothing of the pages before it; and it
    returns the empty list as soon as one page with content has no script
    tag, whatever the other pages hold. *)
Theorem search_page_parser_keeps_the_last_page
    (fos : string -> option pyfloat) (before : list html_page) (page : html_page)
    (after : list html_page)
    (Hcontent : content_empty page = false)
    (Hafter : forallb content_empty after = true) :
  Parser.search_page_parser fos (before ++ page :: after)
  = if existsb lacks_script (before ++ [page]) then [] else json_products fos page.
Proof.
  rewrite search_page_parser_spec.
  assert (Hex : existsb lacks_script (before ++ page :: after)
                = existsb lacks_script (before ++ [page])).
  { rewrite !existsb_app. f_equal. cbn [existsb]. f_equal.
    clear - Hafter. induction after as [|q rest IH]; [reflexivity|].
    cbn [forallb] in Hafter. apply andb_true_iff in Hafter as [Hq Hrest].
    cbn [existsb]. unfold lacks_script at 1. rewrite Hq. cbn [negb andb orb]. auto. }
  rewrite Hex. destruct (existsb lacks_script (before ++ [page])); [reflexivity|].
  rewrite List.filter_app. cbn [List.filter]. rewrite Hcontent. cbn [negb].
  assert (Hnone : List.filter (fun q => negb (content_empty q)) after = []).
  { clear - Hafter. induction after as [|q rest IH]; [reflexivity|].
    cbn [forallb] in Hafter. apply andb_true_iff in Hafter as [Hq Hrest].
    cbn [List.filter]. rewrite Hq. cbn [negb]. auto. }
  rewrite Hnone, map_app. cbn [map]. apply List.last_last.
Qed.

Lemma search_page_parser_keeps_the_last_page_two :
  Parser.search_page_parser float_of_digits [page_one; page_two] = [].
Proof.
  apply (search_page_parser_keeps_the_last_page float_of_digits [page_one] page_two []);
    reflexivity.
Defined.

(** X16: the products found in the markup of a page never reach the result
    of [search_page_parser]: two lists of pages that agree on which pages
    are empty and on the script tags give the same result, whatever their
    markup holds. *)
Theorem markup_products_are_never_returned
    (fos : string -> option pyfloat) (pages pages' : list html_page)
    (Hsame : Forall2 (fun p q => content_empty p = content_empty q
                                 /\ next_data p = next_data q) pages pages') :
  Parser.search_page_parser fos pages = Parser.search_page_parser fos pages'.
Proof.
  rewrite !search_page_parser_spec.
  assert (Hex : existsb lacks_script pages = existsb lacks_script pages').
  { induction Hsame as [|p q l l' [Hc Hn] _ IH]; [reflexivity|].
    cbn [existsb]. unfold lacks_script at 1 3. rewrite Hc, Hn, IH. reflexivity. }
  assert (Hmap : map (json_products fos) (List.filter (fun p => negb (content_empty p)) pages)
                 = map (json_products fos) (List.filter (fun p => negb (content_empty p)) pages')).
  { clear Hex. induction Hsame as [|p q l l' [Hc Hn] _ IH]; [reflexivity|].
    cbn [List.filter]. rewrite Hc. destruct (content_empty q); cbn [negb map]; [exact IH|].
    unfold json_products at 1 3. rewrite Hn, IH. reflexivity. }
  rewrite Hex, Hmap. reflexivity.
Qed.

Lemma markup_products_are_never_returned_kettle :
  Parser.search_page_parser float_of_digits [markup_page]
  = Parser.search_page_parser float_of_digits
      [ {| content_empty := false; next_data := NoTag; carts := [] |} ].
Proof.
  apply (markup_products_are_never_returned float_of_digits); repeat constructor.
Defined.

(** The markup of the sample page holds a product that the extractor of
    the markup reads, and the parser returns none. *)
Example markup_page_sample :
  Parser.extract_products_by_html float_of_digits (carts markup_page)
  = [ {| pp_name := JStr "Kettle A"; pp_price := Fin (inject_Z 19);
         pp_url := "https://www.walmart.com/ip/Kettle-A/2" |} ]
  /\ Parser.search_page_parser float_of_digits [markup_page] = [].
Proof. split; reflexivity. Qed.

(* ===================================================================== *)
(** * Facts on the scraping pipeline                                      *)
(* ===================================================================== *)

(** [request_html] always returns, and a content it returns is not empty. *)
Lemma request_html_content (net : nat -> http_reply) :
  exists r sent,
    Helpers.request_html net = Ok (r, sent)
    /\ forall c, r = Some c -> String.eqb c "" = false.
Proof.
  assert (Hlong : forall c, (2000 <? Z.of_nat (String.length c)) = true ->
                            String.eqb c "" = false).
  { intros [|a c] H; [discriminate H|reflexivity]. }
  unfold Helpers.request_html. cbn [Helpers.request_loop Z.ltb Z.compare Pos.compare
                                     Pos.compare_cont Z.add Pos.add Pos.succ].
  destruct (net 0%nat) as [| |s0 h0].
  - destruct (net 1%nat) as [| |s1 h1]; try (do 2 eexists; split; [reflexivity|discriminate]).
    destruct ((s1 =? 200) && (2000 <? Z.of_nat (String.length h1))) eqn:E;
      do 2 eexists; (split; [reflexivity|]); [|discriminate].
    intros c [= <-]. apply andb_true_iff in E as [_ E]. apply Hlong, E.
  - destruct (net 1%nat) as [| |s1 h1]; try (do 2 eexists; split; [reflexivity|discriminate]).
    destruct ((s1 =? 200) && (2000 <? Z.of_nat (String.length h1))) eqn:E;
      do 2 eexists; (split; [reflexivity|]); [|discriminate].
    intros c [= <-]. apply andb_true_iff in E as [_ E]. apply Hlong, E.
  - destruct ((s0 =? 200) && (2000 <? Z.of_nat (String.length h0))) eqn:E0.
    { do 2 eexists; split; [reflexivity|].
      intros c [= <-]. apply andb_true_iff in E0 as [_ E0]. apply Hlong, E0. }
    destruct (net 1%nat) as [| |s1 h1]; try (do 2 eexists; split; [reflexivity|discriminate]).
    destruct ((s1 =? 200) && (2000 <? Z.of_nat (String.length h1))) eqn:E;
      do 2 eexists; (split; [reflexivity|]); [|discriminate].
    intros c [= <-]. apply andb_true_iff in E as [_ E]. apply Hlong, E.
Qed.

Lemma parse_content_filled (selector : string -> script_tag * list html_cart) (c : string) :
  String.eqb c "" = false ->
  content_empty (FastScraper.parse_content selector c) = false
  /\ lacks_script (FastScraper.parse_content selector c) = no_script selector c.
Proof.
  intros Hc. unfold lacks_script, no_script, FastScraper.parse_content.
  cbn [content_empty next_data]. rewrite Hc. split; reflexivity.
Qed.

(** X17: when the second result page is fetched, [scrape_products] returns
    the products of its page data alone: the first page adds no product,
    and it empties the result when it is fetched without a script tag. *)
Theorem second_page_replaces_the_first
    (fos : string -> option pyfloat) (selector : string -> script_tag * list html_cart)
    (net : Z -> nat -> http_reply) (page2 : string) (sent2 : nat)
    (Hfetched : Helpers.request_html (net 2) = Ok (Some page2, sent2)) :
  FastScraper.scrape_products fos selector net
  = if match Helpers.request_html (net 1) with
       | Ok (Some page1, _) => no_script selector page1
       | _ => false
       end || no_script selector page2
    then []
    else json_products fos (FastScraper.parse_content selector page2).
Proof.
  destruct (request_html_content (net 2)) as (r2 & s2 & E2 & Hc2).
  rewrite Hfetched in E2. injection E2 as <- <-. specialize (Hc2 page2 eq_refl).
  destruct (request_html_content (net 1)) as (r1 & s1 & E1 & Hc1).
  unfold FastScraper.scrape_products. rewrite E1, Hfetched. step_bind.
  assert (Hvalid : FastScraper.valid_contents [r1; Some page2]
                   = match r1 with Some page1 => [page1; page2] | None => [page2] end).
  { unfold FastScraper.valid_contents. destruct r1 as [page1|].
    - change (omap ?f [Some page1; Some page2])
        with (match f (Some page1) with
              | Some y => y :: match f (Some page2) with Some z => [z] | None => [] end
              | None => match f (Some page2) with Some z => [z] | None => [] end
              end).
      cbv beta iota. rewrite Hc2, (Hc1 page1 eq_refl). reflexivity.
    - change (omap ?f [None; Some page2])
        with (match f None with
              | Some y => y :: match f (Some page2) with Some z => [z] | None => [] end
              | None => match f (Some page2) with Some z => [z] | None => [] end
              end).
      cbv beta iota. rewrite Hc2. reflexivity. }
  rewrite Hvalid.
  destruct (parse_content_filled selector page2 Hc2) as [Hp2 Hl2].
  destruct r1 as [page1|].
  - destruct (parse_content_filled selector page1 (Hc1 page1 eq_refl)) as [Hp1 Hl1].
    cbn [map]. rewrite search_page_parser_spec. cbn [existsb List.filter].
    rewrite Hp1, Hp2, Hl1, Hl2. cbn [negb map List.last]. rewrite orb_false_r. reflexivity.
  - cbn [map]. rewrite search_page_parser_spec. cbn [existsb List.filter].
    rewrite Hp2, Hl2. cbn [negb map List.last orb]. rewrite orb_false_r. reflexivity.
Qed.

Lemma second_page_replaces_the_first_smooth :
  FastScraper.scrape_products float_of_digits sample_selector (fun _ => smooth_net)
  = [ {| pp_name := JStr "Kettle A"; pp_price := Fin (1999 # 100);
         pp_url := "https://www.walmart.com/ip/Kettle-A/2" |} ].
Proof.
  exact (second_page_replaces_the_first float_of_digits sample_selector (fun _ => smooth_net)
           (string_of_length 2001) 1 eq_refl).
Defined.

Lemma combine_app_same (A B : Type) (l1 l2 : list A) (k1 k2 : list B) :
  length l1 = length k1 ->
  combine (l1 ++ l2) (k1 ++ k2) = combine l1 k1 ++ combine l2 k2.
Proof.
  revert k1. induction l1 as [|a l1 IH]; intros [|b k1] H; try discriminate H; [reflexivity|].
  cbn [app combine]. f_equal. apply IH. injection H as H. exact H.
Qed.

Section BatchFacts.
Variable scraped : nat -> list candidate.
Variable items : list item_info.

Let process : item_info * list candidate -> item_info :=
  fun '(item, products) => Scraper.process_product item products.

Lemma batch_loop_spec (batch_size : nat) :
  (0 < batch_size)%nat ->
  forall fuel i results pauses,
    (length items - i <= fuel)%nat ->
    FastScraper.batch_loop scraped items fuel batch_size i results i pauses
    = Ok (results ++ map process (combine (skipn i items)
                                    (map scraped (seq i (length items - i)))),
          (pauses + (length items - 1 - i) / batch_size)%nat).
Proof.
  intros Hbs. induction fuel as [|fuel IH]; intros i results pauses Hfuel.
  - cbn [FastScraper.batch_loop].
    destruct (Nat.ltb_spec i (length items)) as [Hlt|Hge]; [lia|].
    rewrite List.skipn_all2 by lia. cbn [combine map]. rewrite app_nil_r.
    replace (length items - 1 - i)%nat with 0%nat by lia.
    rewrite Nat.Div0.div_0_l, Nat.add_0_r. reflexivity.
  - cbn [FastScraper.batch_loop].
    destruct (Nat.ltb_spec i (length items)) as [Hlt|Hge].
    + set (batch := firstn batch_size (skipn i items)).
      assert (Hlen : length batch = Nat.min batch_size (length items - i)).
      { unfold batch. rewrite List.length_firstn, List.length_skipn. reflexivity. }
      assert (Hi : (i + length batch <= length items)%nat) by lia.
      destruct (Nat.ltb_spec (i + batch_size) (length items)) as [Hmore|Hlast].
      * assert (Hfull : length batch = batch_size) by lia.
        rewrite Hfull. rewrite IH by lia. f_equal. f_equal.
        -- assert (Hsplit : skipn i items = batch ++ skipn (i + batch_size) items).
           { unfold batch. rewrite (Nat.add_comm i), <- List.skipn_skipn.
             symmetry. apply List.firstn_skipn. }
           assert (Hseq : seq i (length items - i)
                          = seq i batch_size
                              ++ seq (i + batch_size) (length items - (i + batch_size))).
           { rewrite <- seq_app. f_equal. lia. }
           rewrite Hsplit, Hseq, map_app, combine_app_same, map_app, app_assoc;
             [reflexivity|].
           rewrite length_map, length_seq. exact Hfull.
        -- replace (length items - 1 - i)%nat
             with (length items - 1 - (i + batch_size) + 1 * batch_size)%nat by lia.
           rewrite Nat.div_add by lia. lia.
      * assert (Hrest : (length items <= i + length batch)%nat) by lia.
        destruct fuel as [|fuel'].
        -- cbn [FastScraper.batch_loop].
           destruct (Nat.ltb_spec (i + batch_size) (length items)) as [?|_]; [lia|].
           f_equal. f_equal.
           ++ f_equal. f_equal. unfold batch. rewrite List.firstn_all2
                by (rewrite List.length_skipn; lia).
              rewrite List.length_skipn. reflexivity.
           ++ rewrite Nat.div_small by lia. lia.
        -- cbn [FastScraper.batch_loop].
           destruct (Nat.ltb_spec (i + batch_size) (length items)) as [?|_]; [lia|].
           f_equal. f_equal.
           ++ f_equal. f_equal. unfold batch. rewrite List.firstn_all2
                by (rewrite List.length_skipn; lia).
              rewrite List.length_skipn. reflexivity.
           ++ rewrite Nat.div_small by lia. lia.
    + rewrite List.skipn_all2 by lia. cbn [combine map]. rewrite app_nil_r.
      replace (length items - 1 - i)%nat with 0%nat by lia.
      rewrite Nat.Div0.div_0_l, Nat.add_0_r. reflexivity.
Qed.

End BatchFacts.

(** X18: for a positive batch size the batching of [get_eligible_products]
    does not show in its result: every input item is processed once, in
    input order, each with the products of its own search, whatever the
    batch size; and the run pauses once between two batches, that is
    [(n - 1) / batch_size] times for [n] items.  A batch size of zero or
    below gives the empty list. *)
Theorem batching_keeps_every_item_in_order
    (scraped : nat -> list candidate) (items : list item_info) (batch_size : Z)
    (Hpositive : 0 < batch_size) :
  FastScraper.get_eligible_products scraped items batch_size
  = (processed_in_order scraped items,
     ((length items - 1) / Z.to_nat batch_size)%nat)
  /\ length (fst (FastScraper.get_eligible_products scraped items batch_size)) = length items
  /\ forall nonpositive, nonpositive <= 0 ->
       FastScraper.get_eligible_products scraped items nonpositive = ([], 0%nat).
Proof.
  assert (Hrun : FastScraper.get_eligible_products scraped items batch_size
                 = (processed_in_order scraped items,
                    ((length items - 1) / Z.to_nat batch_size)%nat)).
  { unfold FastScraper.get_eligible_products.
    destruct (Z.eqb_spec batch_size 0) as [?|_]; [lia|].
    destruct (Z.ltb_spec batch_size 0) as [?|_]; [lia|].
    rewrite batch_loop_spec by lia.
    unfold processed_in_order. cbn [skipn app]. rewrite !Nat.sub_0_r. reflexivity. }
  split; [exact Hrun|]. split.
  - rewrite Hrun. cbn [fst]. unfold processed_in_order.
    rewrite length_map, length_combine, length_map, length_seq. lia.
  - intros nonpositive Hle. unfold FastScraper.get_eligible_products.
    destruct (Z.eqb_spec nonpositive 0) as [?|Hne]; [reflexivity|].
    destruct (Z.ltb_spec nonpositive 0) as [?|?]; [reflexivity|lia].
Qed.

Lemma batching_keeps_every_item_in_order_kettles :
  FastScraper.get_eligible_products (fun _ => [kettle_a; kettle_b; kettle_c])
    [kettle_item; lamp_item; kettle_item] 2
  = (processed_in_order (fun _ => [kettle_a; kettle_b; kettle_c])
       [kettle_item; lamp_item; kettle_item], 1%nat).
Proof.
  apply (proj1 (batching_keeps_every_item_in_order (fun _ => [kettle_a; kettle_b; kettle_c])
                  [kettle_item; lamp_item; kettle_item] 2 eq_refl)).
Defined.

(* ===================================================================== *)
(** * Facts on [save_output_data]                                         *)
(* ===================================================================== *)

Lemma find_app_last (A : Type) (f : A -> bool) (l : list A) (x : A) :
  List.find f (l ++ [x])
  = match List.find f l with
    | Some y => Some y
    | None => if f x then Some x else None
    end.
Proof.
  induction l as [|a l IH]; [reflexivity|].
  cbn [app List.find]. destruct (f a); [reflexivity|exact IH].
Qed.

Section OutputFacts.
Variable lower : string -> string.

Lemma output_loop_named (data : list item_info) (acc : gmap string item_info) :
  Forall (fun item => product_name item <> None) data ->
  exists final_data,
    Output.output_loop lower data acc = Ok final_data
    /\ forall k, final_data !! k
                 = match List.find (keyed lower k) (rev data) with
                   | Some item => Some item
                   | None => acc !! k
                   end.
Proof.
  intros Hnamed. revert acc.
  induction Hnamed as [|item rest Hitem _ IH]; intros acc.
  - exists acc. split; reflexivity.
  - cbn [Output.output_loop rev]. destruct (product_name item) as [n|] eqn:En; [|congruence].
    destruct (String.eqb (Output.output_key lower n) "") eqn:Ekey; cbn [negb].
    + destruct (IH acc) as (final_data & Hrun & Hlook). exists final_data.
      split; [exact Hrun|]. intros k. rewrite Hlook, find_app_last.
      destruct (List.find (keyed lower k) (rev rest)); [reflexivity|].
      unfold keyed. rewrite En.
      destruct (String.eqb_spec (Output.output_key lower n) k) as [<-|_]; [|reflexivity].
      rewrite Ekey. reflexivity.
    + destruct (IH (<[ Output.output_key lower n := item ]> acc))
        as (final_data & Hrun & Hlook).
      exists final_data. split; [exact Hrun|]. intros k. rewrite Hlook, find_app_last.
      destruct (List.find (keyed lower k) (rev rest)); [reflexivity|].
      unfold keyed. rewrite En.
      destruct (String.eqb_spec (Output.output_key lower n) k) as [<-|Hne].
      * rewrite Ekey, lookup_insert_eq. reflexivity.
      * rewrite lookup_insert_ne by exact Hne. reflexivity.
Qed.

Lemma replaced_clean (n : string) :
  has_char " "%char
    (Output.replace_char "'" "_" (Output.replace_char "," "_" (Output.replace_char " " "_" n)))
  = false
  /\ has_char ","%char
       (Output.replace_char "'" "_" (Output.replace_char "," "_" (Output.replace_char " " "_" n)))
     = false
  /\ has_char "'"%char
       (Output.replace_char "'" "_" (Output.replace_char "," "_" (Output.replace_char " " "_" n)))
     = false.
Proof.
  unfold Output.replace_char.
  induction n as [|a n (IH1 & IH2 & IH3)]; [repeat split|].
  cbn [Helpers.map_string has_char]. rewrite IH1, IH2, IH3, !orb_false_r.
  clear. destruct a as [[] [] [] [] [] [] [] []]; repeat split.
Qed.

Lemma output_key_clean (n : string) :
  has_char " "%char (Output.output_key lower n) = false
  /\ has_char ","%char (Output.output_key lower n) = false
  /\ has_char "'"%char (Output.output_key lower n) = false.
Proof. unfold Output.output_key. apply replaced_clean. Qed.

Lemma save_output_data_posix (creatable : bool) (data : list item_info) :
  Output.save_output_data lower Posix creatable data = None.
Proof. reflexivity. Qed.

End OutputFacts.

(** X19: where the directory of the output path can be made, which takes
    Windows, and every item has a name, [save_output_data] dumps one entry
    for each key that is not empty, and under a key the last item of the
    data whose name comes to that key: items whose names differ only in
    case, spaces, commas and apostrophes displace one another.  No key of
    the dump holds a space, a comma or an apostrophe.  Elsewhere nothing is
    dumped, whatever the data: [os.path.dirname] of the backslash path is
    empty and [os.makedirs] raises on it, and so it does on a directory
    that cannot be made. *)
Theorem output_keeps_the_last_item_of_a_key (lower : string -> string)
    (data : list item_info)
    (Hnamed : Forall (fun item => product_name item <> None) data) :
  (exists final_data,
     Output.save_output_data lower Windows true data = Some final_data
     /\ (forall k, final_data !! k = List.find (keyed lower k) (rev data))
     /\ forall k item, final_data !! k = Some item ->
          k <> ""%string
          /\ has_char " "%char k = false
          /\ has_char ","%char k = false
          /\ has_char "'"%char k = false)
  /\ (forall creatable data', Output.save_output_data lower Posix creatable data' = None)
  /\ (forall os data', Output.save_output_data lower os false data' = None).
Proof.
  split; [|split; [intros; reflexivity|intros [|] data'; reflexivity]].
  destruct (output_loop_named lower data ∅ Hnamed) as (final_data & Hrun & Hlook).
  exists final_data. unfold Output.save_output_data.
  cbn [Output.output_dir Output.makedirs String.eqb Ascii.eqb Bool.eqb]. step_bind.
  rewrite Hrun.
  assert (Hfind : forall k, final_data !! k = List.find (keyed lower k) (rev data)).
  { intros k. rewrite Hlook, lookup_empty.
    destruct (List.find (keyed lower k) (rev data)); reflexivity. }
  split; [reflexivity|]. split; [exact Hfind|].
  intros k item Hk. rewrite Hfind in Hk. apply List.find_some in Hk as [_ Hk].
  unfold keyed in Hk. destruct (product_name item) as [n|]; [|discriminate].
  apply andb_true_iff in Hk as [Hkey Hne]. apply String.eqb_eq in Hkey. subst k.
  split; [|apply output_key_clean].
  intros E. rewrite E in Hne. discriminate Hne.
Qed.

Lemma output_keeps_the_last_item_of_a_key_lamps :
  exists final_data,
    Output.save_output_data sample_lower Windows true
      [lamp_item; kettle_item; set_eligible lamp_item (Bare []) None]
    = Some final_data
    /\ (forall k, final_data !! k
                  = List.find (keyed sample_lower k)
                      (rev [lamp_item; kettle_item; set_eligible lamp_item (Bare []) None])).
Proof.
  destruct (output_keeps_the_last_item_of_a_key sample_lower
              [lamp_item; kettle_item; set_eligible lamp_item (Bare []) None])
    as [(final_data & Hrun & Hfind & _) _].
  - repeat constructor; discriminate.
  - exists final_data. split; [exact Hrun|exact Hfind].
Defined.

(** The key of the sample lamp, and the later of the two lamps under it;
    the same data away from Windows. *)
Example output_key_sample :
  Output.output_key sample_lower "Desk Lamp, 40'" = "desk_lamp__40_"
  /\ (exists final_data,
        Output.save_output_data sample_lower Windows true
          [lamp_item; kettle_item; set_eligible lamp_item (Bare []) None]
        = Some final_data
        /\ final_data !! "desk_lamp__40_" = Some (set_eligible lamp_item (Bare []) None)
        /\ final_data !! "kettle" = Some kettle_item)
  /\ Output.save_output_data sample_lower Posix true
       [lamp_item; kettle_item; set_eligible lamp_item (Bare []) None]
     = None.
Proof.
  split; [reflexivity|]. split; [|reflexivity].
  eexists. split; [reflexivity|]. split; reflexivity.
Qed.

(** X20: one item without a name, anywhere in the data, and
    [save_output_data] dumps nothing: the entries of the named items
    before and after it are lost with it. *)
Theorem one_nameless_item_voids_the_output (lower : string -> string) (os : platform)
    (creatable : bool) (data : list item_info) (item : item_info)
    (Hin : In item data) (Hnameless : product_name item = None) :
  Output.save_output_data lower os creatable data = None.
Proof.
  unfold Output.save_output_data.
  assert (Hraise : forall acc, Output.output_loop lower data acc = Raise AttributeError).
  { induction data as [|x rest IH]; [destruct Hin|]. intros acc. cbn [Output.output_loop].
    destruct Hin as [-> | Hin].
    - rewrite Hnameless. reflexivity.
    - destruct (product_name x) as [n|]; [|reflexivity].
      destruct (negb (String.eqb (Output.output_key lower n) "")); apply IH; exact Hin. }
  destruct (Output.makedirs creatable (Output.output_dir os)) as [[]| |]; try reflexivity.
  step_bind. rewrite Hraise. reflexivity.
Qed.

Lemma one_nameless_item_voids_the_output_kettle :
  Output.save_output_data sample_lower Windows true [kettle_item; nameless_item; lamp_item]
  = None.
Proof.
  apply (one_nameless_item_voids_the_output sample_lower Windows true
           [kettle_item; nameless_item; lamp_item] nameless_item);
    [right; left; reflexivity|reflexivity].
Defined.

(* ===================================================================== *)
(** * Further facts on [load_input_data]                                  *)
(* ===================================================================== *)

Lemma extras_loop_named (cells : list (option string * option string))
    (d d' : gmap string field_value) :
  Helpers.extras_loop cells d = Loaded d' ->
  (exists s, d !! "product_name" = Some (FStr s) /\ s <> ""%string) ->
  exists s, d' !! "product_name" = Some (FStr s) /\ s <> ""%string.
Proof.
  revert d. induction cells as [|[[key|] [value|]] cells IH]; intros d Hrun Hd;
    cbn [Helpers.extras_loop] in Hrun; try discriminate.
  - injection Hrun as <-. exact Hd.
  - destruct (String.eqb (Helpers.strip value) "") eqn:He; cbn [negb] in Hrun.
    + eapply IH; eassumption.
    + eapply IH; [exact Hrun|].
      destruct (String.eqb_spec (Helpers.normalize_key key) "product_name") as [->|Hne].
      * rewrite lookup_insert_eq. exists (Helpers.strip value). split; [reflexivity|].
        apply String.eqb_neq. exact He.
      * rewrite lookup_insert_ne by exact Hne. exact Hd.
Qed.

(** X21: every product that [load_input_data] returns has a name that is
    a text and not empty, whatever the other columns of its row hold. *)
Theorem loaded_products_are_named (file : option csv_file)
    (products : list (gmap string field_value))
    (Hloaded : Helpers.load_input_data file = Ok products) :
  Forall (fun product_info =>
            exists s, product_info !! "product_name" = Some (FStr s) /\ s <> ""%string)
    products.
Proof.
  assert (Hrows : exists l, products = Helpers.load_rows l []).
  { unfold Helpers.load_input_data in Hloaded. destruct file as [f|]; [|discriminate].
    destruct (fieldnames f); [discriminate|].
    destruct (forallb _ Helpers.required_fields); [|discriminate].
    injection Hloaded as <-. eexists; reflexivity. }
  destruct Hrows as (l & ->). rewrite load_rows_spec. cbn [app].
  apply List.Forall_forall. intros d Hd.
  apply list_elem_of_In, list_elem_of_omap in Hd as (row & _ & Hrow).
  destruct (Helpers.load_row row) as [d0| |] eqn:Er; try discriminate.
  injection Hrow as ->.
  destruct (load_row_loaded row d Er) as (nm & min_cell & max_cell & Hn & Hne & Hmin & Hmax).
  rewrite (load_row_unfold row nm min_cell max_cell Hn Hne Hmin Hmax) in Er.
  eapply extras_loop_named; [exact Er|].
  exists (Helpers.strip nm). split; [|exact Hne].
  rewrite lookup_insert_ne by discriminate. rewrite lookup_insert_ne by discriminate.
  apply lookup_singleton_eq.
Qed.

Lemma loaded_products_are_named_sample :
  exists products,
    Helpers.load_input_data (Some sample_file) = Ok products
    /\ Forall (fun product_info =>
                 exists s, product_info !! "product_name" = Some (FStr s) /\ s <> ""%string)
         products.
Proof.
  eexists. split; [reflexivity|].
  apply (loaded_products_are_named (Some sample_file)). reflexivity.
Defined.

(** X22: the rows are loaded one by one: a row that is skipped or dropped
    takes nothing else with it, and the products of the other rows keep
    their order. *)
Theorem rows_load_independently (before : list csv_row) (row : csv_row) (after : list csv_row) :
  Helpers.load_rows (before ++ row :: after) []
  = Helpers.load_rows before []
      ++ match Helpers.load_row row with Loaded product_info => [product_info] | _ => [] end
      ++ Helpers.load_rows after [].
Proof.
  rewrite !load_rows_spec. cbn [app]. rewrite omap_app. f_equal.
  change (omap ?f (row :: after))
    with (match f row with Some y => y :: omap f after | None => omap f after end).
  cbv beta. destruct (Helpers.load_row row); reflexivity.
Qed.
